(** * AcuRite 00523 / 00609 RF decoders: framing machines and device validators

    A shallow embedding of [acurite523.cpp], [acurite609.cpp], the shared
    header [acumonitor.h] and the dispatcher of [acumonitor.ino].

    Conventions.
    - [uint64_t], [uint32_t], [uint16_t], [uint8_t] values are [Z] with the
      wrap-around written where the source can overflow.
    - The [int] fields [bitstream_size] and [bitstream_opener_count] are [Z];
      the invariants below show that they stay tiny, so the (undefined)
      signed overflow of the source is never reached from the initial state.
    - [float] is IEEE-754 binary32, computed with the parametric operations
      of [SpecFloat] at precision 24 and maximal exponent 128.
    - Member functions take the object as first argument and return the
      updated object next to their result.  [Serial.print] calls have no
      effect on the state and are left out. *)

From Stdlib Require Import ZArith List Bool Lia.
From Stdlib Require Import SpecFloat.
Import ListNotations.

Local Open Scope Z_scope.
Local Open Scope bool_scope.

(** ** Fixed-width integers *)

Definition wrap (w : Z) (x : Z) : Z := x mod 2 ^ w.

Definition wrap_signed (w : Z) (x : Z) : Z :=
  let u := wrap w x in
  if u <? 2 ^ (w - 1) then u else u - 2 ^ w.

(** ** binary32 arithmetic *)

Module F32.

Definition prec : Z := 24.
Definition emax : Z := 128.

Definition t : Type := spec_float.

(** Integer to [float] conversion (round to nearest even). *)
Definition of_Z (z : Z) : t := binary_normalize prec emax z 0 false.

Definition sub (x y : t) : t := SFsub prec emax x y.
Definition mul (x y : t) : t := SFmul prec emax x y.
Definition div (x y : t) : t := SFdiv prec emax x y.
Definition opp (x : t) : t := SFopp x.
Definition ltb (x y : t) : bool := SFltb x y.
Definition gtb (x y : t) : bool := SFltb y x.
Definition geb (x y : t) : bool := SFleb y x.

(** [float] to integer conversion: the fractional part is discarded
    (truncation toward zero).  The source only converts finite values, and
    only values whose integer part fits the target type (C++ leaves the
    other conversions undefined; [to_uint16] and [to_int16] wrap). *)
Definition trunc (x : t) : Z :=
  match x with
  | S754_finite s m e =>
      let v := Z.shiftl (Zpos m) e in
      if s then - v else v
  | _ => 0
  end.

Definition to_uint16 (x : t) : Z := wrap 16 (trunc x).
Definition to_int16 (x : t) : Z := wrap_signed 16 (trunc x).

End F32.

(** ** acumonitor.h: constants and the wire record *)

Definition TAG_TEMPMONITOR : Z := 0x38073162.

Definition MODEL_ACURITE523 : Z := 1592.
Definition MODEL_ACURITE609 : Z := 6585.

Definition DEVICE_FREEZER : Z := 9690.
Definition DEVICE_FRIDGE : Z := 7784.
Definition DEVICE_OUTDOOR : Z := 8501.

Definition STATUS_UNKNOWN : Z := 0.
Definition STATUS_OK : Z := 1.
Definition STATUS_READ_FAIL : Z := 2.
Definition STATUS_TIMEOUT : Z := 3.
Definition STATUS_NO_DATA : Z := 4.

Record Payload : Type := mkPayload {
  tag : Z;
  model : Z;
  device : Z;
  status : Z;
  battery : Z;
  temperature : Z;
  humidity : Z
}.

(** ** Model 00523 *)

Module Acurite523.

Definition SIGNAL_BIT_LENGTH : Z := 48.
Definition CHANNEL_ID : Z := 0.
Definition SIG_FREEZER : Z := 0xc049.
Definition SIG_FRIDGE : Z := 0xc07c.

(** The [ACURITE523_SIGNAL_*] constants. *)
Inductive signal : Type :=
| SIGNAL_INV
| SIGNAL_BIT_0_OFF
| SIGNAL_BIT_0_ON
| SIGNAL_BIT_1_OFF
| SIGNAL_BIT_1_ON
| SIGNAL_BITSTREAM_OFF
| SIGNAL_BITSTREAM_ON
| SIGNAL_CHUNK_END.

Definition signal_code (s : signal) : Z :=
  match s with
  | SIGNAL_INV => -2
  | SIGNAL_BIT_0_OFF => 0
  | SIGNAL_BIT_0_ON => 1
  | SIGNAL_BIT_1_OFF => 2
  | SIGNAL_BIT_1_ON => 3
  | SIGNAL_BITSTREAM_OFF => 4
  | SIGNAL_BITSTREAM_ON => 5
  | SIGNAL_CHUNK_END => 6
  end.

Definition signal_eqb (a b : signal) : bool :=
  signal_code a =? signal_code b.

Module Model.

Record t : Type := mk {
  is_acurite : bool;
  chunk_open : bool;
  bitstream : Z;
  bitstream_size : Z;
  bitstream_open : bool;
  bitstream_opener_count : Z;
  last_rfs_type : signal
}.

Definition set_chunk_open (v : bool) (m : t) : t :=
  mk (is_acurite m) v (bitstream m) (bitstream_size m)
     (bitstream_open m) (bitstream_opener_count m) (last_rfs_type m).
Definition set_bitstream (v : Z) (m : t) : t :=
  mk (is_acurite m) (chunk_open m) v (bitstream_size m)
     (bitstream_open m) (bitstream_opener_count m) (last_rfs_type m).
Definition set_bitstream_size (v : Z) (m : t) : t :=
  mk (is_acurite m) (chunk_open m) (bitstream m) v
     (bitstream_open m) (bitstream_opener_count m) (last_rfs_type m).
Definition set_bitstream_open (v : bool) (m : t) : t :=
  mk (is_acurite m) (chunk_open m) (bitstream m) (bitstream_size m)
     v (bitstream_opener_count m) (last_rfs_type m).
Definition set_bitstream_opener_count (v : Z) (m : t) : t :=
  mk (is_acurite m) (chunk_open m) (bitstream m) (bitstream_size m)
     (bitstream_open m) v (last_rfs_type m).
Definition set_last_rfs_type (v : signal) (m : t) : t :=
  mk (is_acurite m) (chunk_open m) (bitstream m) (bitstream_size m)
     (bitstream_open m) (bitstream_opener_count m) v.

(** The model objects are globals of the sketch: their scalar members
    are zero-initialised and the constructor only stores the device
    list, so the first [parse_rf] call sees every field at zero
    ([last_rfs_type = 0] is [ACURITE523_SIGNAL_BIT_0_OFF]). *)
Definition init : t := mk false false 0 0 false 0 SIGNAL_BIT_0_OFF.

Definition clear (m : t) : t :=
  let m := set_bitstream 0 m in
  let m := set_bitstream_size 0 m in
  let m := set_last_rfs_type SIGNAL_INV m in
  let m := set_bitstream_open false m in
  let m := set_bitstream_opener_count 0 m in
  m.

Definition get_rfs_type (rfs duration : Z) : signal :=
  if rfs =? 0 then
    if (100 <=? duration) && (duration <? 300) then SIGNAL_BIT_0_OFF
    else if (300 <=? duration) && (duration <? 500) then SIGNAL_BIT_1_OFF
    else if (500 <=? duration) && (duration <? 700) then SIGNAL_BITSTREAM_OFF
    else SIGNAL_INV
  else if rfs =? 1 then
    if (100 <=? duration) && (duration <? 300) then SIGNAL_BIT_1_ON
    else if (300 <=? duration) && (duration <? 500) then SIGNAL_BIT_0_ON
    else if (500 <=? duration) && (duration <? 700) then SIGNAL_BITSTREAM_ON
    else if (20000 <=? duration) && (duration <? 60000) then SIGNAL_CHUNK_END
    else SIGNAL_INV
  else SIGNAL_INV.

Definition is_bit_signal (rfs_type : signal) : bool :=
  signal_eqb rfs_type SIGNAL_BIT_0_OFF ||
  signal_eqb rfs_type SIGNAL_BIT_0_ON ||
  signal_eqb rfs_type SIGNAL_BIT_1_OFF ||
  signal_eqb rfs_type SIGNAL_BIT_1_ON.

Definition open_bitstream (m : t) : t :=
  set_bitstream 0 (set_bitstream_size 0 (set_bitstream_open true m)).

Definition close_bitstream (m : t) : t :=
  set_bitstream 0 (set_bitstream_size 0 (set_bitstream_open false m)).

Definition open_chunk (m : t) : t :=
  open_bitstream (set_chunk_open true m).

Definition close_chunk (m : t) : t :=
  close_bitstream (set_chunk_open false m).

Definition parse_rf (m : t) (duration rfs : Z) : Z * t :=
  let rfs_type := get_rfs_type rfs duration in
  let '(result, m) :=
    if signal_eqb (last_rfs_type m) SIGNAL_BITSTREAM_OFF
       || negb (chunk_open m) then
      let m :=
        if signal_eqb rfs_type SIGNAL_BITSTREAM_ON
        then set_bitstream_opener_count (bitstream_opener_count m + 1) m
        else m in
      let m :=
        if bitstream_opener_count m =? 4 then
          let m := set_bitstream_opener_count 0 m in
          if negb (chunk_open m) then open_chunk m else m
        else m in
      (0, m)
    else if signal_eqb (last_rfs_type m) SIGNAL_BIT_0_OFF
            && chunk_open m then
      let '(result, m) :=
        if signal_eqb rfs_type SIGNAL_BIT_0_ON
           && (bitstream_size m <? SIGNAL_BIT_LENGTH) then
          let m := set_bitstream_size (bitstream_size m + 1) m in
          if bitstream_size m =? SIGNAL_BIT_LENGTH
          then (bitstream m, close_bitstream m)
          else (0, m)
        else if signal_eqb rfs_type SIGNAL_BIT_1_ON
                && (bitstream_size m =? SIGNAL_BIT_LENGTH) then
          (bitstream m, close_bitstream m)
        else if signal_eqb rfs_type SIGNAL_CHUNK_END then
          ((if bitstream_size m =? SIGNAL_BIT_LENGTH
            then bitstream m else 0),
           close_chunk m)
        else (0, m) in
      (result, set_bitstream_opener_count 0 m)
    else if signal_eqb (last_rfs_type m) SIGNAL_BIT_1_OFF
            && chunk_open m then
      if signal_eqb rfs_type SIGNAL_BIT_1_ON
         && (bitstream_size m <? SIGNAL_BIT_LENGTH) then
        let m :=
          set_bitstream
            (wrap 64
               (Z.lor (bitstream m)
                  (wrap 64
                     (Z.shiftl 1
                        (SIGNAL_BIT_LENGTH - bitstream_size m - 1)))))
            m in
        let m := set_bitstream_size (bitstream_size m + 1) m in
        if bitstream_size m =? SIGNAL_BIT_LENGTH
        then (bitstream m, close_bitstream m)
        else (0, m)
      else (0, m)
    else (0, m) in
  (result, set_last_rfs_type rfs_type m).

End Model.

Module Device.

Record t : Type := mk {
  device : Z;
  signature : Z;
  battery : Z;
  temperature : F32.t
}.

(** Constructor [Device(uint16_t device)]. *)
Definition new (device : Z) : t :=
  mk device
     (if device =? DEVICE_FREEZER then SIG_FREEZER
      else if device =? DEVICE_FRIDGE then SIG_FRIDGE
      else 0)
     0
     (F32.of_Z 0).

Definition create_payload (d : t) (status : Z) : Payload :=
  mkPayload TAG_TEMPMONITOR MODEL_ACURITE523 (device d) status
    (battery d)
    (F32.to_int16 (F32.mul (temperature d) (F32.of_Z 10)))
    0.

Definition validate_checksum (bitstream : Z) : bool :=
  let checksum := Z.land bitstream 0xff in
  let calculated :=
    Z.land
      (wrap 64
         (Z.land (Z.shiftr bitstream 8) 0xff
          + Z.land (Z.shiftr bitstream 16) 0xff
          + Z.land (Z.shiftr bitstream 24) 0xff
          + Z.land (Z.shiftr bitstream 32) 0xff
          + Z.shiftr bitstream 40))
      0xff in
  checksum =? calculated.

(** The [for] loop of [validate_parity]: [n] iterations left. *)
Fixpoint count_on_bits (n : nat) (value on_bits : Z) : Z :=
  match n with
  | O => on_bits
  | S n => count_on_bits n (Z.shiftr value 1) (on_bits + Z.land value 1)
  end.

Definition validate_parity (parity value : Z) : bool :=
  Z.rem (count_on_bits 8 value 0) 2 =? parity.

Definition validate_bitstream (d : t) (bitstream : Z) : bool * t :=
  if bitstream =? 0 then (false, d) else
  let sig := wrap 16 (Z.shiftr bitstream 32) in
  if negb (sig =? signature d) then (false, d) else
  if negb (validate_checksum bitstream) then (false, d) else
  let bat := Z.land (Z.shiftr bitstream 30) 0x03 in
  let parity1 := Z.land (Z.shiftr bitstream 15) 1 in
  let byte1 := Z.land (Z.shiftr bitstream 8) 0x7f in
  let parity2 := Z.land (Z.shiftr bitstream 23) 1 in
  let byte2 := Z.land (Z.shiftr bitstream 16) 0x7f in
  if negb (validate_parity parity1 byte1)
     || negb (validate_parity parity2 byte2) then (false, d) else
  let temp := F32.of_Z (Z.lor (Z.shiftl byte2 7) byte1) in
  let temp := F32.div (F32.sub temp (F32.of_Z 1800)) (F32.of_Z 18) in
  if F32.ltb temp (F32.of_Z (-40)) || F32.geb temp (F32.of_Z 70)
  then (false, d) else
  (true, mk (device d) (signature d) bat temp).

End Device.

End Acurite523.

(** ** Model 00609 *)

Module Acurite609.

Definition SIGNAL_BIT_LENGTH : Z := 40.
Definition CHANNEL_ID : Z := 2.

(** The [ACURITE609_SIGNAL_*] constants. *)
Inductive signal : Type :=
| SIGNAL_INV
| SIGNAL_OFF
| SIGNAL_BIT_0
| SIGNAL_BIT_1
| SIGNAL_BITSTREAM_START
| SIGNAL_BITSTREAM_END
| SIGNAL_CHUNK_START
| SIGNAL_CHUNK_END.

Definition signal_code (s : signal) : Z :=
  match s with
  | SIGNAL_INV => -2
  | SIGNAL_OFF => -1
  | SIGNAL_BIT_0 => 0
  | SIGNAL_BIT_1 => 1
  | SIGNAL_BITSTREAM_START => 2
  | SIGNAL_BITSTREAM_END => 3
  | SIGNAL_CHUNK_START => 4
  | SIGNAL_CHUNK_END => 5
  end.

Definition signal_eqb (a b : signal) : bool :=
  signal_code a =? signal_code b.

Module Model.

Record t : Type := mk {
  bitstream : Z;
  bitstream_size : Z;
  last_rfs_type : signal;
  is_acurite : bool;
  bitstream_open : bool;
  chunk_open : bool
}.

Definition set_bitstream (v : Z) (m : t) : t :=
  mk v (bitstream_size m) (last_rfs_type m) (is_acurite m)
     (bitstream_open m) (chunk_open m).
Definition set_bitstream_size (v : Z) (m : t) : t :=
  mk (bitstream m) v (last_rfs_type m) (is_acurite m)
     (bitstream_open m) (chunk_open m).
Definition set_last_rfs_type (v : signal) (m : t) : t :=
  mk (bitstream m) (bitstream_size m) v (is_acurite m)
     (bitstream_open m) (chunk_open m).
Definition set_bitstream_open (v : bool) (m : t) : t :=
  mk (bitstream m) (bitstream_size m) (last_rfs_type m) (is_acurite m)
     v (chunk_open m).
Definition set_chunk_open (v : bool) (m : t) : t :=
  mk (bitstream m) (bitstream_size m) (last_rfs_type m) (is_acurite m)
     (bitstream_open m) v.

(** Zero-initialised global, as for the 00523 model
    ([last_rfs_type = 0] is [ACURITE609_SIGNAL_BIT_0]). *)
Definition init : t := mk 0 0 SIGNAL_BIT_0 false false false.

Definition clear (m : t) : t :=
  let m := set_bitstream 0 m in
  let m := set_bitstream_size 0 m in
  let m := set_last_rfs_type SIGNAL_INV m in
  let m := set_bitstream_open false m in
  m.

Definition get_rfs_type (rfs duration : Z) : signal :=
  if rfs =? 0 then
    if duration <? 1200 then SIGNAL_OFF
    else SIGNAL_INV
  else if rfs =? 1 then
    if duration <? 300 then SIGNAL_CHUNK_START
    else if (300 <=? duration) && (duration <? 1200) then SIGNAL_BIT_0
    else if (1200 <=? duration) && (duration <? 3000) then SIGNAL_BIT_1
    else if (8700 <=? duration) && (duration <? 9000)
         then SIGNAL_BITSTREAM_START
    else if (10000 <=? duration) && (duration <? 20000)
         then SIGNAL_BITSTREAM_END
    else if (20000 <=? duration) && (duration <? 40000)
         then SIGNAL_CHUNK_END
    else SIGNAL_INV
  else SIGNAL_INV.

Definition is_bit_signal (rfs_type : signal) : bool :=
  signal_eqb rfs_type SIGNAL_BIT_0 || signal_eqb rfs_type SIGNAL_BIT_1.

Definition open_bitstream (m : t) : t :=
  set_bitstream 0 (set_bitstream_size 0 (set_bitstream_open true m)).

Definition close_bitstream (m : t) : t :=
  set_bitstream 0 (set_bitstream_size 0 (set_bitstream_open false m)).

Definition open_chunk (m : t) : t :=
  open_bitstream (set_chunk_open true m).

Definition close_chunk (m : t) : t :=
  close_bitstream (set_chunk_open false m).

Definition parse_rf (m : t) (duration rfs : Z) : Z * t :=
  let rfs_type := get_rfs_type rfs duration in
  let '(result, m) :=
    if signal_eqb (last_rfs_type m) SIGNAL_OFF
       && negb (chunk_open m) then
      if signal_eqb rfs_type SIGNAL_BITSTREAM_START
      then (0, open_chunk m)
      else (0, m)
    else if signal_eqb (last_rfs_type m) SIGNAL_OFF
            && chunk_open m then
      if signal_eqb rfs_type SIGNAL_BITSTREAM_START
         && negb (bitstream_open m) then
        ((if bitstream_size m =? SIGNAL_BIT_LENGTH
          then bitstream m else 0),
         open_bitstream m)
      else if signal_eqb rfs_type SIGNAL_BITSTREAM_END
              && bitstream_open m then
        ((if bitstream_size m =? SIGNAL_BIT_LENGTH
          then bitstream m else 0),
         close_bitstream m)
      else if signal_eqb rfs_type SIGNAL_CHUNK_END then
        let m := set_last_rfs_type rfs_type m in
        ((if bitstream_size m =? SIGNAL_BIT_LENGTH
          then bitstream m else 0),
         close_chunk m)
      else if is_bit_signal rfs_type && bitstream_open m then
        let m :=
          if signal_eqb rfs_type SIGNAL_BIT_1
             && (bitstream_size m <? SIGNAL_BIT_LENGTH) then
            set_bitstream
              (wrap 64
                 (Z.lor (bitstream m)
                    (wrap 64
                       (Z.shiftl 1
                          (SIGNAL_BIT_LENGTH - bitstream_size m - 1)))))
              m
          else m in
        let m := set_bitstream_size (bitstream_size m + 1) m in
        if bitstream_size m =? SIGNAL_BIT_LENGTH
        then (bitstream m, close_bitstream m)
        else (0, m)
      else (0, m)
    else (0, m) in
  (result, set_last_rfs_type rfs_type m).

End Model.

Module Device.

Record t : Type := mk {
  device : Z;
  signature : Z;
  battery : Z;
  temperature : F32.t;
  humidity : F32.t
}.

(** Constructor [Device(uint16_t device)]. *)
Definition new (device : Z) : t :=
  mk device 0 0 (F32.of_Z 0) (F32.of_Z 0).

Definition create_payload (d : t) (status : Z) : Payload :=
  mkPayload TAG_TEMPMONITOR MODEL_ACURITE609 (device d) status
    (battery d)
    (F32.to_int16 (F32.mul (temperature d) (F32.of_Z 10)))
    (F32.to_int16 (F32.mul (humidity d) (F32.of_Z 10))).

Definition validate_checksum (bitstream : Z) : bool :=
  let checksum := Z.land bitstream 0xff in
  let calculated :=
    Z.land
      (wrap 64
         (Z.land (Z.shiftr bitstream 8) 0xff
          + Z.land (Z.shiftr bitstream 16) 0xff
          + Z.land (Z.shiftr bitstream 24) 0xff
          + Z.shiftr bitstream 32))
      0xff in
  checksum =? calculated.

(** The condition [(uint16_t)temp & 0x1000 == 0x1000] as C++ parses it:
    [==] binds tighter than [&], so the mask is the value of the
    comparison [0x1000 == 0x1000]. *)
Definition sign_test (temp : F32.t) : bool :=
  negb (Z.land (F32.to_uint16 temp) (Z.b2z (0x1000 =? 0x1000)) =? 0).

(** Lines 180-183: the temperature decoded from the candidate. *)
Definition decode_temp (bitstream : Z) : F32.t :=
  let temp := F32.of_Z (Z.land (Z.shiftr bitstream 15) 0x1fff) in
  let temp :=
    if sign_test temp
    then F32.opp (F32.sub (F32.of_Z 0x2000) temp)
    else temp in
  F32.div temp (F32.of_Z 20).

(** Line 185: the rejection test on humidity and temperature. *)
Definition out_of_range (hum temp : F32.t) : bool :=
  F32.ltb hum (F32.of_Z 1) || F32.gtb hum (F32.of_Z 99)
  || F32.ltb temp (F32.of_Z (-40)) || F32.gtb temp (F32.of_Z 70).

Definition validate_bitstream (d : t) (bitstream : Z) : bool * t :=
  if bitstream =? 0 then (false, d) else
  let sig := wrap 16 (Z.shiftr bitstream 32) in
  if negb (signature d =? 0) && negb (signature d =? sig)
  then (false, d) else
  let cha := Z.land (Z.shiftr bitstream 28) 0x03 in
  if negb (cha =? CHANNEL_ID) then (false, d) else
  if negb (validate_checksum bitstream) then (false, d) else
  let bat := Z.land (Z.shiftr bitstream 30) 0x03 in
  let temp := decode_temp bitstream in
  let hum := F32.of_Z (Z.land (Z.shiftr bitstream 8) 0x7f) in
  if out_of_range hum temp then (false, d) else
  let signature' := if signature d =? 0 then sig else signature d in
  (true, mk (device d) signature' bat temp hum).

End Device.

End Acurite609.

(** ** acumonitor.ino: the dispatcher *)

Module Monitor.

Record t : Type := mk {
  acurite523 : Acurite523.Model.t;
  devices523 : list Acurite523.Device.t;
  acurite609 : Acurite609.Model.t;
  devices609 : list Acurite609.Device.t
}.

(** The globals [freezer], [fridge], [outdoor], [acurite523] and
    [acurite609]. *)
Definition init : t :=
  mk Acurite523.Model.init
     [Acurite523.Device.new DEVICE_FREEZER;
      Acurite523.Device.new DEVICE_FRIDGE]
     Acurite609.Model.init
     [Acurite609.Device.new DEVICE_OUTDOOR].

(** The range-[for] loops of [parseRf] iterate over copies of the
    devices: [validate_bitstream] and [updateStats] act on the copy, and
    the payload built by [updateStats] is what the loop produces. *)
Fixpoint scan523 (devices : list Acurite523.Device.t) (result : Z)
  : option Payload :=
  match devices with
  | [] => None
  | device :: rest =>
      let '(ok, device) :=
        Acurite523.Device.validate_bitstream device result in
      if ok
      then Some (Acurite523.Device.create_payload device STATUS_OK)
      else scan523 rest result
  end.

Fixpoint scan609 (devices : list Acurite609.Device.t) (result : Z)
  : option Payload :=
  match devices with
  | [] => None
  | device :: rest =>
      let '(ok, device) :=
        Acurite609.Device.validate_bitstream device result in
      if ok
      then Some (Acurite609.Device.create_payload device STATUS_OK)
      else scan609 rest result
  end.

(** [parseRf]: the returned option is the payload handed to
    [updateStats]; it is [Some] exactly when the function returns
    [true]. *)
Definition parseRf (st : t) (duration rfs : Z) : option Payload * t :=
  let '(result, m523) :=
    Acurite523.Model.parse_rf (acurite523 st) duration rfs in
  let st := mk m523 (devices523 st) (acurite609 st) (devices609 st) in
  match (if result =? 0 then None else scan523 (devices523 st) result) with
  | Some p => (Some p, st)
  | None =>
      let '(result, m609) :=
        Acurite609.Model.parse_rf (acurite609 st) duration rfs in
      let st := mk (acurite523 st) (devices523 st) m609 (devices609 st) in
      ((if result =? 0 then None else scan609 (devices609 st) result), st)
  end.

Definition resetRf (st : t) : t :=
  mk (Acurite523.Model.clear (acurite523 st)) (devices523 st)
     (Acurite609.Model.clear (acurite609 st)) (devices609 st).

End Monitor.

(** ** Driving the framing machines

    A host calls [parse_rf] once per edge and [clear] after a successful
    decode.  [call] is one such call on the public interface; the same call
    sequence can be applied to both models, as [parseRf] and [resetRf] do.
    A sequence that begins with [Clear] starts the machine from its cleared
    state, so statements over all sequences from [init] cover both the
    zero-initialised and the cleared start. *)

Inductive call : Type :=
| ParseRf (duration rfs : Z)
| Clear.

Definition step523 (m : Acurite523.Model.t) (c : call)
  : Z * Acurite523.Model.t :=
  match c with
  | ParseRf duration rfs => Acurite523.Model.parse_rf m duration rfs
  | Clear => (0, Acurite523.Model.clear m)
  end.

Definition step609 (m : Acurite609.Model.t) (c : call)
  : Z * Acurite609.Model.t :=
  match c with
  | ParseRf duration rfs => Acurite609.Model.parse_rf m duration rfs
  | Clear => (0, Acurite609.Model.clear m)
  end.

(** State after a sequence of calls. *)
Definition run523 (m : Acurite523.Model.t) (cs : list call)
  : Acurite523.Model.t :=
  fold_left (fun m c => snd (step523 m c)) cs m.

Definition run609 (m : Acurite609.Model.t) (cs : list call)
  : Acurite609.Model.t :=
  fold_left (fun m c => snd (step609 m c)) cs m.

(** Values returned by the successive calls, oldest first. *)
Fixpoint results523 (m : Acurite523.Model.t) (cs : list call) : list Z :=
  match cs with
  | [] => []
  | c :: cs => fst (step523 m c) :: results523 (snd (step523 m c)) cs
  end.

Fixpoint results609 (m : Acurite609.Model.t) (cs : list call) : list Z :=
  match cs with
  | [] => []
  | c :: cs => fst (step609 m c) :: results609 (snd (step609 m c)) cs
  end.

(** One pass of [loop] for an edge that ends a pulse: pulses shorter than
    100 microseconds are dropped, and a successful [parseRf] is followed by
    [resetRf].  A [Clear] call stands for a [resetRf] of the host. *)
Definition on_call (st : Monitor.t) (c : call) : option Payload * Monitor.t :=
  match c with
  | ParseRf duration rfs =>
      if 100 <=? duration then
        let '(p, st) := Monitor.parseRf st duration rfs in
        match p with
        | Some _ => (p, Monitor.resetRf st)
        | None => (None, st)
        end
      else (None, st)
  | Clear => (None, Monitor.resetRf st)
  end.

(** The payloads handed to [updateStats] while a stream is processed. *)
Fixpoint payloads (st : Monitor.t) (cs : list call) : list Payload :=
  match cs with
  | [] => []
  | c :: cs =>
      match fst (on_call st c) with
      | Some p => p :: payloads (snd (on_call st c)) cs
      | None => payloads (snd (on_call st c)) cs
      end
  end.

(** ** Synthetic pulse streams

    Edge streams, with alternating levels and every duration at least
    100 microseconds, that the classification tables of [get_rfs_type] map
    to a block of bits.  [bits_msb n b] lists the low [n] bits of [b], most
    significant first, the order of transmission. *)

Fixpoint bits_msb (n : nat) (b : Z) : list bool :=
  match n with
  | O => []
  | S n' => Z.testbit b (Z.of_nat n') :: bits_msb n' b
  end.

(** 00523: four wide ON pulses open the chunk; a bit is an OFF half
    followed by an ON half of the matching class. *)
Definition preamble523 : list call :=
  concat (repeat [ParseRf 600 0; ParseRf 600 1] 4).

Definition pulse523 (bit : bool) : list call :=
  if bit then [ParseRf 350 0; ParseRf 150 1]
  else [ParseRf 200 0; ParseRf 350 1].

Definition frame523 (b : Z) : list call :=
  preamble523 ++ flat_map pulse523 (bits_msb 48 b).

(** 00609: an idle followed by the bitstream-start pulse opens the chunk;
    a bit is an idle followed by a short or long ON pulse. *)
Definition start609 : list call := [ParseRf 600 0; ParseRf 8800 1].

Definition pulse609 (bit : bool) : list call :=
  if bit then [ParseRf 600 0; ParseRf 1500 1]
  else [ParseRf 600 0; ParseRf 600 1].

Definition frame609 (b : Z) : list call :=
  start609 ++ flat_map pulse609 (bits_msb 40 b).

(** A stream on which both framing machines fill their buffers with the
    same final pulse: nine one-bits that only the 00523 classifier reads as
    bits, a one-bit that only the 00609 classifier reads as a bit, then
    zero-bits (OFF 200, ON 350) that both read as a bit. *)
Definition shared_stream : list call :=
  preamble523
  ++ start609
  ++ concat (repeat [ParseRf 350 0; ParseRf 150 1] 9)
  ++ [ParseRf 200 0; ParseRf 1500 1]
  ++ concat (repeat [ParseRf 200 0; ParseRf 350 1] 38)
  ++ [ParseRf 200 0].

(** ** Bytes of a candidate *)

Definition byte_at (b : Z) (i : Z) : Z := (b / 2 ^ (8 * i)) mod 256.

(** Sum of the bytes above the trailing checksum byte of an [n]-byte
    candidate. *)
Definition higher_bytes_sum (n : nat) (b : Z) : Z :=
  fold_right (fun i acc => byte_at b (Z.of_nat i) + acc) 0 (seq 1 (n - 1)).

(** ** Framing invariants *)

(** What the data model promises of a framing state with accumulator width
    [n]. *)
Definition framing_inv (n bitstream bitstream_size : Z)
    (bitstream_open chunk_open : bool) : Prop :=
  0 <= bitstream_size <= n /\
  0 <= bitstream < 2 ^ n /\
  bitstream mod 2 ^ (n - bitstream_size) = 0 /\
  (bitstream_open = true -> chunk_open = true).

Definition inv523 (m : Acurite523.Model.t) : Prop :=
  framing_inv Acurite523.SIGNAL_BIT_LENGTH
    (Acurite523.Model.bitstream m) (Acurite523.Model.bitstream_size m)
    (Acurite523.Model.bitstream_open m) (Acurite523.Model.chunk_open m).

Definition inv609 (m : Acurite609.Model.t) : Prop :=
  framing_inv Acurite609.SIGNAL_BIT_LENGTH
    (Acurite609.Model.bitstream m) (Acurite609.Model.bitstream_size m)
    (Acurite609.Model.bitstream_open m) (Acurite609.Model.chunk_open m).

(** The inductive strengthening: the buffer is never full between calls
    and the opener counter stays below four. *)
Definition strong523 (m : Acurite523.Model.t) : Prop :=
  inv523 m /\
  Acurite523.Model.bitstream_size m < Acurite523.SIGNAL_BIT_LENGTH /\
  0 <= Acurite523.Model.bitstream_opener_count m < 4.

Definition strong609 (m : Acurite609.Model.t) : Prop :=
  inv609 m /\
  Acurite609.Model.bitstream_size m < Acurite609.SIGNAL_BIT_LENGTH.

(** ** Fields of a candidate

    The sub-expressions by which [validate_bitstream] reads a candidate,
    named so that statements can refer to them. *)

(** 00523, line 208: [((uint16_t)byte2 << 7) | byte1]. *)
Definition raw523 (b : Z) : Z :=
  Z.lor (Z.shiftl (Z.land (Z.shiftr b 16) 0x7f) 7)
        (Z.land (Z.shiftr b 8) 0x7f).

(** 00523, lines 208-209: the temperature computed from the raw value. *)
Definition temp523 (raw : Z) : F32.t :=
  F32.div (F32.sub (F32.of_Z raw) (F32.of_Z 1800)) (F32.of_Z 18).

(** 00523, lines 199-203: both parity tests. *)
Definition parity523 (b : Z) : bool :=
  Acurite523.Device.validate_parity
    (Z.land (Z.shiftr b 15) 1) (Z.land (Z.shiftr b 8) 0x7f)
  && Acurite523.Device.validate_parity
       (Z.land (Z.shiftr b 23) 1) (Z.land (Z.shiftr b 16) 0x7f).

(** 00609, line 180: the 13-bit raw temperature. *)
Definition raw609 (b : Z) : Z := Z.land (Z.shiftr b 15) 0x1fff.

(** 00609, line 184: the 7-bit humidity. *)
Definition hum609 (b : Z) : Z := Z.land (Z.shiftr b 8) 0x7f.

(** 00609, lines 180-183 as a function of the raw value. *)
Definition temp609 (raw : Z) : F32.t :=
  let temp := F32.of_Z raw in
  let temp :=
    if Acurite609.Device.sign_test temp
    then F32.opp (F32.sub (F32.of_Z 0x2000) temp)
    else temp in
  F32.div temp (F32.of_Z 20).

(** 00609: the readings that pass the test of line 185, in integers. *)
Definition reading609_ok (b : Z) : bool :=
  (1 <=? hum609 b) && (hum609 b <=? 99)
  && (if Z.odd (raw609 b) then 7392 <=? raw609 b else raw609 b <=? 1400).

(** The integers [0 .. n-1], for exhaustive checks of small fields. *)
Definition below (n : Z) : list Z := map Z.of_nat (seq 0 (Z.to_nat n)).

(** ** Pulse trains by their classification

    The signal classes that a call sequence presents to a framing machine
    ([None] for a [clear]). *)

Definition signals523 (cs : list call) : list (option Acurite523.signal) :=
  map (fun c =>
         match c with
         | ParseRf duration rfs =>
             Some (Acurite523.Model.get_rfs_type rfs duration)
         | Clear => None
         end) cs.

Definition signals609 (cs : list call) : list (option Acurite609.signal) :=
  map (fun c =>
         match c with
         | ParseRf duration rfs =>
             Some (Acurite609.Model.get_rfs_type rfs duration)
         | Clear => None
         end) cs.

(** The two halves of a 00523 bit, and the idle and pulse of a 00609 bit. *)
Definition halves523 (bit : bool) : list (option Acurite523.signal) :=
  if bit
  then [Some Acurite523.SIGNAL_BIT_1_OFF; Some Acurite523.SIGNAL_BIT_1_ON]
  else [Some Acurite523.SIGNAL_BIT_0_OFF; Some Acurite523.SIGNAL_BIT_0_ON].

Definition halves609 (bit : bool) : list (option Acurite609.signal) :=
  if bit
  then [Some Acurite609.SIGNAL_OFF; Some Acurite609.SIGNAL_BIT_1]
  else [Some Acurite609.SIGNAL_OFF; Some Acurite609.SIGNAL_BIT_0].

(** Number of calls of a class in a sequence. *)
Definition count523 (s : Acurite523.signal) (cs : list call) : Z :=
  Z.of_nat
    (length
       (filter
          (fun o => match o with
                    | Some t => Acurite523.signal_eqb t s
                    | None => false
                    end)
          (signals523 cs))).

Definition count609 (s : Acurite609.signal) (cs : list call) : Z :=
  Z.of_nat
    (length
       (filter
          (fun o => match o with
                    | Some t => Acurite609.signal_eqb t s
                    | None => false
                    end)
          (signals609 cs))).

(** State of the sketch after a call sequence. *)
Definition run_monitor (st : Monitor.t) (cs : list call) : Monitor.t :=
  fold_left (fun st c => snd (on_call st c)) cs st.

(** Calls that [loop] passes on: pulses of at least 100 microseconds. *)
Definition long_enough (c : call) : bool :=
  match c with
  | ParseRf duration _ => 100 <=? duration
  | Clear => true
  end.

(** ** Proof automation *)

(** Evaluate record accesses, signal comparisons and boolean connectives
    while leaving the integer arithmetic of the goal untouched. *)
Ltac eval523 :=
  cbn [fst snd negb andb orb Z.eqb Pos.eqb
       Acurite523.signal_eqb Acurite523.signal_code
       Acurite523.Model.is_acurite Acurite523.Model.chunk_open
       Acurite523.Model.bitstream Acurite523.Model.bitstream_size
       Acurite523.Model.bitstream_open
       Acurite523.Model.bitstream_opener_count
       Acurite523.Model.last_rfs_type
       Acurite523.Model.set_chunk_open Acurite523.Model.set_bitstream
       Acurite523.Model.set_bitstream_size
       Acurite523.Model.set_bitstream_open
       Acurite523.Model.set_bitstream_opener_count
       Acurite523.Model.set_last_rfs_type
       Acurite523.Model.open_bitstream Acurite523.Model.close_bitstream
       Acurite523.Model.open_chunk Acurite523.Model.close_chunk
       Acurite523.Model.clear] in *.

Ltac eval609 :=
  cbn [fst snd negb andb orb Z.eqb Pos.eqb
       Acurite609.signal_eqb Acurite609.signal_code
       Acurite609.Model.is_acurite Acurite609.Model.chunk_open
       Acurite609.Model.bitstream Acurite609.Model.bitstream_size
       Acurite609.Model.bitstream_open
       Acurite609.Model.last_rfs_type
       Acurite609.Model.set_chunk_open Acurite609.Model.set_bitstream
       Acurite609.Model.set_bitstream_size
       Acurite609.Model.set_bitstream_open
       Acurite609.Model.set_last_rfs_type
       Acurite609.Model.open_bitstream Acurite609.Model.close_bitstream
       Acurite609.Model.open_chunk Acurite609.Model.close_chunk
       Acurite609.Model.is_bit_signal
       Acurite609.Model.clear] in *.

(** Case analysis on one integer test of the goal. *)
Ltac split_test :=
  match goal with
  | |- context [if ?a =? ?b then _ else _] => destruct (Z.eqb_spec a b)
  | |- context [if ?a <? ?b then _ else _] => destruct (Z.ltb_spec a b)
  | |- context [(?a <? ?b) && _] => destruct (Z.ltb_spec a b)
  | |- context [(?a =? ?b) && _] => destruct (Z.eqb_spec a b)
  | |- context [_ && (?a <? ?b)] => destruct (Z.ltb_spec a b)
  | |- context [_ && (?a =? ?b)] => destruct (Z.eqb_spec a b)
  end.

Ltac finish_inv :=
  repeat split; intros;
  try assumption; try reflexivity; try discriminate; try lia; auto.

(** Case analysis on the fail-fast tests of a validator. *)
Ltac split_validator :=
  repeat match goal with
    | |- context [if ?c then (false, _) else _] => destruct c eqn:?
    end.

(** * Proofs *)

(** ** Bit-level facts *)

Lemma pow2_split (n k : Z) :
  0 <= k <= n -> 2 ^ n = 2 ^ (n - k) * 2 ^ k.
Proof.
  intros H. rewrite <- Z.pow_add_r by lia. f_equal. lia.
Qed.

Lemma lor_fresh_bit (a k : Z) :
  0 <= k -> a mod 2 ^ (k + 1) = 0 -> Z.lor a (2 ^ k) = a + 2 ^ k.
Proof.
  intros Hk Hm.
  assert (Hland : Z.land a (2 ^ k) = 0).
  { apply Z.bits_inj'. intros i Hi.
    rewrite Z.land_spec, Z.bits_0, Z.pow2_bits_eqb by lia.
    destruct (Z.eqb_spec k i) as [->|Hne]; [|apply andb_false_r].
    rewrite andb_true_r.
    assert (Hb : Z.testbit (a mod 2 ^ (i + 1)) i = Z.testbit a i)
      by (apply Z.mod_pow2_bits_low; lia).
    rewrite Hm, Z.bits_0 in Hb. congruence. }
  rewrite (Z.add_nocarry_lxor a (2 ^ k) Hland).
  symmetry. apply Z.lxor_lor. exact Hland.
Qed.

(** Setting bit [n - s - 1] of an accumulator of width [n <= 64] that holds
    [s] bits: no wrap-around happens, the value stays below [2 ^ n] and the
    positions below the new bit stay clear. *)
Lemma accumulate_one (n a s : Z) :
  0 <= s < n -> n <= 64 ->
  0 <= a < 2 ^ n -> a mod 2 ^ (n - s) = 0 ->
  let a' := wrap 64 (Z.lor a (wrap 64 (Z.shiftl 1 (n - s - 1)))) in
  a' = a + 2 ^ (n - s - 1) /\
  0 <= a' < 2 ^ n /\
  a' mod 2 ^ (n - (s + 1)) = 0.
Proof.
  intros Hs Hn Ha Hm. cbv zeta. unfold wrap.
  rewrite Z.shiftl_1_l.
  set (k := n - s - 1) in *.
  replace (n - s) with (k + 1) in Hm by (unfold k; lia).
  replace (n - (s + 1)) with k by (unfold k; lia).
  assert (Hk : 0 <= k < n) by (unfold k; lia).
  assert (Hp : 0 < 2 ^ k) by (apply Z.pow_pos_nonneg; lia).
  assert (H2n : 2 ^ n <= 2 ^ 64) by (apply Z.pow_le_mono_r; lia).
  assert (Hkn : 2 ^ k < 2 ^ n) by (apply Z.pow_lt_mono_r; lia).
  rewrite (Z.mod_small (2 ^ k)) by lia.
  rewrite lor_fresh_bit by (lia || assumption).
  assert (Hsucc : 2 ^ (k + 1) = 2 * 2 ^ k)
    by (rewrite Z.add_1_r; apply Z.pow_succ_r; lia).
  apply Z.mod_divide in Hm; [|lia]. destruct Hm as [q Hq].
  rewrite Hsucc in Hq.
  assert (Hsplit : 2 ^ n = 2 ^ (n - (k + 1)) * 2 ^ (k + 1))
    by (apply pow2_split; lia).
  rewrite Hsucc in Hsplit.
  set (c := 2 ^ (n - (k + 1))) in *.
  assert (Hq' : q < c) by nia.
  assert (Hbound : 0 <= a + 2 ^ k < 2 ^ n) by nia.
  rewrite (Z.mod_small (a + 2 ^ k)) by lia.
  repeat split; try lia.
  replace (a + 2 ^ k) with ((2 * q + 1) * 2 ^ k) by lia.
  apply Z.mod_mul. lia.
Qed.

Lemma mod_pow2_drop (a k : Z) :
  0 <= k -> a mod 2 ^ (k + 1) = 0 -> a mod 2 ^ k = 0.
Proof.
  intros Hk Hm.
  assert (Hp : 0 < 2 ^ k) by (apply Z.pow_pos_nonneg; lia).
  apply Z.mod_divide in Hm; [|rewrite Z.add_1_r, Z.pow_succ_r; lia].
  destruct Hm as [q Hq]. rewrite Z.add_1_r, Z.pow_succ_r in Hq by lia.
  replace a with (q * 2 * 2 ^ k) by lia. apply Z.mod_mul. lia.
Qed.

(** Accumulating a zero bit only narrows the clear low part. *)
Lemma accumulate_zero (n a s : Z) :
  0 <= s < n -> a mod 2 ^ (n - s) = 0 -> a mod 2 ^ (n - (s + 1)) = 0.
Proof.
  intros Hs Hm. apply mod_pow2_drop; [lia|].
  replace (n - (s + 1) + 1) with (n - s) by lia. exact Hm.
Qed.

(** ** The framing invariants are inductive *)

Lemma zero_mod (k : Z) : 0 mod k = 0.
Proof. apply Zmod_0_l. Qed.

Lemma strong523_init : strong523 Acurite523.Model.init.
Proof.
  unfold strong523, inv523, framing_inv. cbn. finish_inv.
Qed.

Lemma strong523_clear (m : Acurite523.Model.t) :
  strong523 m -> strong523 (Acurite523.Model.clear m).
Proof.
  unfold strong523, inv523, framing_inv, Acurite523.SIGNAL_BIT_LENGTH.
  destruct m; eval523. intros H. rewrite zero_mod. finish_inv.
Qed.

Lemma strong523_parse_rf (m : Acurite523.Model.t) (duration rfs : Z) :
  strong523 m ->
  strong523 (snd (Acurite523.Model.parse_rf m duration rfs)).
Proof.
  unfold strong523, inv523, framing_inv.
  unfold Acurite523.Model.parse_rf, Acurite523.SIGNAL_BIT_LENGTH.
  generalize (Acurite523.Model.get_rfs_type rfs duration) as ty.
  intros ty [[Hs [Hb [Hm Ho]]] [Hlt Hc]].
  destruct (accumulate_one 48 (Acurite523.Model.bitstream m)
              (Acurite523.Model.bitstream_size m))
    as [_ [Hb1 Hm1]]; try lia.
  pose proof (accumulate_zero 48 _ _ (conj (proj1 Hs) Hlt) Hm) as Hm0.
  set (acc := wrap 64 _) in *. clearbody acc.
  destruct m as [ia co bs sz bo cnt last]; eval523.
  destruct last, ty, co; eval523; repeat (split_test; eval523);
    rewrite ?zero_mod; finish_inv.
Qed.

Lemma strong609_init : strong609 Acurite609.Model.init.
Proof.
  unfold strong609, inv609, framing_inv. cbn. finish_inv.
Qed.

Lemma strong609_clear (m : Acurite609.Model.t) :
  strong609 m -> strong609 (Acurite609.Model.clear m).
Proof.
  unfold strong609, inv609, framing_inv, Acurite609.SIGNAL_BIT_LENGTH.
  destruct m; eval609. intros H. rewrite zero_mod. finish_inv.
Qed.

Lemma strong609_parse_rf (m : Acurite609.Model.t) (duration rfs : Z) :
  strong609 m ->
  strong609 (snd (Acurite609.Model.parse_rf m duration rfs)).
Proof.
  unfold strong609, inv609, framing_inv.
  unfold Acurite609.Model.parse_rf, Acurite609.SIGNAL_BIT_LENGTH.
  generalize (Acurite609.Model.get_rfs_type rfs duration) as ty.
  intros ty [[Hs [Hb [Hm Ho]]] Hlt].
  destruct (accumulate_one 40 (Acurite609.Model.bitstream m)
              (Acurite609.Model.bitstream_size m))
    as [_ [Hb1 Hm1]]; try lia.
  pose proof (accumulate_zero 40 _ _ (conj (proj1 Hs) Hlt) Hm) as Hm0.
  set (acc := wrap 64 _) in *. clearbody acc.
  destruct m as [bs sz last ia bo co]; eval609.
  destruct last, ty, co, bo; eval609; repeat (split_test; eval609);
    rewrite ?zero_mod; finish_inv.
Qed.

Lemma strong523_step (m : Acurite523.Model.t) (c : call) :
  strong523 m -> strong523 (snd (step523 m c)).
Proof.
  destruct c; cbn; [apply strong523_parse_rf | apply strong523_clear].
Qed.

Lemma strong609_step (m : Acurite609.Model.t) (c : call) :
  strong609 m -> strong609 (snd (step609 m c)).
Proof.
  destruct c; cbn; [apply strong609_parse_rf | apply strong609_clear].
Qed.

Lemma strong523_run (cs : list call) (m : Acurite523.Model.t) :
  strong523 m -> strong523 (run523 m cs).
Proof.
  revert m. induction cs as [|c cs IH]; intros m Hm; cbn; [exact Hm|].
  apply IH, strong523_step, Hm.
Qed.

Lemma strong609_run (cs : list call) (m : Acurite609.Model.t) :
  strong609 m -> strong609 (run609 m cs).
Proof.
  revert m. induction cs as [|c cs IH]; intros m Hm; cbn; [exact Hm|].
  apply IH, strong609_step, Hm.
Qed.

(** C3.  Starting from the zero-initialised state, after every sequence of
    [parse_rf] and [clear] calls on either framing machine,
    [bitstream_size <= BIT_LENGTH] (48 for 00523, 40 for 00609), the
    accumulator is below [2 ^ BIT_LENGTH] and is zero outside its
    [bitstream_size] most significant positions, and [bitstream_open]
    implies [chunk_open]. *)
Theorem framing_invariant (cs : list call) :
  (let m := run523 Acurite523.Model.init cs in
   0 <= Acurite523.Model.bitstream_size m <= 48 /\
   0 <= Acurite523.Model.bitstream m < 2 ^ 48 /\
   Acurite523.Model.bitstream m
     mod 2 ^ (48 - Acurite523.Model.bitstream_size m) = 0 /\
   (Acurite523.Model.bitstream_open m = true ->
    Acurite523.Model.chunk_open m = true)) /\
  (let m := run609 Acurite609.Model.init cs in
   0 <= Acurite609.Model.bitstream_size m <= 40 /\
   0 <= Acurite609.Model.bitstream m < 2 ^ 40 /\
   Acurite609.Model.bitstream m
     mod 2 ^ (40 - Acurite609.Model.bitstream_size m) = 0 /\
   (Acurite609.Model.bitstream_open m = true ->
    Acurite609.Model.chunk_open m = true)).
Proof.
  split.
  - exact (proj1 (strong523_run cs _ strong523_init)).
  - exact (proj1 (strong609_run cs _ strong609_init)).
Qed.

(** ** Where a candidate can come from *)

(** From a state satisfying the strengthened invariant, the 00523 machine
    returns a non-zero word only when the call accumulates bit number 48;
    the chunk stays open and the buffer is empty afterwards. *)
Lemma emit523 (m : Acurite523.Model.t) (duration rfs : Z) :
  strong523 m ->
  fst (Acurite523.Model.parse_rf m duration rfs) <> 0 ->
  Acurite523.Model.chunk_open m = true /\
  Acurite523.Model.bitstream_size m = 47 /\
  ((Acurite523.Model.last_rfs_type m = Acurite523.SIGNAL_BIT_0_OFF /\
    Acurite523.Model.get_rfs_type rfs duration = Acurite523.SIGNAL_BIT_0_ON /\
    fst (Acurite523.Model.parse_rf m duration rfs)
    = Acurite523.Model.bitstream m) \/
   (Acurite523.Model.last_rfs_type m = Acurite523.SIGNAL_BIT_1_OFF /\
    Acurite523.Model.get_rfs_type rfs duration = Acurite523.SIGNAL_BIT_1_ON /\
    fst (Acurite523.Model.parse_rf m duration rfs)
    = Acurite523.Model.bitstream m + 1)) /\
  Acurite523.Model.chunk_open
    (snd (Acurite523.Model.parse_rf m duration rfs)) = true /\
  Acurite523.Model.bitstream_size
    (snd (Acurite523.Model.parse_rf m duration rfs)) = 0.
Proof.
  unfold strong523, inv523, framing_inv.
  unfold Acurite523.Model.parse_rf, Acurite523.SIGNAL_BIT_LENGTH.
  generalize (Acurite523.Model.get_rfs_type rfs duration) as ty.
  intros ty [[Hs [Hb [Hm Ho]]] [Hlt Hc]].
  destruct (accumulate_one 48 (Acurite523.Model.bitstream m)
              (Acurite523.Model.bitstream_size m))
    as [Hacc _]; try lia.
  set (acc := wrap 64 _) in *. clearbody acc.
  destruct m as [ia co bs sz bo cnt last]; eval523.
  destruct last, ty, co; eval523; repeat (split_test; eval523);
    intros Hne; try (exfalso; lia).
  - repeat split; try lia. left. auto.
  - assert (sz = 47) by lia. subst sz.
    change (2 ^ (48 - 47 - 1)) with 1 in Hacc.
    repeat split; try lia. right. auto.
Qed.

(** The same for the 00609 machine and bit number 40. *)
Lemma emit609 (m : Acurite609.Model.t) (duration rfs : Z) :
  strong609 m ->
  fst (Acurite609.Model.parse_rf m duration rfs) <> 0 ->
  Acurite609.Model.last_rfs_type m = Acurite609.SIGNAL_OFF /\
  Acurite609.Model.chunk_open m = true /\
  Acurite609.Model.bitstream_open m = true /\
  Acurite609.Model.bitstream_size m = 39 /\
  ((Acurite609.Model.get_rfs_type rfs duration = Acurite609.SIGNAL_BIT_0 /\
    fst (Acurite609.Model.parse_rf m duration rfs)
    = Acurite609.Model.bitstream m) \/
   (Acurite609.Model.get_rfs_type rfs duration = Acurite609.SIGNAL_BIT_1 /\
    fst (Acurite609.Model.parse_rf m duration rfs)
    = Acurite609.Model.bitstream m + 1)) /\
  Acurite609.Model.chunk_open
    (snd (Acurite609.Model.parse_rf m duration rfs)) = true /\
  Acurite609.Model.bitstream_size
    (snd (Acurite609.Model.parse_rf m duration rfs)) = 0.
Proof.
  unfold strong609, inv609, framing_inv.
  unfold Acurite609.Model.parse_rf, Acurite609.SIGNAL_BIT_LENGTH.
  generalize (Acurite609.Model.get_rfs_type rfs duration) as ty.
  intros ty [[Hs [Hb [Hm Ho]]] Hlt].
  destruct (accumulate_one 40 (Acurite609.Model.bitstream m)
              (Acurite609.Model.bitstream_size m))
    as [Hacc _]; try lia.
  set (acc := wrap 64 _) in *. clearbody acc.
  destruct m as [bs sz last ia bo co]; eval609.
  destruct last, ty, co, bo; eval609; repeat (split_test; eval609);
    intros Hne; try (exfalso; lia).
  - repeat split; try lia. left. auto.
  - assert (sz = 39) by lia. subst sz.
    change (2 ^ (40 - 39 - 1)) with 1 in Hacc.
    repeat split; try lia. right. auto.
Qed.

(** ** 00609 temperature decoding *)

(** On every 13-bit raw value the sign test of the source selects on the
    lowest bit of [raw], not on bit 12. *)
Lemma sign_test_is_low_bit (raw : Z) :
  0 <= raw < 0x2000 ->
  Acurite609.Device.sign_test (F32.of_Z raw) = Z.odd raw.
Proof.
  intros Hr.
  assert (Hall :
    forallb
      (fun n => Bool.eqb
                  (Acurite609.Device.sign_test (F32.of_Z (Z.of_nat n)))
                  (Z.odd (Z.of_nat n)))
      (seq 0 (Z.to_nat 0x2000)) = true) by (vm_compute; reflexivity).
  rewrite forallb_forall in Hall.
  specialize (Hall (Z.to_nat raw)).
  rewrite Z2Nat.id in Hall by lia.
  apply eqb_prop, Hall, in_seq. lia.
Qed.

(** C1 (the code departs from the claim).  The below-freezing block of the
    format notes, [0xC0AFC14575], has channel 2, a valid checksum, humidity
    69 and raw temperature [0x1F82] with bit 12 set.  The sign test finds
    the low bit of [raw] clear, so the value is not negated: the decoded
    temperature is the binary32 quotient 8066 / 20 (403.3), above 70, and
    every device rejects the block and keeps its state. *)
Theorem negative_block_rejected (d : Acurite609.Device.t) :
  Z.land (Z.shiftr 0xC0AFC14575 15) 0x1fff = 0x1F82 /\
  Z.land 0x1F82 0x1000 = 0x1000 /\
  Z.land (Z.shiftr 0xC0AFC14575 28) 0x03 = Acurite609.CHANNEL_ID /\
  Acurite609.Device.validate_checksum 0xC0AFC14575 = true /\
  Z.land (Z.shiftr 0xC0AFC14575 8) 0x7f = 69 /\
  Acurite609.Device.sign_test (F32.of_Z 0x1F82) = false /\
  Acurite609.Device.decode_temp 0xC0AFC14575
  = F32.div (F32.of_Z 8066) (F32.of_Z 20) /\
  F32.trunc (Acurite609.Device.decode_temp 0xC0AFC14575) = 403 /\
  Acurite609.Device.validate_bitstream d 0xC0AFC14575 = (false, d).
Proof.
  repeat split; try (vm_compute; reflexivity).
  unfold Acurite609.Device.validate_bitstream.
  change (0xC0AFC14575 =? 0) with false. cbv iota.
  destruct (negb (Acurite609.Device.signature d =? 0)
            && negb (Acurite609.Device.signature d
                     =? wrap 16 (Z.shiftr 0xC0AFC14575 32)));
    [reflexivity|].
  change (Z.land (Z.shiftr 0xC0AFC14575 28) 3 =? Acurite609.CHANNEL_ID)
    with true.
  change (Acurite609.Device.validate_checksum 0xC0AFC14575) with true.
  cbv beta iota zeta delta [negb].
  replace (Acurite609.Device.out_of_range
             (F32.of_Z (Z.land (Z.shiftr 0xC0AFC14575 8) 127))
             (Acurite609.Device.decode_temp 0xC0AFC14575))
    with true by (vm_compute; reflexivity).
  reflexivity.
Qed.

(** ** [clear] *)

(** C2 (as amended).  For every prior state, [clear] of the 00523 model
    resets [bitstream], [bitstream_size], [bitstream_open],
    [bitstream_opener_count] and [last_rfs_type]; [clear] of the 00609 model
    resets [bitstream], [bitstream_size], [bitstream_open] and
    [last_rfs_type]; both leave [chunk_open] (and the unused [is_acurite])
    unchanged. *)
Theorem clear_effects
    (m5 : Acurite523.Model.t) (m6 : Acurite609.Model.t) :
  Acurite523.Model.clear m5
  = Acurite523.Model.mk
      (Acurite523.Model.is_acurite m5) (Acurite523.Model.chunk_open m5)
      0 0 false 0 Acurite523.SIGNAL_INV /\
  Acurite609.Model.clear m6
  = Acurite609.Model.mk
      0 0 Acurite609.SIGNAL_INV
      (Acurite609.Model.is_acurite m6) false
      (Acurite609.Model.chunk_open m6).
Proof.
  split; reflexivity.
Qed.

(** C2, counterexample to the claim as stated: once the 00609 machine has
    opened a chunk, [clear] leaves [chunk_open] set. *)
Lemma clear609_keeps_chunk_open :
  Acurite609.Model.chunk_open (run609 Acurite609.Model.init start609) = true /\
  Acurite609.Model.chunk_open
    (Acurite609.Model.clear (run609 Acurite609.Model.init start609)) = true.
Proof.
  split; reflexivity.
Qed.

(** ** Scenario S1 *)

(** C4, counterexample to the claim as stated: the word [0xC0498B3C99] has
    40 bits; read as a 48-bit candidate its signature field is [0x00C0] and
    the freezer device rejects it.  The 48-bit block it abbreviates,
    [0xC049C98B3C99], is accepted, but its payload carries battery 3 and
    temperature -184, not 0 and -185. *)
Lemma s1_word_rejected :
  wrap 16 (Z.shiftr 0xC0498B3C99 32) = 0x00C0 /\
  Acurite523.Device.validate_bitstream
    (Acurite523.Device.new DEVICE_FREEZER) 0xC0498B3C99
  = (false, Acurite523.Device.new DEVICE_FREEZER) /\
  battery
    (Acurite523.Device.create_payload
       (snd (Acurite523.Device.validate_bitstream
               (Acurite523.Device.new DEVICE_FREEZER) 0xC049C98B3C99))
       STATUS_OK) = 3 /\
  temperature
    (Acurite523.Device.create_payload
       (snd (Acurite523.Device.validate_bitstream
               (Acurite523.Device.new DEVICE_FREEZER) 0xC049C98B3C99))
       STATUS_OK) = -184.
Proof.
  repeat split; vm_compute; reflexivity.
Qed.

(** C4 (as amended).  The 48-bit block of the format notes,
    [0xC049C98B3C99], is accepted by the freezer device: signature
    [0xC049], checksum byte [0x99], both parity bits correct, battery field
    [3], raw value [(0x0B << 7) | 0x3C = 1468] and temperature the binary32
    quotient [(1468 - 1800) / 18].  [create_payload STATUS_OK] then gives
    model 1592, device 9690, status 1, battery 3, temperature -184 (the
    product with 10 truncated toward zero) and humidity 0. *)
Theorem s1_block_accepted :
  let b := 0xC049C98B3C99 in
  let d := Acurite523.Device.new DEVICE_FREEZER in
  let d' := snd (Acurite523.Device.validate_bitstream d b) in
  wrap 16 (Z.shiftr b 32) = 0xC049 /\
  Z.land b 0xff = 0x99 /\
  Acurite523.Device.validate_checksum b = true /\
  Acurite523.Device.validate_parity
    (Z.land (Z.shiftr b 15) 1) (Z.land (Z.shiftr b 8) 0x7f) = true /\
  Acurite523.Device.validate_parity
    (Z.land (Z.shiftr b 23) 1) (Z.land (Z.shiftr b 16) 0x7f) = true /\
  Z.lor (Z.shiftl (Z.land (Z.shiftr b 16) 0x7f) 7)
        (Z.land (Z.shiftr b 8) 0x7f) = 1468 /\
  fst (Acurite523.Device.validate_bitstream d b) = true /\
  Acurite523.Device.battery d' = 3 /\
  Acurite523.Device.temperature d'
  = F32.div (F32.sub (F32.of_Z 1468) (F32.of_Z 1800)) (F32.of_Z 18) /\
  F32.trunc (F32.mul (Acurite523.Device.temperature d') (F32.of_Z 1000))
  = -18444 /\
  Acurite523.Device.create_payload d' STATUS_OK
  = mkPayload 0x38073162 1592 9690 1 3 (-184) 0.
Proof.
  cbv zeta. repeat split; vm_compute; reflexivity.
Qed.

(** ** What the validators check *)

Lemma land_255 (x : Z) : Z.land x 0xff = x mod 256.
Proof. change 0xff with (Z.ones 8). apply Z.land_ones. lia. Qed.

Lemma wrap64_mod_256 (x : Z) : wrap 64 x mod 256 = x mod 256.
Proof.
  unfold wrap. apply Z.mod_mod_divide.
  exists (2 ^ 56). reflexivity.
Qed.

Lemma mod_256_absorb (x y : Z) : (x + y) mod 256 = (x + y mod 256) mod 256.
Proof. symmetry. apply Z.add_mod_idemp_r. lia. Qed.

Lemma checksum523_spec (b : Z) :
  Acurite523.Device.validate_checksum b = true <->
  b mod 256 = higher_bytes_sum 6 b mod 256.
Proof.
  unfold Acurite523.Device.validate_checksum, higher_bytes_sum, byte_at.
  cbn [seq fold_right Nat.sub Z.of_nat Pos.of_succ_nat Pos.succ Z.mul Pos.mul].
  rewrite Z.eqb_eq, !land_255, wrap64_mod_256, !Z.shiftr_div_pow2 by lia.
  rewrite Z.add_0_r, !Z.add_assoc.
  rewrite <- (mod_256_absorb _ (b / 2 ^ 40)). reflexivity.
Qed.

Lemma checksum609_spec (b : Z) :
  Acurite609.Device.validate_checksum b = true <->
  b mod 256 = higher_bytes_sum 5 b mod 256.
Proof.
  unfold Acurite609.Device.validate_checksum, higher_bytes_sum, byte_at.
  cbn [seq fold_right Nat.sub Z.of_nat Pos.of_succ_nat Pos.succ Z.mul Pos.mul].
  rewrite Z.eqb_eq, !land_255, wrap64_mod_256, !Z.shiftr_div_pow2 by lia.
  rewrite Z.add_0_r, !Z.add_assoc.
  rewrite <- (mod_256_absorb _ (b / 2 ^ 32)). reflexivity.
Qed.

Lemma accepted523 (d : Acurite523.Device.t) (b : Z) :
  fst (Acurite523.Device.validate_bitstream d b) = true ->
  b <> 0 /\
  wrap 16 (Z.shiftr b 32) = Acurite523.Device.signature d /\
  Acurite523.Device.validate_checksum b = true /\
  Acurite523.Device.validate_parity
    (Z.land (Z.shiftr b 15) 1) (Z.land (Z.shiftr b 8) 0x7f) = true /\
  Acurite523.Device.validate_parity
    (Z.land (Z.shiftr b 23) 1) (Z.land (Z.shiftr b 16) 0x7f) = true.
Proof.
  unfold Acurite523.Device.validate_bitstream.
  split_validator; cbn [fst]; intros H; try discriminate.
  repeat match goal with
    | H : negb _ = false |- _ => apply negb_false_iff in H
    | H : _ || _ = false |- _ => apply orb_false_iff in H; destruct H
    end.
  repeat split; try assumption.
  - intros ->. discriminate.
  - apply Z.eqb_eq. assumption.
Qed.

Lemma accepted609 (d : Acurite609.Device.t) (b : Z) :
  fst (Acurite609.Device.validate_bitstream d b) = true ->
  b <> 0 /\
  Z.land (Z.shiftr b 28) 0x03 = Acurite609.CHANNEL_ID /\
  Acurite609.Device.validate_checksum b = true.
Proof.
  unfold Acurite609.Device.validate_bitstream.
  split_validator; cbn [fst]; intros H; try discriminate.
  repeat match goal with
    | H : negb _ = false |- _ => apply negb_false_iff in H
    end.
  repeat split; try assumption.
  - intros ->. discriminate.
  - apply Z.eqb_eq. assumption.
Qed.

Lemma rejected523 (d : Acurite523.Device.t) (b : Z) :
  fst (Acurite523.Device.validate_bitstream d b) = false ->
  snd (Acurite523.Device.validate_bitstream d b) = d.
Proof.
  unfold Acurite523.Device.validate_bitstream.
  split_validator; cbn [fst snd]; intros H; try reflexivity; discriminate.
Qed.

Lemma rejected609 (d : Acurite609.Device.t) (b : Z) :
  fst (Acurite609.Device.validate_bitstream d b) = false ->
  snd (Acurite609.Device.validate_bitstream d b) = d.
Proof.
  unfold Acurite609.Device.validate_bitstream.
  split_validator; cbn [fst snd]; intros H; try reflexivity; discriminate.
Qed.

(** C5, counterexample to the claim as stated: the framing machines emit
    whatever 48 (40) bits they have accumulated.  A block whose first bit
    is the only one set is returned by [parse_rf] although its low byte is
    0 and the bytes above it sum to [0x80]. *)
Lemma unchecked_candidate_emitted :
  (fst (Acurite523.Model.parse_rf
          (run523 Acurite523.Model.init (removelast (frame523 0x800000000000)))
          350 1) = 0x800000000000 /\
   0x800000000000 mod 256 = 0 /\
   higher_bytes_sum 6 0x800000000000 mod 256 = 0x80) /\
  (fst (Acurite609.Model.parse_rf
          (run609 Acurite609.Model.init (removelast (frame609 0x8000000000)))
          600 1) = 0x8000000000 /\
   0x8000000000 mod 256 = 0 /\
   higher_bytes_sum 5 0x8000000000 mod 256 = 0x80).
Proof.
  repeat split; vm_compute; reflexivity.
Qed.

(** C5 (as amended).  Every candidate that [validate_bitstream] of a device
    of either model accepts has its low byte equal to the sum of the bytes
    above it modulo 256 (five bytes for 00523, four for 00609). *)
Theorem accepted_checksum
    (d5 : Acurite523.Device.t) (d6 : Acurite609.Device.t) (b : Z) :
  (fst (Acurite523.Device.validate_bitstream d5 b) = true ->
   b mod 256 = higher_bytes_sum 6 b mod 256) /\
  (fst (Acurite609.Device.validate_bitstream d6 b) = true ->
   b mod 256 = higher_bytes_sum 5 b mod 256).
Proof.
  split; intros H.
  - apply checksum523_spec, (accepted523 d5 b H).
  - apply checksum609_spec, (accepted609 d6 b H).
Qed.

Lemma accepted_checksum_witness :
  (fst (Acurite523.Device.validate_bitstream
          (Acurite523.Device.new DEVICE_FREEZER) 0xC049C98B3C99) = true /\
   0xC049C98B3C99 mod 256 = higher_bytes_sum 6 0xC049C98B3C99 mod 256) /\
  (fst (Acurite609.Device.validate_bitstream
          (Acurite609.Device.new DEVICE_OUTDOOR) 0xC0A15B25E1) = true /\
   0xC0A15B25E1 mod 256 = higher_bytes_sum 5 0xC0A15B25E1 mod 256).
Proof.
  assert (H5 : fst (Acurite523.Device.validate_bitstream
                      (Acurite523.Device.new DEVICE_FREEZER) 0xC049C98B3C99)
               = true) by (vm_compute; reflexivity).
  assert (H6 : fst (Acurite609.Device.validate_bitstream
                      (Acurite609.Device.new DEVICE_OUTDOOR) 0xC0A15B25E1)
               = true) by (vm_compute; reflexivity).
  pose proof (accepted_checksum (Acurite523.Device.new DEVICE_FREEZER)
                (Acurite609.Device.new DEVICE_OUTDOOR) 0xC049C98B3C99) as T5.
  pose proof (accepted_checksum (Acurite523.Device.new DEVICE_FREEZER)
                (Acurite609.Device.new DEVICE_OUTDOOR) 0xC0A15B25E1) as T6.
  split; split.
  - exact H5.
  - exact (proj1 T5 H5).
  - exact H6.
  - exact (proj2 T6 H6).
Defined.

(** ** 00609 signature and channel *)

Lemma sig609_of_candidate (b : Z) :
  0 <= b < 2 ^ 40 ->
  wrap 16 (Z.shiftr b 32) = Z.land (Z.shiftr b 32) 0xff.
Proof.
  intros Hb. rewrite land_255, Z.shiftr_div_pow2 by lia. unfold wrap.
  assert (0 <= b / 2 ^ 32 < 256).
  { split; [apply Z.div_pos; lia|].
    apply Z.div_lt_upper_bound; [lia|]. change (2 ^ 32 * 256) with (2 ^ 40).
    lia. }
  rewrite !Z.mod_small by lia. reflexivity.
Qed.

(** C6.  For every 40-bit candidate [b] and every device [d]:
    [validate_bitstream] returns false when the channel field
    [bits[29..28]] is not 2; while the stored signature is 0 no signature
    value is refused (the result is decided by the zero test, the channel,
    the checksum and the range test alone) and on success the device stores
    [bits[39..32]]; once the stored signature is non-zero a candidate whose
    [bits[39..32]] differ from it is rejected. *)
Theorem signature_latching (d : Acurite609.Device.t) (b : Z) :
  0 <= b < 2 ^ 40 ->
  let sig := Z.land (Z.shiftr b 32) 0xff in
  let cha := Z.land (Z.shiftr b 28) 0x03 in
  let hum := F32.of_Z (Z.land (Z.shiftr b 8) 0x7f) in
  let r := Acurite609.Device.validate_bitstream d b in
  (cha <> 2 -> fst r = false) /\
  (Acurite609.Device.signature d = 0 ->
   fst r = negb (b =? 0) && (cha =? 2)
           && Acurite609.Device.validate_checksum b
           && negb (Acurite609.Device.out_of_range
                      hum (Acurite609.Device.decode_temp b)) /\
   (fst r = true -> Acurite609.Device.signature (snd r) = sig)) /\
  (Acurite609.Device.signature d <> 0 ->
   sig <> Acurite609.Device.signature d -> fst r = false).
Proof.
  intros Hb. cbv zeta.
  rewrite <- (sig609_of_candidate b Hb).
  unfold Acurite609.Device.validate_bitstream, Acurite609.CHANNEL_ID.
  repeat split.
  - intros Hc. apply Z.eqb_neq in Hc. rewrite Hc. cbn [negb].
    split_validator; reflexivity.
  - rename H into Hs. rewrite Hs. cbn [Z.eqb negb andb].
    destruct (b =? 0); [reflexivity|].
    destruct (Z.land (Z.shiftr b 28) 3 =? 2); [|reflexivity].
    destruct (Acurite609.Device.validate_checksum b); [|reflexivity].
    destruct (Acurite609.Device.out_of_range _ _); reflexivity.
  - rename H into Hs. rewrite Hs. cbn [Z.eqb negb andb].
    split_validator; cbn [fst snd Acurite609.Device.signature];
      intros; try discriminate; reflexivity.
  - intros Hs Hne. apply Z.eqb_neq in Hs. rewrite Hs.
    assert (Hne' : (Acurite609.Device.signature d
                    =? wrap 16 (Z.shiftr b 32)) = false)
      by (apply Z.eqb_neq; congruence).
    rewrite Hne'. cbn [negb andb]. destruct (b =? 0); reflexivity.
Qed.

(** First decode of the block of the format notes latches [0xC0]; the
    block sent after a battery change (signature [0x0F]) is then refused,
    and a block on channel 1 is refused by a fresh device. *)
Lemma signature_latching_witness :
  let d0 := Acurite609.Device.new DEVICE_OUTDOOR in
  let d1 := snd (Acurite609.Device.validate_bitstream d0 0xC0A15B25E1) in
  (0 <= 0xC0A15B25E1 < 2 ^ 40 /\
   Acurite609.Device.signature d0 = 0 /\
   fst (Acurite609.Device.validate_bitstream d0 0xC0A15B25E1) = true /\
   Acurite609.Device.signature d1 = Z.land (Z.shiftr 0xC0A15B25E1 32) 0xff) /\
  (0 <= 0x0F2123277A < 2 ^ 40 /\
   Acurite609.Device.signature d1 <> 0 /\
   Z.land (Z.shiftr 0x0F2123277A 32) 0xff <> Acurite609.Device.signature d1 /\
   fst (Acurite609.Device.validate_bitstream d1 0x0F2123277A) = false) /\
  (0 <= 0xC0915B25D1 < 2 ^ 40 /\
   Z.land (Z.shiftr 0xC0915B25D1 28) 0x03 <> 2 /\
   fst (Acurite609.Device.validate_bitstream d0 0xC0915B25D1) = false).
Proof.
  cbv zeta.
  assert (R1 : 0 <= 0xC0A15B25E1 < 2 ^ 40) by lia.
  assert (R2 : 0 <= 0x0F2123277A < 2 ^ 40) by lia.
  assert (R3 : 0 <= 0xC0915B25D1 < 2 ^ 40) by lia.
  assert (A1 : fst (Acurite609.Device.validate_bitstream
                      (Acurite609.Device.new DEVICE_OUTDOOR) 0xC0A15B25E1)
               = true) by (vm_compute; reflexivity).
  assert (S0 : Acurite609.Device.signature
                 (Acurite609.Device.new DEVICE_OUTDOOR) = 0) by reflexivity.
  assert (S1 : Acurite609.Device.signature
                 (snd (Acurite609.Device.validate_bitstream
                         (Acurite609.Device.new DEVICE_OUTDOOR) 0xC0A15B25E1))
               <> 0) by (vm_compute; discriminate).
  assert (N2 : Z.land (Z.shiftr 0x0F2123277A 32) 0xff
               <> Acurite609.Device.signature
                    (snd (Acurite609.Device.validate_bitstream
                            (Acurite609.Device.new DEVICE_OUTDOOR)
                            0xC0A15B25E1)))
    by (vm_compute; discriminate).
  assert (C3 : Z.land (Z.shiftr 0xC0915B25D1 28) 0x03 <> 2)
    by (vm_compute; discriminate).
  split; [|split].
  - refine (conj R1 (conj S0 (conj A1 _))).
    exact (proj2 (proj1 (proj2 (signature_latching _ _ R1)) S0) A1).
  - refine (conj R2 (conj S1 (conj N2 _))).
    exact (proj2 (proj2 (signature_latching _ _ R2)) S1 N2).
  - refine (conj R3 (conj C3 _)).
    exact (proj1 (signature_latching _ _ R3) C3).
Defined.

(** ** Rejection *)

Lemma scan523_all_rejected (ds : list Acurite523.Device.t) (b : Z) :
  Forall (fun d => fst (Acurite523.Device.validate_bitstream d b) = false) ds ->
  Monitor.scan523 ds b = None.
Proof.
  induction 1 as [|d ds Hd _ IH]; cbn [Monitor.scan523]; [reflexivity|].
  destruct (Acurite523.Device.validate_bitstream d b) as [ok d'].
  cbn [fst] in Hd. rewrite Hd. exact IH.
Qed.

Lemma scan609_all_rejected (ds : list Acurite609.Device.t) (b : Z) :
  Forall (fun d => fst (Acurite609.Device.validate_bitstream d b) = false) ds ->
  Monitor.scan609 ds b = None.
Proof.
  induction 1 as [|d ds Hd _ IH]; cbn [Monitor.scan609]; [reflexivity|].
  destruct (Acurite609.Device.validate_bitstream d b) as [ok d'].
  cbn [fst] in Hd. rewrite Hd. exact IH.
Qed.

(** C7.  For every device of either model and every candidate, a false
    result of [validate_bitstream] leaves the device (signature, battery,
    temperature, humidity) as it was, and a candidate that every device of
    a model rejects produces no payload in [parseRf]'s loop; and whenever
    the 00523 framer, driven from its initial state, returns a candidate,
    it is left with [chunk_open = true] and [bitstream_size = 0]. *)
Theorem rejection_is_atomic
    (d5 : Acurite523.Device.t) (d6 : Acurite609.Device.t)
    (ds5 : list Acurite523.Device.t) (ds6 : list Acurite609.Device.t)
    (b : Z) (cs : list call) (duration rfs : Z) :
  (fst (Acurite523.Device.validate_bitstream d5 b) = false ->
   snd (Acurite523.Device.validate_bitstream d5 b) = d5) /\
  (fst (Acurite609.Device.validate_bitstream d6 b) = false ->
   snd (Acurite609.Device.validate_bitstream d6 b) = d6) /\
  (Forall (fun d => fst (Acurite523.Device.validate_bitstream d b) = false)
     ds5 ->
   Monitor.scan523 ds5 b = None) /\
  (Forall (fun d => fst (Acurite609.Device.validate_bitstream d b) = false)
     ds6 ->
   Monitor.scan609 ds6 b = None) /\
  (let m := run523 Acurite523.Model.init cs in
   fst (Acurite523.Model.parse_rf m duration rfs) <> 0 ->
   Acurite523.Model.chunk_open
     (snd (Acurite523.Model.parse_rf m duration rfs)) = true /\
   Acurite523.Model.bitstream_size
     (snd (Acurite523.Model.parse_rf m duration rfs)) = 0).
Proof.
  repeat apply conj.
  - apply rejected523.
  - apply rejected609.
  - apply scan523_all_rejected.
  - apply scan609_all_rejected.
  - cbv zeta. intros Hne.
    apply (emit523 _ duration rfs (strong523_run cs _ strong523_init)) in Hne.
    tauto.
Qed.

(** Scenario S5: the documented block with the lowest checksum bit flipped
    is framed and emitted, both 00523 devices reject it and keep their
    state, no payload is built, and the framer is ready for the next block
    of the burst. *)
Lemma rejection_is_atomic_witness :
  let freezer := Acurite523.Device.new DEVICE_FREEZER in
  let outdoor := Acurite609.Device.new DEVICE_OUTDOOR in
  let b := 0xC049C98B3C98 in
  let m := run523 Acurite523.Model.init (removelast (frame523 b)) in
  (fst (Acurite523.Model.parse_rf m 350 1) = b /\
   Acurite523.Model.chunk_open (snd (Acurite523.Model.parse_rf m 350 1))
   = true /\
   Acurite523.Model.bitstream_size (snd (Acurite523.Model.parse_rf m 350 1))
   = 0) /\
  (fst (Acurite523.Device.validate_bitstream freezer b) = false /\
   snd (Acurite523.Device.validate_bitstream freezer b) = freezer) /\
  (fst (Acurite609.Device.validate_bitstream outdoor b) = false /\
   snd (Acurite609.Device.validate_bitstream outdoor b) = outdoor) /\
  Monitor.scan523 (Monitor.devices523 Monitor.init) b = None /\
  Monitor.scan609 (Monitor.devices609 Monitor.init) b = None.
Proof.
  cbv zeta.
  pose proof (rejection_is_atomic
                (Acurite523.Device.new DEVICE_FREEZER)
                (Acurite609.Device.new DEVICE_OUTDOOR)
                (Monitor.devices523 Monitor.init)
                (Monitor.devices609 Monitor.init)
                0xC049C98B3C98
                (removelast (frame523 0xC049C98B3C98)) 350 1)
    as [T1 [T2 [T3 [T4 T5]]]].
  cbv zeta in T5.
  assert (E : fst (Acurite523.Model.parse_rf
                     (run523 Acurite523.Model.init
                        (removelast (frame523 0xC049C98B3C98))) 350 1)
              = 0xC049C98B3C98) by (vm_compute; reflexivity).
  assert (R5 : fst (Acurite523.Device.validate_bitstream
                      (Acurite523.Device.new DEVICE_FREEZER) 0xC049C98B3C98)
               = false) by (vm_compute; reflexivity).
  assert (R6 : fst (Acurite609.Device.validate_bitstream
                      (Acurite609.Device.new DEVICE_OUTDOOR) 0xC049C98B3C98)
               = false) by (vm_compute; reflexivity).
  refine (conj (conj E (T5 _)) (conj (conj R5 (T1 R5))
            (conj (conj R6 (T2 R6)) (conj (T3 _) (T4 _))))).
  - rewrite E. discriminate.
  - repeat constructor; vm_compute; reflexivity.
  - repeat constructor; vm_compute; reflexivity.
Defined.

(** ** Emission *)

Lemma bit_on_523 (rfs duration : Z) :
  (Acurite523.Model.get_rfs_type rfs duration = Acurite523.SIGNAL_BIT_0_ON ->
   rfs = 1 /\ 300 <= duration < 500) /\
  (Acurite523.Model.get_rfs_type rfs duration = Acurite523.SIGNAL_BIT_1_ON ->
   rfs = 1 /\ 100 <= duration < 300).
Proof.
  unfold Acurite523.Model.get_rfs_type.
  destruct (Z.eqb_spec rfs 0); [|destruct (Z.eqb_spec rfs 1)];
    repeat match goal with
      | |- context [(?a <=? ?b) && _] => destruct (Z.leb_spec a b)
      | |- context [_ && (?a <? ?b)] => destruct (Z.ltb_spec a b)
      end; cbn [andb]; split; intros Hty; try discriminate Hty; lia.
Qed.

Lemma bit_609 (rfs duration : Z) :
  (Acurite609.Model.get_rfs_type rfs duration = Acurite609.SIGNAL_BIT_0 ->
   rfs = 1 /\ 300 <= duration < 1200) /\
  (Acurite609.Model.get_rfs_type rfs duration = Acurite609.SIGNAL_BIT_1 ->
   rfs = 1 /\ 1200 <= duration < 3000).
Proof.
  unfold Acurite609.Model.get_rfs_type.
  destruct (Z.eqb_spec rfs 0); [|destruct (Z.eqb_spec rfs 1)];
    repeat match goal with
      | |- context [if ?a <? ?b then _ else _] => destruct (Z.ltb_spec a b)
      | |- context [(?a <=? ?b) && _] => destruct (Z.leb_spec a b)
      | |- context [_ && (?a <? ?b)] => destruct (Z.ltb_spec a b)
      end; cbn [andb]; split; intros Hty; try discriminate Hty; lia.
Qed.

(** C8, counterexample to the claim as stated: after [shared_stream] the
    pulse (level 1, 350 microseconds) completes a block in both machines,
    and both [parse_rf] calls return a non-zero candidate. *)
Lemma both_models_emit :
  fst (Acurite523.Model.parse_rf
         (run523 Acurite523.Model.init shared_stream) 350 1)
  = 0xFF8000000000 /\
  fst (Acurite609.Model.parse_rf
         (run609 Acurite609.Model.init shared_stream) 350 1)
  = 0x8000000000.
Proof.
  split; vm_compute; reflexivity.
Qed.

(** C8 (as amended).  When both models are driven from their initial
    states by the same calls, an event on which both [parse_rf] return a
    non-zero candidate is a level-1 pulse of 300 to 499 microseconds, the
    window where 00523 BIT_0_ON and 00609 BIT_0 overlap; on every other
    event at most one model returns a candidate. *)
Theorem joint_emission_window (cs : list call) (duration rfs : Z) :
  fst (Acurite523.Model.parse_rf
         (run523 Acurite523.Model.init cs) duration rfs) <> 0 ->
  fst (Acurite609.Model.parse_rf
         (run609 Acurite609.Model.init cs) duration rfs) <> 0 ->
  rfs = 1 /\ 300 <= duration < 500.
Proof.
  intros H5 H6.
  apply (emit523 _ _ _ (strong523_run cs _ strong523_init)) in H5.
  apply (emit609 _ _ _ (strong609_run cs _ strong609_init)) in H6.
  destruct H5 as [_ [_ [K5 _]]]. destruct H6 as [_ [_ [_ [_ [K6 _]]]]].
  pose proof (bit_on_523 rfs duration) as [A0 A1].
  pose proof (bit_609 rfs duration) as [B0 B1].
  destruct K5 as [[_ [T5 _]]|[_ [T5 _]]], K6 as [[T6 _]|[T6 _]];
    try specialize (A0 T5); try specialize (A1 T5);
    try specialize (B0 T6); try specialize (B1 T6); lia.
Qed.

Lemma joint_emission_window_witness :
  fst (Acurite523.Model.parse_rf
         (run523 Acurite523.Model.init shared_stream) 350 1) <> 0 /\
  fst (Acurite609.Model.parse_rf
         (run609 Acurite609.Model.init shared_stream) 350 1) <> 0 /\
  1 = 1 /\ 300 <= 350 < 500.
Proof.
  assert (H5 : fst (Acurite523.Model.parse_rf
                      (run523 Acurite523.Model.init shared_stream) 350 1)
               <> 0) by (vm_compute; discriminate).
  assert (H6 : fst (Acurite609.Model.parse_rf
                      (run609 Acurite609.Model.init shared_stream) 350 1)
               <> 0) by (vm_compute; discriminate).
  exact (conj H5 (conj H6 (joint_emission_window shared_stream 350 1 H5 H6))).
Defined.

(** C9.  Driven from the initial state, each machine starts every
    [parse_rf] call with [bitstream_size < BIT_LENGTH]; a non-zero result
    comes only from the call that accumulates bit 48 (00523: BIT_0_ON after
    BIT_0_OFF or BIT_1_ON after BIT_1_OFF, at size 47) or bit 40 (00609: a
    bit signal after OFF with chunk and bitstream open, at size 39); the
    branches that emit a buffer found full -- BIT_1_ON after BIT_0_OFF and
    CHUNK_END for 00523, BITSTREAM_START, BITSTREAM_END and CHUNK_END for
    00609 -- always return 0. *)
Theorem emission_only_at_final_bit (cs : list call) (duration rfs : Z) :
  (let m := run523 Acurite523.Model.init cs in
   let ty := Acurite523.Model.get_rfs_type rfs duration in
   let result := fst (Acurite523.Model.parse_rf m duration rfs) in
   Acurite523.Model.bitstream_size m < Acurite523.SIGNAL_BIT_LENGTH /\
   (result <> 0 ->
    Acurite523.Model.chunk_open m = true /\
    Acurite523.Model.bitstream_size m = 47 /\
    ((Acurite523.Model.last_rfs_type m = Acurite523.SIGNAL_BIT_0_OFF /\
      ty = Acurite523.SIGNAL_BIT_0_ON) \/
     (Acurite523.Model.last_rfs_type m = Acurite523.SIGNAL_BIT_1_OFF /\
      ty = Acurite523.SIGNAL_BIT_1_ON))) /\
   (Acurite523.Model.last_rfs_type m = Acurite523.SIGNAL_BIT_0_OFF ->
    ty = Acurite523.SIGNAL_BIT_1_ON -> result = 0) /\
   (ty = Acurite523.SIGNAL_CHUNK_END -> result = 0)) /\
  (let m := run609 Acurite609.Model.init cs in
   let ty := Acurite609.Model.get_rfs_type rfs duration in
   let result := fst (Acurite609.Model.parse_rf m duration rfs) in
   Acurite609.Model.bitstream_size m < Acurite609.SIGNAL_BIT_LENGTH /\
   (result <> 0 ->
    Acurite609.Model.last_rfs_type m = Acurite609.SIGNAL_OFF /\
    Acurite609.Model.chunk_open m = true /\
    Acurite609.Model.bitstream_open m = true /\
    Acurite609.Model.bitstream_size m = 39 /\
    (ty = Acurite609.SIGNAL_BIT_0 \/ ty = Acurite609.SIGNAL_BIT_1)) /\
   (ty = Acurite609.SIGNAL_BITSTREAM_START -> result = 0) /\
   (ty = Acurite609.SIGNAL_BITSTREAM_END -> result = 0) /\
   (ty = Acurite609.SIGNAL_CHUNK_END -> result = 0)).
Proof.
  cbv zeta. split.
  - pose proof (strong523_run cs _ strong523_init) as Hinv.
    pose proof (emit523 _ duration rfs Hinv) as Hemit.
    set (m := run523 Acurite523.Model.init cs) in *.
    set (result := fst (Acurite523.Model.parse_rf m duration rfs)) in *.
    repeat apply conj.
    + apply Hinv.
    + intros Hne. destruct (Hemit Hne) as [Hc [Hs [Hk _]]].
      repeat split; try assumption.
      destruct Hk as [[? [? _]]|[? [? _]]]; [left|right]; split; assumption.
    + intros Hl Ht. destruct (Z.eq_dec result 0) as [|Hne]; [assumption|].
      destruct (Hemit Hne) as [_ [_ [[[_ [Hk _]]|[Hk _]] _]]]; congruence.
    + intros Ht. destruct (Z.eq_dec result 0) as [|Hne]; [assumption|].
      destruct (Hemit Hne) as [_ [_ [[[_ [Hk _]]|[_ [Hk _]]] _]]]; congruence.
  - pose proof (strong609_run cs _ strong609_init) as Hinv.
    pose proof (emit609 _ duration rfs Hinv) as Hemit.
    set (m := run609 Acurite609.Model.init cs) in *.
    set (result := fst (Acurite609.Model.parse_rf m duration rfs)) in *.
    assert (Hzero : forall ty,
               ty <> Acurite609.SIGNAL_BIT_0 ->
               ty <> Acurite609.SIGNAL_BIT_1 ->
               Acurite609.Model.get_rfs_type rfs duration = ty ->
               result = 0).
    { intros ty N0 N1 Ht.
      destruct (Z.eq_dec result 0) as [|Hne]; [assumption|].
      destruct (Hemit Hne) as [_ [_ [_ [_ [[[Hk _]|[Hk _]] _]]]]]; congruence. }
    repeat apply conj.
    + apply Hinv.
    + intros Hne. destruct (Hemit Hne) as [Hl [Hc [Ho [Hs [Hk _]]]]].
      repeat split; try assumption.
      destruct Hk as [[? _]|[? _]]; [left|right]; assumption.
    + apply Hzero; discriminate.
    + apply Hzero; discriminate.
    + apply Hzero; discriminate.
Qed.

(** The documented blocks: the final pulse of each finds 47 (39) bits
    accumulated and returns the block. *)
Lemma emission_only_at_final_bit_witness :
  (fst (Acurite523.Model.parse_rf
          (run523 Acurite523.Model.init (removelast (frame523 0xC049C98B3C99)))
          150 1) <> 0 /\
   Acurite523.Model.bitstream_size
     (run523 Acurite523.Model.init (removelast (frame523 0xC049C98B3C99)))
   = 47) /\
  (fst (Acurite609.Model.parse_rf
          (run609 Acurite609.Model.init (removelast (frame609 0xC0A15B25E1)))
          1500 1) <> 0 /\
   Acurite609.Model.bitstream_size
     (run609 Acurite609.Model.init (removelast (frame609 0xC0A15B25E1)))
   = 39).
Proof.
  assert (H5 : fst (Acurite523.Model.parse_rf
                      (run523 Acurite523.Model.init
                         (removelast (frame523 0xC049C98B3C99))) 150 1)
               <> 0) by (vm_compute; discriminate).
  assert (H6 : fst (Acurite609.Model.parse_rf
                      (run609 Acurite609.Model.init
                         (removelast (frame609 0xC0A15B25E1))) 1500 1)
               <> 0) by (vm_compute; discriminate).
  pose proof (emission_only_at_final_bit
                (removelast (frame523 0xC049C98B3C99)) 150 1) as [T5 _].
  pose proof (emission_only_at_final_bit
                (removelast (frame609 0xC0A15B25E1)) 1500 1) as [_ T6].
  cbv zeta in T5, T6.
  refine (conj (conj H5 _) (conj H6 _)).
  - exact (proj1 (proj2 (proj1 (proj2 T5) H5))).
  - exact (proj1 (proj2 (proj2 (proj2 (proj1 (proj2 T6) H6))))).
Defined.

(** ** The all-zero block *)

(** C10.  When 47 (39) zero bits are in the buffer and the next pulse pair
    is a zero bit, [parse_rf] closes the bitstream and returns 0, the value
    it returns when it needs more input; on the streams that frame 48 (40)
    zero bits every [parse_rf] call returns 0 and the dispatcher builds no
    payload; and [validate_bitstream] of every device returns false on 0
    and keeps the device as it was. *)
Theorem zero_block_unreportable
    (m5 : Acurite523.Model.t) (m6 : Acurite609.Model.t)
    (d5 : Acurite523.Device.t) (d6 : Acurite609.Device.t) (duration : Z) :
  (Acurite523.Model.chunk_open m5 = true ->
   Acurite523.Model.last_rfs_type m5 = Acurite523.SIGNAL_BIT_0_OFF ->
   Acurite523.Model.bitstream_size m5 = 47 ->
   Acurite523.Model.bitstream m5 = 0 ->
   Acurite523.Model.get_rfs_type 1 duration = Acurite523.SIGNAL_BIT_0_ON ->
   fst (Acurite523.Model.parse_rf m5 duration 1) = 0 /\
   Acurite523.Model.bitstream_size
     (snd (Acurite523.Model.parse_rf m5 duration 1)) = 0 /\
   Acurite523.Model.bitstream_open
     (snd (Acurite523.Model.parse_rf m5 duration 1)) = false) /\
  (Acurite609.Model.chunk_open m6 = true ->
   Acurite609.Model.bitstream_open m6 = true ->
   Acurite609.Model.last_rfs_type m6 = Acurite609.SIGNAL_OFF ->
   Acurite609.Model.bitstream_size m6 = 39 ->
   Acurite609.Model.bitstream m6 = 0 ->
   Acurite609.Model.get_rfs_type 1 duration = Acurite609.SIGNAL_BIT_0 ->
   fst (Acurite609.Model.parse_rf m6 duration 1) = 0 /\
   Acurite609.Model.bitstream_size
     (snd (Acurite609.Model.parse_rf m6 duration 1)) = 0 /\
   Acurite609.Model.bitstream_open
     (snd (Acurite609.Model.parse_rf m6 duration 1)) = false) /\
  results523 Acurite523.Model.init (frame523 0)
  = repeat 0 (length (frame523 0)) /\
  results609 Acurite609.Model.init (frame609 0)
  = repeat 0 (length (frame609 0)) /\
  payloads Monitor.init (frame523 0) = [] /\
  payloads Monitor.init (frame609 0) = [] /\
  Acurite523.Device.validate_bitstream d5 0 = (false, d5) /\
  Acurite609.Device.validate_bitstream d6 0 = (false, d6).
Proof.
  split; [|split; [|repeat apply conj]].
  - intros Hc Hl Hs Hb Ht. unfold Acurite523.Model.parse_rf.
    rewrite Ht. destruct m5 as [ia co bs sz bo cnt last]; eval523.
    subst co last sz bs. eval523. repeat split; reflexivity.
  - intros Hc Ho Hl Hs Hb Ht. unfold Acurite609.Model.parse_rf.
    rewrite Ht. destruct m6 as [bs sz last ia bo co]; eval609.
    subst co bo last sz bs. eval609. repeat split; reflexivity.
  - vm_compute; reflexivity.
  - vm_compute; reflexivity.
  - vm_compute; reflexivity.
  - vm_compute; reflexivity.
  - reflexivity.
  - reflexivity.
Qed.

Lemma zero_block_unreportable_witness :
  let m5 := run523 Acurite523.Model.init (removelast (frame523 0)) in
  let m6 := run609 Acurite609.Model.init (removelast (frame609 0)) in
  (Acurite523.Model.bitstream_size m5 = 47 /\
   Acurite523.Model.bitstream m5 = 0 /\
   fst (Acurite523.Model.parse_rf m5 350 1) = 0 /\
   Acurite523.Model.bitstream_size (snd (Acurite523.Model.parse_rf m5 350 1))
   = 0 /\
   Acurite523.Model.bitstream_open (snd (Acurite523.Model.parse_rf m5 350 1))
   = false) /\
  (Acurite609.Model.bitstream_size m6 = 39 /\
   Acurite609.Model.bitstream m6 = 0 /\
   fst (Acurite609.Model.parse_rf m6 600 1) = 0 /\
   Acurite609.Model.bitstream_size (snd (Acurite609.Model.parse_rf m6 600 1))
   = 0 /\
   Acurite609.Model.bitstream_open (snd (Acurite609.Model.parse_rf m6 600 1))
   = false).
Proof.
  cbv zeta.
  pose proof (zero_block_unreportable
                (run523 Acurite523.Model.init (removelast (frame523 0)))
                (run609 Acurite609.Model.init (removelast (frame609 0)))
                (Acurite523.Device.new DEVICE_FREEZER)
                (Acurite609.Device.new DEVICE_OUTDOOR) 350) as [T5 _].
  pose proof (zero_block_unreportable
                (run523 Acurite523.Model.init (removelast (frame523 0)))
                (run609 Acurite609.Model.init (removelast (frame609 0)))
                (Acurite523.Device.new DEVICE_FREEZER)
                (Acurite609.Device.new DEVICE_OUTDOOR) 600) as [_ [T6 _]].
  assert (S5 : Acurite523.Model.bitstream_size
                 (run523 Acurite523.Model.init (removelast (frame523 0)))
               = 47) by (vm_compute; reflexivity).
  assert (B5 : Acurite523.Model.bitstream
                 (run523 Acurite523.Model.init (removelast (frame523 0)))
               = 0) by (vm_compute; reflexivity).
  assert (S6 : Acurite609.Model.bitstream_size
                 (run609 Acurite609.Model.init (removelast (frame609 0)))
               = 39) by (vm_compute; reflexivity).
  assert (B6 : Acurite609.Model.bitstream
                 (run609 Acurite609.Model.init (removelast (frame609 0)))
               = 0) by (vm_compute; reflexivity).
  refine (conj (conj S5 (conj B5 (T5 _ _ S5 B5 _)))
               (conj S6 (conj B6 (T6 _ _ _ S6 B6 _))));
    vm_compute; reflexivity.
Defined.

(** * Further properties of the decoders *)

(** ** Exhaustive checks over small fields *)

Lemma below_complete (n x : Z) : 0 <= x < n -> In x (below n).
Proof.
  intros Hx. unfold below. apply in_map_iff. exists (Z.to_nat x).
  split; [apply Z2Nat.id; lia|]. apply in_seq. lia.
Qed.

Lemma forall_below (P : Z -> bool) (n : Z) :
  forallb P (below n) = true -> forall x, 0 <= x < n -> P x = true.
Proof.
  intros H x Hx. rewrite forallb_forall in H. apply H, below_complete, Hx.
Qed.

Lemma land_7f_range (x : Z) : 0 <= Z.land x 0x7f < 128.
Proof.
  change 0x7f with (Z.ones 7). rewrite Z.land_ones by lia.
  apply Z.mod_pos_bound. lia.
Qed.

Lemma land_1fff_range (x : Z) : 0 <= Z.land x 0x1fff < 0x2000.
Proof.
  change 0x1fff with (Z.ones 13). rewrite Z.land_ones by lia.
  apply Z.mod_pos_bound. lia.
Qed.

(** ** 00523: which readings are accepted, and what the payload carries *)

(** The binary32 range test and the conversion of the payload agree with
    integer arithmetic on every pair of 7-bit halves. *)
Lemma temp523_table (hi lo : Z) :
  0 <= hi < 128 -> 0 <= lo < 128 ->
  let raw := Z.lor (Z.shiftl hi 7) lo in
  raw = 128 * hi + lo /\
  F32.ltb (temp523 raw) (F32.of_Z (-40)) || F32.geb (temp523 raw) (F32.of_Z 70)
  = negb ((1080 <=? raw) && (raw <? 3060)) /\
  ((1080 <=? raw) && (raw <? 3060) = true ->
   F32.to_int16 (F32.mul (temp523 raw) (F32.of_Z 10))
   = Z.quot (5 * (raw - 1800)) 9).
Proof.
  intros Hhi Hlo. cbv zeta.
  pose (check := fun hi lo =>
    let raw := Z.lor (Z.shiftl hi 7) lo in
    (raw =? 128 * hi + lo)
    && Bool.eqb
         (F32.ltb (temp523 raw) (F32.of_Z (-40))
          || F32.geb (temp523 raw) (F32.of_Z 70))
         (negb ((1080 <=? raw) && (raw <? 3060)))
    && (negb ((1080 <=? raw) && (raw <? 3060))
        || (F32.to_int16 (F32.mul (temp523 raw) (F32.of_Z 10))
            =? Z.quot (5 * (raw - 1800)) 9))).
  assert (Hall : forallb (fun hi => forallb (check hi) (below 128)) (below 128)
                 = true) by (vm_compute; reflexivity).
  pose proof (forall_below _ _ (forall_below _ _ Hall hi Hhi) lo Hlo) as H.
  unfold check in H. cbv zeta in H.
  apply andb_prop in H. destruct H as [H H3].
  apply andb_prop in H. destruct H as [H1 H2].
  apply Z.eqb_eq in H1. apply eqb_prop in H2.
  repeat split; try assumption.
  intros Hr. rewrite Hr in H3. cbn [negb orb] in H3.
  apply Z.eqb_eq. exact H3.
Qed.

Lemma raw523_table (b : Z) :
  F32.ltb (temp523 (raw523 b)) (F32.of_Z (-40))
  || F32.geb (temp523 (raw523 b)) (F32.of_Z 70)
  = negb ((1080 <=? raw523 b) && (raw523 b <? 3060)) /\
  ((1080 <=? raw523 b) && (raw523 b <? 3060) = true ->
   F32.to_int16 (F32.mul (temp523 (raw523 b)) (F32.of_Z 10))
   = Z.quot (5 * (raw523 b - 1800)) 9).
Proof.
  unfold raw523.
  exact (proj2 (temp523_table _ _ (land_7f_range (Z.shiftr b 16))
                  (land_7f_range (Z.shiftr b 8)))).
Qed.

(** [validate_bitstream] with its tests named: the shape used below. *)
Lemma validate523_cases (d : Acurite523.Device.t) (b : Z) :
  Acurite523.Device.validate_bitstream d b
  = if (b =? 0)
       || negb (wrap 16 (Z.shiftr b 32) =? Acurite523.Device.signature d)
       || negb (Acurite523.Device.validate_checksum b)
       || negb (parity523 b)
       || negb ((1080 <=? raw523 b) && (raw523 b <? 3060))
    then (false, d)
    else (true,
          Acurite523.Device.mk
            (Acurite523.Device.device d) (Acurite523.Device.signature d)
            (Z.land (Z.shiftr b 30) 0x03) (temp523 (raw523 b))).
Proof.
  unfold Acurite523.Device.validate_bitstream. cbv zeta.
  fold (raw523 b). fold (temp523 (raw523 b)).
  rewrite (proj1 (raw523_table b)). unfold parity523.
  destruct (b =? 0); [reflexivity|].
  destruct (wrap 16 (Z.shiftr b 32) =? Acurite523.Device.signature d);
    [|reflexivity].
  destruct (Acurite523.Device.validate_checksum b); [|reflexivity].
  destruct (Acurite523.Device.validate_parity
              (Z.land (Z.shiftr b 15) 1) (Z.land (Z.shiftr b 8) 127));
    [|reflexivity].
  destruct (Acurite523.Device.validate_parity
              (Z.land (Z.shiftr b 23) 1) (Z.land (Z.shiftr b 16) 127));
    reflexivity.
Qed.

Lemma accepted523_spec (d : Acurite523.Device.t) (b : Z) :
  fst (Acurite523.Device.validate_bitstream d b) = true <->
  b <> 0 /\
  wrap 16 (Z.shiftr b 32) = Acurite523.Device.signature d /\
  Acurite523.Device.validate_checksum b = true /\
  parity523 b = true /\
  1080 <= raw523 b < 3060.
Proof.
  rewrite validate523_cases.
  destruct (Z.eqb_spec b 0) as [E0|E0];
    [cbn [orb fst]; split; [discriminate | intros [H _]; contradiction]|].
  destruct (Z.eqb_spec (wrap 16 (Z.shiftr b 32))
              (Acurite523.Device.signature d)) as [Es|Es];
    [|cbn [orb negb fst]; split; [discriminate | intros [_ [H _]]; contradiction]].
  destruct (Acurite523.Device.validate_checksum b);
    [|cbn [orb negb fst]; split;
      [discriminate | intros [_ [_ [H _]]]; discriminate]].
  destruct (parity523 b);
    [|cbn [orb negb fst]; split;
      [discriminate | intros [_ [_ [_ [H _]]]]; discriminate]].
  destruct (Z.leb_spec 1080 (raw523 b)), (Z.ltb_spec (raw523 b) 3060);
    cbn [orb negb andb fst]; split; try discriminate;
    try (intros; repeat split; (assumption || reflexivity || lia));
    intros [_ [_ [_ [_ H]]]]; lia.
Qed.

(** X1.  A 00523 device accepts a candidate exactly when the candidate is
    non-zero, its bits 47..32 equal the device signature, the checksum and
    both parity bits are right, and the 14-bit raw value lies in
    1080..3059 (-40 C up to, not including, 70 C); the binary32 range test
    of the source decides nothing else. *)
Theorem accepted523_iff (d : Acurite523.Device.t) (b : Z) :
  fst (Acurite523.Device.validate_bitstream d b) = true <->
  b <> 0 /\
  wrap 16 (Z.shiftr b 32) = Acurite523.Device.signature d /\
  Acurite523.Device.validate_checksum b = true /\
  parity523 b = true /\
  1080 <= raw523 b < 3060.
Proof.
  exact (accepted523_spec d b).
Qed.


(** X2.  The payload built from an accepted 00523 candidate: the battery
    field is bits 31..30 as they are, the temperature is
    [10 * (raw - 1800) / 18] truncated toward zero (tenths of a degree, so
    between -400 and 699), the humidity is 0. *)
Theorem payload523_of_accepted
    (d : Acurite523.Device.t) (b status : Z) :
  fst (Acurite523.Device.validate_bitstream d b) = true ->
  Acurite523.Device.create_payload
    (snd (Acurite523.Device.validate_bitstream d b)) status
  = mkPayload TAG_TEMPMONITOR MODEL_ACURITE523
      (Acurite523.Device.device d) status
      (Z.land (Z.shiftr b 30) 0x03)
      (Z.quot (5 * (raw523 b - 1800)) 9) 0 /\
  -400 <= Z.quot (5 * (raw523 b - 1800)) 9 <= 699.
Proof.
  intros Hacc.
  pose proof (proj1 (accepted523_spec d b) Hacc) as [_ [_ [_ [_ Hr]]]].
  rewrite validate523_cases in *.
  destruct (_ || _) in *; [discriminate Hacc|].
  cbn [snd]. unfold Acurite523.Device.create_payload.
  cbn [Acurite523.Device.device Acurite523.Device.battery
       Acurite523.Device.temperature].
  rewrite (proj2 (raw523_table b))
    by (apply andb_true_intro; split;
        [apply Z.leb_le | apply Z.ltb_lt]; lia).
  split; [reflexivity|].
  split.
  - change (-400) with (Z.quot (-3600) 9). apply Z.quot_le_mono; lia.
  - change 699 with (Z.quot 6295 9). apply Z.quot_le_mono; lia.
Qed.

Lemma payload523_of_accepted_witness :
  fst (Acurite523.Device.validate_bitstream
         (Acurite523.Device.new DEVICE_FRIDGE) 0xC07CC90F5064) = true /\
  Acurite523.Device.create_payload
    (snd (Acurite523.Device.validate_bitstream
            (Acurite523.Device.new DEVICE_FRIDGE) 0xC07CC90F5064)) STATUS_OK
  = mkPayload TAG_TEMPMONITOR MODEL_ACURITE523
      (Acurite523.Device.device (Acurite523.Device.new DEVICE_FRIDGE))
      STATUS_OK
      (Z.land (Z.shiftr 0xC07CC90F5064 30) 0x03)
      (Z.quot (5 * (raw523 0xC07CC90F5064 - 1800)) 9) 0.
Proof.
  assert (H : fst (Acurite523.Device.validate_bitstream
                     (Acurite523.Device.new DEVICE_FRIDGE) 0xC07CC90F5064)
              = true) by (vm_compute; reflexivity).
  exact (conj H (proj1 (payload523_of_accepted _ _ STATUS_OK H))).
Defined.

(** ** 00609: which readings are accepted, and what the payload carries *)

Lemma temp609_table (raw : Z) :
  0 <= raw < 0x2000 ->
  F32.ltb (temp609 raw) (F32.of_Z (-40)) || F32.gtb (temp609 raw) (F32.of_Z 70)
  = negb (if Z.odd raw then 7392 <=? raw else raw <=? 1400) /\
  ((if Z.odd raw then 7392 <=? raw else raw <=? 1400) = true ->
   F32.to_int16 (F32.mul (temp609 raw) (F32.of_Z 10))
   = if Z.odd raw then Z.quot (raw - 0x2000) 2 else raw / 2).
Proof.
  intros Hr.
  pose (check := fun raw =>
    let ok := if Z.odd raw then 7392 <=? raw else raw <=? 1400 in
    Bool.eqb
      (F32.ltb (temp609 raw) (F32.of_Z (-40))
       || F32.gtb (temp609 raw) (F32.of_Z 70))
      (negb ok)
    && (negb ok
        || (F32.to_int16 (F32.mul (temp609 raw) (F32.of_Z 10))
            =? (if Z.odd raw then Z.quot (raw - 0x2000) 2 else raw / 2)))).
  assert (Hall : forallb check (below 0x2000) = true)
    by (vm_compute; reflexivity).
  pose proof (forall_below _ _ Hall raw Hr) as H.
  unfold check in H. cbv zeta in H.
  apply andb_prop in H. destruct H as [H1 H2]. apply eqb_prop in H1.
  split; [exact H1|].
  intros Hok. rewrite Hok in H2. cbn [negb orb] in H2.
  apply Z.eqb_eq. exact H2.
Qed.

Lemma hum609_table (hum : Z) :
  0 <= hum < 128 ->
  F32.ltb (F32.of_Z hum) (F32.of_Z 1) || F32.gtb (F32.of_Z hum) (F32.of_Z 99)
  = negb ((1 <=? hum) && (hum <=? 99)) /\
  F32.to_int16 (F32.mul (F32.of_Z hum) (F32.of_Z 10)) = 10 * hum.
Proof.
  intros Hh.
  pose (check := fun hum =>
    Bool.eqb
      (F32.ltb (F32.of_Z hum) (F32.of_Z 1)
       || F32.gtb (F32.of_Z hum) (F32.of_Z 99))
      (negb ((1 <=? hum) && (hum <=? 99)))
    && (F32.to_int16 (F32.mul (F32.of_Z hum) (F32.of_Z 10)) =? 10 * hum)).
  assert (Hall : forallb check (below 128) = true)
    by (vm_compute; reflexivity).
  pose proof (forall_below _ _ Hall hum Hh) as H.
  unfold check in H. apply andb_prop in H. destruct H as [H1 H2].
  split; [apply eqb_prop, H1 | apply Z.eqb_eq, H2].
Qed.

Lemma out_of_range609 (b : Z) :
  Acurite609.Device.out_of_range
    (F32.of_Z (hum609 b)) (Acurite609.Device.decode_temp b)
  = negb (reading609_ok b).
Proof.
  unfold Acurite609.Device.out_of_range, reading609_ok.
  change (Acurite609.Device.decode_temp b) with (temp609 (raw609 b)).
  rewrite <- !orb_assoc.
  rewrite (proj1 (temp609_table (raw609 b) (land_1fff_range (Z.shiftr b 15)))).
  rewrite orb_assoc.
  rewrite (proj1 (hum609_table (hum609 b) (land_7f_range (Z.shiftr b 8)))).
  rewrite !negb_andb. reflexivity.
Qed.

Lemma validate609_cases (d : Acurite609.Device.t) (b : Z) :
  Acurite609.Device.validate_bitstream d b
  = if (b =? 0)
       || (negb (Acurite609.Device.signature d =? 0)
           && negb (Acurite609.Device.signature d
                    =? wrap 16 (Z.shiftr b 32)))
       || negb (Z.land (Z.shiftr b 28) 0x03 =? Acurite609.CHANNEL_ID)
       || negb (Acurite609.Device.validate_checksum b)
       || negb (reading609_ok b)
    then (false, d)
    else (true,
          Acurite609.Device.mk
            (Acurite609.Device.device d)
            (if Acurite609.Device.signature d =? 0
             then wrap 16 (Z.shiftr b 32)
             else Acurite609.Device.signature d)
            (Z.land (Z.shiftr b 30) 0x03)
            (temp609 (raw609 b)) (F32.of_Z (hum609 b))).
Proof.
  unfold Acurite609.Device.validate_bitstream. cbv zeta.
  fold (hum609 b). rewrite out_of_range609.
  destruct (b =? 0); [reflexivity|].
  destruct (negb (Acurite609.Device.signature d =? 0)
            && negb (Acurite609.Device.signature d
                     =? wrap 16 (Z.shiftr b 32))); [reflexivity|].
  destruct (Z.land (Z.shiftr b 28) 3 =? Acurite609.CHANNEL_ID);
    [|reflexivity].
  destruct (Acurite609.Device.validate_checksum b); [|reflexivity].
  destruct (reading609_ok b); reflexivity.
Qed.

Lemma accepted609_spec (d : Acurite609.Device.t) (b : Z) :
  fst (Acurite609.Device.validate_bitstream d b) = true <->
  b <> 0 /\
  (Acurite609.Device.signature d = 0 \/
   Acurite609.Device.signature d = wrap 16 (Z.shiftr b 32)) /\
  Z.land (Z.shiftr b 28) 0x03 = 2 /\
  Acurite609.Device.validate_checksum b = true /\
  1 <= hum609 b <= 99 /\
  ((Z.odd (raw609 b) = false /\ raw609 b <= 1400) \/
   (Z.odd (raw609 b) = true /\ 7392 <= raw609 b)).
Proof.
  rewrite validate609_cases. unfold reading609_ok, Acurite609.CHANNEL_ID.
  destruct (Z.eqb_spec b 0) as [E0|E0];
    [cbn [orb fst]; split; [discriminate | intros [H _]; contradiction]|].
  destruct (Z.eqb_spec (Acurite609.Device.signature d) 0) as [Ez|Ez],
           (Z.eqb_spec (Acurite609.Device.signature d)
              (wrap 16 (Z.shiftr b 32))) as [Es|Es];
    cbn [negb andb orb];
    try (split; [discriminate | intros [_ [[H|H] _]]; contradiction]).
  all: destruct (Z.eqb_spec (Z.land (Z.shiftr b 28) 3) 2) as [Ec|Ec];
    [|cbn [orb negb fst]; split;
      [discriminate | intros [_ [_ [H _]]]; contradiction]].
  all: destruct (Acurite609.Device.validate_checksum b);
    [|cbn [orb negb fst]; split;
      [discriminate | intros [_ [_ [_ [H _]]]]; discriminate]].
  all: destruct (Z.leb_spec 1 (hum609 b)), (Z.leb_spec (hum609 b) 99),
         (Z.odd (raw609 b)), (Z.leb_spec 7392 (raw609 b)),
         (Z.leb_spec (raw609 b) 1400);
    cbn [orb negb andb fst]; split; try discriminate;
    try (intros _; repeat split; try assumption; try reflexivity;
         try lia; auto; (left; split; [reflexivity|lia])
                        || (right; split; [reflexivity|lia]));
    intros [_ [_ [_ [_ [Hh [[Ho Hr]|[Ho Hr]]]]]]];
    try discriminate Ho; lia.
Qed.

(** X3.  A 00609 device accepts a candidate exactly when the candidate is
    non-zero, the stored signature is 0 or equals bits 47..32 of the
    candidate, the channel is 2, the checksum is right, the humidity is
    1..99 and the raw temperature is either even and at most 1400 or odd
    and at least 7392: the sign test of the source looks at the lowest bit
    of the raw value, so odd values are read as negative and even ones as
    positive. *)
Theorem accepted609_iff (d : Acurite609.Device.t) (b : Z) :
  fst (Acurite609.Device.validate_bitstream d b) = true <->
  b <> 0 /\
  (Acurite609.Device.signature d = 0 \/
   Acurite609.Device.signature d = wrap 16 (Z.shiftr b 32)) /\
  Z.land (Z.shiftr b 28) 0x03 = 2 /\
  Acurite609.Device.validate_checksum b = true /\
  1 <= hum609 b <= 99 /\
  ((Z.odd (raw609 b) = false /\ raw609 b <= 1400) \/
   (Z.odd (raw609 b) = true /\ 7392 <= raw609 b)).
Proof.
  exact (accepted609_spec d b).
Qed.


(** X4.  The payload built from an accepted 00609 candidate: battery is
    bits 31..30, humidity is ten times the 7-bit field, and temperature is
    [raw / 2] for even raw values and [(raw - 0x2000) / 2] truncated toward
    zero for odd ones (tenths of a degree). *)
Theorem payload609_of_accepted
    (d : Acurite609.Device.t) (b status : Z) :
  fst (Acurite609.Device.validate_bitstream d b) = true ->
  Acurite609.Device.create_payload
    (snd (Acurite609.Device.validate_bitstream d b)) status
  = mkPayload TAG_TEMPMONITOR MODEL_ACURITE609
      (Acurite609.Device.device d) status
      (Z.land (Z.shiftr b 30) 0x03)
      (if Z.odd (raw609 b)
       then Z.quot (raw609 b - 0x2000) 2 else raw609 b / 2)
      (10 * hum609 b).
Proof.
  intros Hacc.
  pose proof (proj1 (accepted609_spec d b) Hacc) as [_ [_ [_ [_ [_ Hr]]]]].
  rewrite validate609_cases in *.
  destruct (_ || _) in *; [discriminate Hacc|].
  cbn [snd]. unfold Acurite609.Device.create_payload.
  cbn [Acurite609.Device.device Acurite609.Device.battery
       Acurite609.Device.temperature Acurite609.Device.humidity].
  rewrite (proj2 (hum609_table (hum609 b) (land_7f_range (Z.shiftr b 8)))).
  rewrite (proj2 (temp609_table (raw609 b) (land_1fff_range (Z.shiftr b 15)))).
  - reflexivity.
  - fold (raw609 b).
    destruct Hr as [[Ho Hr]|[Ho Hr]]; rewrite Ho;
      [apply Z.leb_le | apply Z.leb_le]; exact Hr.
Qed.

Lemma payload609_of_accepted_witness :
  fst (Acurite609.Device.validate_bitstream
         (Acurite609.Device.new DEVICE_OUTDOOR) 0xC0A15B25E1) = true /\
  Acurite609.Device.create_payload
    (snd (Acurite609.Device.validate_bitstream
            (Acurite609.Device.new DEVICE_OUTDOOR) 0xC0A15B25E1)) STATUS_OK
  = mkPayload TAG_TEMPMONITOR MODEL_ACURITE609
      (Acurite609.Device.device (Acurite609.Device.new DEVICE_OUTDOOR))
      STATUS_OK
      (Z.land (Z.shiftr 0xC0A15B25E1 30) 0x03)
      (if Z.odd (raw609 0xC0A15B25E1)
       then Z.quot (raw609 0xC0A15B25E1 - 0x2000) 2
       else raw609 0xC0A15B25E1 / 2)
      (10 * hum609 0xC0A15B25E1).
Proof.
  assert (H : fst (Acurite609.Device.validate_bitstream
                     (Acurite609.Device.new DEVICE_OUTDOOR) 0xC0A15B25E1)
              = true) by (vm_compute; reflexivity).
  exact (conj H (payload609_of_accepted _ _ STATUS_OK H)).
Defined.

(** ** Single-bit errors *)

Lemma byte_at_bits (b k : Z) :
  0 <= k -> byte_at b k = Z.land (Z.shiftr b (8 * k)) (Z.ones 8).
Proof.
  intros Hk. unfold byte_at.
  rewrite Z.land_ones, Z.shiftr_div_pow2 by lia. reflexivity.
Qed.

Lemma byte_at_range (b k : Z) : 0 <= byte_at b k < 256.
Proof. unfold byte_at. apply Z.mod_pos_bound. lia. Qed.

(** A flipped bit inside byte [k] flips that bit of the byte. *)
Lemma byte_at_flip_in (b i k : Z) :
  0 <= k -> 8 * k <= i < 8 * k + 8 ->
  byte_at (Z.lxor b (2 ^ i)) k = Z.lxor (byte_at b k) (2 ^ (i - 8 * k)).
Proof.
  intros Hk Hi. rewrite !byte_at_bits by lia.
  apply Z.bits_inj'. intros n Hn.
  rewrite Z.lxor_spec, !Z.land_spec, !Z.shiftr_spec, Z.lxor_spec by lia.
  rewrite !Z.pow2_bits_eqb by lia.
  destruct (Z.eqb_spec i (n + 8 * k)), (Z.eqb_spec (i - 8 * k) n); try lia.
  - rewrite Z.testbit_ones_nonneg by lia.
    destruct (Z.ltb_spec n 8); [|lia].
    rewrite !andb_true_r. reflexivity.
  - rewrite !xorb_false_r. reflexivity.
Qed.

(** A flipped bit outside byte [k] leaves the byte alone. *)
Lemma byte_at_flip_out (b i k : Z) :
  0 <= k -> 0 <= i -> i < 8 * k \/ 8 * k + 8 <= i ->
  byte_at (Z.lxor b (2 ^ i)) k = byte_at b k.
Proof.
  intros Hk Hi Hout. rewrite !byte_at_bits by lia.
  apply Z.bits_inj'. intros n Hn.
  rewrite !Z.land_spec, !Z.shiftr_spec, Z.lxor_spec by lia.
  rewrite Z.pow2_bits_eqb by lia.
  destruct (Z.eqb_spec i (n + 8 * k)).
  - rewrite Z.testbit_ones_nonneg by lia.
    destruct (Z.ltb_spec n 8); [lia|]. rewrite !andb_false_r. reflexivity.
  - rewrite xorb_false_r. reflexivity.
Qed.

(** Flipping one bit of a byte changes its value by a non-zero amount of
    magnitude at most 128. *)
Lemma byte_flip_delta (x j : Z) :
  0 <= x < 256 -> 0 <= j < 8 ->
  1 <= Z.lxor x (2 ^ j) - x <= 128 \/ -128 <= Z.lxor x (2 ^ j) - x <= -1.
Proof.
  intros Hx Hj.
  pose (check := fun x j =>
    let delta := Z.lxor x (2 ^ j) - x in
    ((1 <=? delta) && (delta <=? 128))
    || ((-128 <=? delta) && (delta <=? -1))).
  assert (Hall : forallb (fun x => forallb (check x) (below 8)) (below 256)
                 = true) by (vm_compute; reflexivity).
  pose proof (forall_below _ _ (forall_below _ _ Hall x Hx) j Hj) as H.
  unfold check in H. cbv zeta in H.
  apply orb_prop in H. destruct H as [H|H];
    apply andb_prop in H; destruct H as [H1 H2];
    apply Z.leb_le in H1; apply Z.leb_le in H2; [left|right]; lia.
Qed.

Lemma sum_shift_mod (s c delta : Z) :
  (1 <= delta <= 128 \/ -128 <= delta <= -1) ->
  c mod 256 = s mod 256 ->
  c mod 256 = (s + delta) mod 256 -> False.
Proof.
  intros Hd H1 H2. Z.div_mod_to_equations. lia.
Qed.

Lemma byte_shift_mod (s c delta : Z) :
  (1 <= delta <= 128 \/ -128 <= delta <= -1) ->
  0 <= c < 256 -> 0 <= c + delta < 256 ->
  c = s mod 256 -> c + delta = s mod 256 -> False.
Proof.
  intros Hd H1 H2 H3 H4. lia.
Qed.

Lemma low_byte (b : Z) : b mod 256 = byte_at b 0.
Proof. unfold byte_at. change (2 ^ (8 * 0)) with 1. rewrite Z.div_1_r. reflexivity. Qed.

Lemma checksum523_flip (b i : Z) :
  0 <= i < 48 ->
  Acurite523.Device.validate_checksum b = true ->
  Acurite523.Device.validate_checksum (Z.lxor b (2 ^ i)) = false.
Proof.
  intros Hi Hok.
  destruct (Acurite523.Device.validate_checksum (Z.lxor b (2 ^ i))) eqn:E;
    [exfalso|reflexivity].
  apply checksum523_spec in Hok. apply checksum523_spec in E.
  rewrite low_byte in Hok, E. unfold higher_bytes_sum in Hok, E.
  cbn [seq fold_right Nat.sub Z.of_nat Pos.of_succ_nat Pos.succ] in Hok, E.
  assert (Hk : exists k, 0 <= k < 6 /\ 8 * k <= i < 8 * k + 8)
    by (exists (i / 8); Z.div_mod_to_equations; lia).
  destruct Hk as [k [Hk Hw]].
  pose proof (byte_flip_delta (byte_at b k) (i - 8 * k)
                (byte_at_range b k) ltac:(lia)) as Hd.
  pose proof (byte_at_range b 0) as R0.
  pose proof (byte_at_range (Z.lxor b (2 ^ i)) 0) as R0'.
  assert (Ek : k = 0 \/ k = 1 \/ k = 2 \/ k = 3 \/ k = 4 \/ k = 5) by lia.
  destruct Ek as [->|[->|[->|[->|[->| ->]]]]];
    repeat match type of E with
      | context [byte_at (Z.lxor b (2 ^ i)) ?j] =>
          first [ rewrite (byte_at_flip_out b i j) in E by lia
                | rewrite (byte_at_flip_in b i j) in E, R0' by lia
                | rewrite (byte_at_flip_in b i j) in E by lia ]
      end;
    Z.div_mod_to_equations; lia.
Qed.

Lemma checksum609_flip (b i : Z) :
  0 <= i < 40 ->
  Acurite609.Device.validate_checksum b = true ->
  Acurite609.Device.validate_checksum (Z.lxor b (2 ^ i)) = false.
Proof.
  intros Hi Hok.
  destruct (Acurite609.Device.validate_checksum (Z.lxor b (2 ^ i))) eqn:E;
    [exfalso|reflexivity].
  apply checksum609_spec in Hok. apply checksum609_spec in E.
  rewrite low_byte in Hok, E. unfold higher_bytes_sum in Hok, E.
  cbn [seq fold_right Nat.sub Z.of_nat Pos.of_succ_nat Pos.succ] in Hok, E.
  assert (Hk : exists k, 0 <= k < 5 /\ 8 * k <= i < 8 * k + 8)
    by (exists (i / 8); Z.div_mod_to_equations; lia).
  destruct Hk as [k [Hk Hw]].
  pose proof (byte_flip_delta (byte_at b k) (i - 8 * k)
                (byte_at_range b k) ltac:(lia)) as Hd.
  pose proof (byte_at_range b 0) as R0.
  pose proof (byte_at_range (Z.lxor b (2 ^ i)) 0) as R0'.
  assert (Ek : k = 0 \/ k = 1 \/ k = 2 \/ k = 3 \/ k = 4) by lia.
  destruct Ek as [->|[->|[->|[->| ->]]]];
    repeat match type of E with
      | context [byte_at (Z.lxor b (2 ^ i)) ?j] =>
          first [ rewrite (byte_at_flip_out b i j) in E by lia
                | rewrite (byte_at_flip_in b i j) in E, R0' by lia
                | rewrite (byte_at_flip_in b i j) in E by lia ]
      end;
    Z.div_mod_to_equations; lia.
Qed.

(** X5.  A candidate with a valid checksum in which any single bit is then
    flipped (bit 0..47 for 00523, bit 0..39 for 00609) is rejected by every
    device of the model, whatever the device's state. *)
Theorem single_bit_error_rejected
    (d5 : Acurite523.Device.t) (d6 : Acurite609.Device.t) (b i : Z) :
  (0 <= i < 48 ->
   Acurite523.Device.validate_checksum b = true ->
   Acurite523.Device.validate_bitstream d5 (Z.lxor b (2 ^ i)) = (false, d5)) /\
  (0 <= i < 40 ->
   Acurite609.Device.validate_checksum b = true ->
   Acurite609.Device.validate_bitstream d6 (Z.lxor b (2 ^ i)) = (false, d6)).
Proof.
  split; intros Hi Hok.
  - rewrite validate523_cases, (checksum523_flip b i Hi Hok).
    cbn [negb]. rewrite !orb_true_r. reflexivity.
  - rewrite validate609_cases, (checksum609_flip b i Hi Hok).
    cbn [negb]. rewrite !orb_true_r. reflexivity.
Qed.

Lemma single_bit_error_rejected_witness :
  (0 <= 5 < 48 /\
   Acurite523.Device.validate_checksum 0xC049C98B3C99 = true /\
   Acurite523.Device.validate_bitstream
     (Acurite523.Device.new DEVICE_FREEZER) (Z.lxor 0xC049C98B3C99 (2 ^ 5))
   = (false, Acurite523.Device.new DEVICE_FREEZER)) /\
  (0 <= 17 < 40 /\
   Acurite609.Device.validate_checksum 0xC0A15B25E1 = true /\
   Acurite609.Device.validate_bitstream
     (Acurite609.Device.new DEVICE_OUTDOOR) (Z.lxor 0xC0A15B25E1 (2 ^ 17))
   = (false, Acurite609.Device.new DEVICE_OUTDOOR)).
Proof.
  assert (I5 : 0 <= 5 < 48) by lia.
  assert (I6 : 0 <= 17 < 40) by lia.
  assert (C5 : Acurite523.Device.validate_checksum 0xC049C98B3C99 = true)
    by (vm_compute; reflexivity).
  assert (C6 : Acurite609.Device.validate_checksum 0xC0A15B25E1 = true)
    by (vm_compute; reflexivity).
  refine (conj (conj I5 (conj C5 _)) (conj I6 (conj C6 _))).
  - exact (proj1 (single_bit_error_rejected
                    (Acurite523.Device.new DEVICE_FREEZER)
                    (Acurite609.Device.new DEVICE_OUTDOOR)
                    0xC049C98B3C99 5) I5 C5).
  - exact (proj2 (single_bit_error_rejected
                    (Acurite523.Device.new DEVICE_FREEZER)
                    (Acurite609.Device.new DEVICE_OUTDOOR)
                    0xC0A15B25E1 17) I6 C6).
Defined.

(** ** Parity *)

(** X6.  On a 7-bit value with its parity bit, [validate_parity] changes
    its answer whenever one data bit or the parity bit is flipped: every
    single-bit error in a parity-protected byte is seen. *)
Theorem parity_single_flip (parity value j : Z) :
  0 <= parity < 2 -> 0 <= value < 128 -> 0 <= j < 7 ->
  Acurite523.Device.validate_parity parity (Z.lxor value (2 ^ j))
  = negb (Acurite523.Device.validate_parity parity value) /\
  Acurite523.Device.validate_parity (1 - parity) value
  = negb (Acurite523.Device.validate_parity parity value).
Proof.
  intros Hp Hv Hj.
  pose (check := fun p v j =>
    Bool.eqb (Acurite523.Device.validate_parity p (Z.lxor v (2 ^ j)))
             (negb (Acurite523.Device.validate_parity p v))
    && Bool.eqb (Acurite523.Device.validate_parity (1 - p) v)
                (negb (Acurite523.Device.validate_parity p v))).
  assert (Hall :
    forallb (fun p => forallb (fun v => forallb (check p v) (below 7))
                        (below 128)) (below 2) = true)
    by (vm_compute; reflexivity).
  pose proof (forall_below _ _
                (forall_below _ _ (forall_below _ _ Hall parity Hp) value Hv)
                j Hj) as H.
  unfold check in H. apply andb_prop in H. destruct H as [H1 H2].
  split; apply eqb_prop; assumption.
Qed.

Lemma parity_single_flip_witness :
  (0 <= 1 < 2 /\ 0 <= 0x0B < 128 /\ 0 <= 2 < 7) /\
  Acurite523.Device.validate_parity 1 (Z.lxor 0x0B (2 ^ 2))
  = negb (Acurite523.Device.validate_parity 1 0x0B).
Proof.
  assert (Hp : 0 <= 1 < 2) by lia.
  assert (Hv : 0 <= 0x0B < 128) by lia.
  assert (Hj : 0 <= 2 < 7) by lia.
  exact (conj (conj Hp (conj Hv Hj))
              (proj1 (parity_single_flip 1 0x0B 2 Hp Hv Hj))).
Defined.

(** ** Devices and signatures *)

Lemma validate523_keeps_identity (d : Acurite523.Device.t) (b : Z) :
  Acurite523.Device.device (snd (Acurite523.Device.validate_bitstream d b))
  = Acurite523.Device.device d /\
  Acurite523.Device.signature (snd (Acurite523.Device.validate_bitstream d b))
  = Acurite523.Device.signature d.
Proof.
  rewrite validate523_cases. destruct (_ || _); split; reflexivity.
Qed.

(** A payload that the 00523 loop of [parseRf] builds comes from a
    registered device that accepted the candidate. *)
Lemma scan523_some (ds : list Acurite523.Device.t) (b : Z) (p : Payload) :
  Monitor.scan523 ds b = Some p ->
  exists d, In d ds /\
    fst (Acurite523.Device.validate_bitstream d b) = true /\
    p = Acurite523.Device.create_payload
          (snd (Acurite523.Device.validate_bitstream d b)) STATUS_OK.
Proof.
  induction ds as [|d ds IH]; cbn [Monitor.scan523]; [discriminate|].
  destruct (Acurite523.Device.validate_bitstream d b) as [ok d'] eqn:E.
  destruct ok.
  - intros Hp. injection Hp as <-. exists d.
    rewrite E. repeat split. left. reflexivity.
  - intros Hp. destruct (IH Hp) as [d0 [Hin H0]].
    exists d0. split; [right; exact Hin | exact H0].
Qed.

(** X7.  Two 00523 devices that accept the same candidate have the same
    signature; with the registered freezer and fridge, the payload that
    the dispatcher's loop builds names the device whose signature is in
    bits 47..32 of the candidate. *)
Theorem payload_device_matches_signature
    (d1 d2 : Acurite523.Device.t) (b : Z) (p : Payload) :
  (fst (Acurite523.Device.validate_bitstream d1 b) = true ->
   fst (Acurite523.Device.validate_bitstream d2 b) = true ->
   Acurite523.Device.signature d1 = Acurite523.Device.signature d2) /\
  (Monitor.scan523 (Monitor.devices523 Monitor.init) b = Some p ->
   (wrap 16 (Z.shiftr b 32) = Acurite523.SIG_FREEZER /\
    device p = DEVICE_FREEZER) \/
   (wrap 16 (Z.shiftr b 32) = Acurite523.SIG_FRIDGE /\
    device p = DEVICE_FRIDGE)).
Proof.
  split.
  - intros H1 H2.
    apply accepted523_spec in H1. apply accepted523_spec in H2.
    destruct H1 as [_ [H1 _]], H2 as [_ [H2 _]]. congruence.
  - intros Hp. apply scan523_some in Hp.
    destruct Hp as [d [Hin [Hacc ->]]].
    apply accepted523_spec in Hacc. destruct Hacc as [_ [Hs _]].
    unfold Acurite523.Device.create_payload. cbn [device].
    rewrite (proj1 (validate523_keeps_identity d b)), Hs.
    destruct Hin as [<-|[<-|[]]]; [left|right]; split; reflexivity.
Qed.

Lemma payload_device_matches_signature_witness :
  Monitor.scan523 (Monitor.devices523 Monitor.init) 0xC07CC90F5064
  = Some (mkPayload TAG_TEMPMONITOR MODEL_ACURITE523 DEVICE_FRIDGE
            STATUS_OK 3 111 0) /\
  ((wrap 16 (Z.shiftr 0xC07CC90F5064 32) = Acurite523.SIG_FREEZER /\
    DEVICE_FRIDGE = DEVICE_FREEZER) \/
   (wrap 16 (Z.shiftr 0xC07CC90F5064 32) = Acurite523.SIG_FRIDGE /\
    DEVICE_FRIDGE = DEVICE_FRIDGE)).
Proof.
  assert (H : Monitor.scan523 (Monitor.devices523 Monitor.init)
                0xC07CC90F5064
              = Some (mkPayload TAG_TEMPMONITOR MODEL_ACURITE523
                        DEVICE_FRIDGE STATUS_OK 3 111 0))
    by (vm_compute; reflexivity).
  exact (conj H (proj2 (payload_device_matches_signature
                          (Acurite523.Device.new DEVICE_FREEZER)
                          (Acurite523.Device.new DEVICE_FRIDGE)
                          0xC07CC90F5064 _) H)).
Defined.

(** X8.  A 00609 device that has accepted a candidate accepts the same
    candidate again without changing further, and a non-zero stored
    signature is never replaced, whatever candidate is offered. *)
Theorem latch609_stable (d : Acurite609.Device.t) (b b' : Z) :
  (fst (Acurite609.Device.validate_bitstream d b) = true ->
   Acurite609.Device.validate_bitstream
     (snd (Acurite609.Device.validate_bitstream d b)) b
   = (true, snd (Acurite609.Device.validate_bitstream d b))) /\
  (Acurite609.Device.signature d <> 0 ->
   Acurite609.Device.signature
     (snd (Acurite609.Device.validate_bitstream d b'))
   = Acurite609.Device.signature d).
Proof.
  split.
  - intros Hacc.
    pose proof (proj1 (accepted609_spec d b) Hacc) as [_ [Hs _]].
    rewrite (validate609_cases d b) in Hacc |- *.
    destruct (_ || _) eqn:Hc in Hacc |- *; [discriminate Hacc|].
    cbn [snd].
    assert (Hsig : (if Acurite609.Device.signature d =? 0
                    then wrap 16 (Z.shiftr b 32)
                    else Acurite609.Device.signature d)
                   = wrap 16 (Z.shiftr b 32)).
    { destruct Hs as [Hs|Hs]; rewrite Hs; [reflexivity|].
      destruct (wrap 16 (Z.shiftr b 32) =? 0); reflexivity. }
    rewrite Hsig, validate609_cases.
    cbn [Acurite609.Device.signature Acurite609.Device.device].
    apply orb_false_elim in Hc. destruct Hc as [Hc Hr].
    apply orb_false_elim in Hc. destruct Hc as [Hc Hk].
    apply orb_false_elim in Hc. destruct Hc as [Hc Hch].
    apply orb_false_elim in Hc. destruct Hc as [Hz _].
    rewrite Hz, Hch, Hk, Hr, Z.eqb_refl.
    cbn [negb]. rewrite andb_false_r. cbn [orb].
    destruct (wrap 16 (Z.shiftr b 32) =? 0); reflexivity.
  - intros Hs. rewrite validate609_cases.
    destruct (_ || _); cbn [snd Acurite609.Device.signature];
      [reflexivity|].
    destruct (Z.eqb_spec (Acurite609.Device.signature d) 0);
      [contradiction|reflexivity].
Qed.

Lemma latch609_stable_witness :
  let d1 := snd (Acurite609.Device.validate_bitstream
                   (Acurite609.Device.new DEVICE_OUTDOOR) 0xC0A15B25E1) in
  (fst (Acurite609.Device.validate_bitstream
          (Acurite609.Device.new DEVICE_OUTDOOR) 0xC0A15B25E1) = true /\
   Acurite609.Device.validate_bitstream d1 0xC0A15B25E1 = (true, d1)) /\
  (Acurite609.Device.signature d1 <> 0 /\
   Acurite609.Device.signature
     (snd (Acurite609.Device.validate_bitstream d1 0x0F2123277A))
   = Acurite609.Device.signature d1).
Proof.
  cbv zeta.
  assert (A : fst (Acurite609.Device.validate_bitstream
                     (Acurite609.Device.new DEVICE_OUTDOOR) 0xC0A15B25E1)
              = true) by (vm_compute; reflexivity).
  assert (S : Acurite609.Device.signature
                (snd (Acurite609.Device.validate_bitstream
                        (Acurite609.Device.new DEVICE_OUTDOOR) 0xC0A15B25E1))
              <> 0) by (vm_compute; discriminate).
  refine (conj (conj A _) (conj S _)).
  - exact (proj1 (latch609_stable _ 0xC0A15B25E1 0) A).
  - exact (proj2 (latch609_stable _ 0 0x0F2123277A) S).
Defined.

(** ** Framing a block: 00523 *)

Lemma bit_weight (b n : Z) :
  0 <= n ->
  b mod 2 ^ (n + 1) = (if Z.testbit b n then 2 ^ n else 0) + b mod 2 ^ n.
Proof.
  intros Hn.
  assert (Hp : 0 < 2 ^ n) by (apply Z.pow_pos_nonneg; lia).
  rewrite Z.add_1_r, Z.pow_succ_r, Z.mul_comm by lia.
  rewrite Z.rem_mul_r by lia.
  rewrite Z.testbit_odd, Z.shiftr_div_pow2 by lia.
  rewrite Zodd_mod. 
  destruct (Z.eqb_spec ((b / 2 ^ n) mod 2) 1) as [E|E].
  - rewrite E. lia.
  - assert ((b / 2 ^ n) mod 2 = 0)
      by (pose proof (Z.mod_pos_bound (b / 2 ^ n) 2); lia).
    lia.
Qed.

(** One call with an OFF half of a bit while a chunk is open: nothing but
    [last_rfs_type] (and possibly the opener count) changes. *)
Lemma off_half523 (m : Acurite523.Model.t) (duration rfs : Z) :
  Acurite523.Model.chunk_open m = true ->
  Acurite523.Model.get_rfs_type rfs duration = Acurite523.SIGNAL_BIT_0_OFF \/
  Acurite523.Model.get_rfs_type rfs duration = Acurite523.SIGNAL_BIT_1_OFF ->
  let r := Acurite523.Model.parse_rf m duration rfs in
  fst r = 0 /\
  Acurite523.Model.chunk_open (snd r) = true /\
  Acurite523.Model.bitstream_size (snd r) = Acurite523.Model.bitstream_size m /\
  Acurite523.Model.bitstream (snd r) = Acurite523.Model.bitstream m /\
  Acurite523.Model.last_rfs_type (snd r)
  = Acurite523.Model.get_rfs_type rfs duration.
Proof.
  intros Hc Ht. cbv zeta. unfold Acurite523.Model.parse_rf.
  destruct m as [ia co bs sz bo cnt last]; eval523. subst co.
  destruct Ht as [-> | ->]; destruct last; eval523;
    repeat (split_test; eval523); repeat split; reflexivity.
Qed.

(** One call with the ON half that matches the preceding OFF half. *)
Lemma on_half523 (m : Acurite523.Model.t) (duration rfs : Z) (bit : bool) :
  Acurite523.Model.chunk_open m = true ->
  Acurite523.Model.last_rfs_type m
  = (if bit then Acurite523.SIGNAL_BIT_1_OFF else Acurite523.SIGNAL_BIT_0_OFF) ->
  Acurite523.Model.get_rfs_type rfs duration
  = (if bit then Acurite523.SIGNAL_BIT_1_ON else Acurite523.SIGNAL_BIT_0_ON) ->
  0 <= Acurite523.Model.bitstream_size m < 48 ->
  0 <= Acurite523.Model.bitstream m < 2 ^ 48 ->
  Acurite523.Model.bitstream m
    mod 2 ^ (48 - Acurite523.Model.bitstream_size m) = 0 ->
  let s := Acurite523.Model.bitstream_size m in
  let a := Acurite523.Model.bitstream m
           + (if bit then 2 ^ (48 - s - 1) else 0) in
  let r := Acurite523.Model.parse_rf m duration rfs in
  fst r = (if s =? 47 then a else 0) /\
  Acurite523.Model.chunk_open (snd r) = true /\
  Acurite523.Model.bitstream_size (snd r) = (if s =? 47 then 0 else s + 1) /\
  Acurite523.Model.bitstream (snd r) = (if s =? 47 then 0 else a).
Proof.
  intros Hc Hl Ht Hs Hb Hm. cbv zeta.
  unfold Acurite523.Model.parse_rf, Acurite523.SIGNAL_BIT_LENGTH.
  rewrite Ht.
  destruct (accumulate_one 48 (Acurite523.Model.bitstream m)
              (Acurite523.Model.bitstream_size m)) as [Hacc _]; try lia.
  set (acc := wrap 64 _) in *. clearbody acc. subst acc.
  destruct m as [ia co bs sz bo cnt last]; eval523. subst co last.
  destruct bit; eval523; repeat (split_test; eval523);
    try lia; rewrite ?Z.add_0_r;
    destruct (Z.eqb_spec sz 47); try lia; repeat split; reflexivity.
Qed.

(** A bit is an OFF half followed by the matching ON half. *)
Lemma bit_pair523
    (m : Acurite523.Model.t) (d0 r0 d1 r1 : Z) (bit : bool) :
  Acurite523.Model.chunk_open m = true ->
  Some (Acurite523.Model.get_rfs_type r0 d0) = nth 0 (halves523 bit) None ->
  Some (Acurite523.Model.get_rfs_type r1 d1) = nth 1 (halves523 bit) None ->
  0 <= Acurite523.Model.bitstream_size m < 48 ->
  0 <= Acurite523.Model.bitstream m < 2 ^ 48 ->
  Acurite523.Model.bitstream m
    mod 2 ^ (48 - Acurite523.Model.bitstream_size m) = 0 ->
  let s := Acurite523.Model.bitstream_size m in
  let a := Acurite523.Model.bitstream m
           + (if bit then 2 ^ (48 - s - 1) else 0) in
  let m1 := snd (Acurite523.Model.parse_rf m d0 r0) in
  let r := Acurite523.Model.parse_rf m1 d1 r1 in
  fst (Acurite523.Model.parse_rf m d0 r0) = 0 /\
  fst r = (if s =? 47 then a else 0) /\
  Acurite523.Model.chunk_open (snd r) = true /\
  Acurite523.Model.bitstream_size (snd r) = (if s =? 47 then 0 else s + 1) /\
  Acurite523.Model.bitstream (snd r) = (if s =? 47 then 0 else a).
Proof.
  intros Hc H0 H1 Hs Hb Hm. cbv zeta.
  assert (T0 : Acurite523.Model.get_rfs_type r0 d0
               = if bit then Acurite523.SIGNAL_BIT_1_OFF
                 else Acurite523.SIGNAL_BIT_0_OFF)
    by (destruct bit; cbn in H0; congruence).
  assert (T1 : Acurite523.Model.get_rfs_type r1 d1
               = if bit then Acurite523.SIGNAL_BIT_1_ON
                 else Acurite523.SIGNAL_BIT_0_ON)
    by (destruct bit; cbn in H1; congruence).
  destruct (off_half523 m d0 r0 Hc) as [E0 [Hc1 [Hs1 [Hb1 Hl1]]]];
    [destruct bit; rewrite T0; auto|].
  rewrite T0 in Hl1.
  pose proof (on_half523 _ d1 r1 bit Hc1 Hl1 T1) as Hon.
  rewrite Hs1, Hb1 in Hon. specialize (Hon Hs Hb Hm). cbv zeta in Hon.
  split; [exact E0 | exact Hon].
Qed.

Lemma signals523_pair (cs : list call) o1 o2 rest :
  signals523 cs = Some o1 :: Some o2 :: rest ->
  exists d0 r0 d1 r1 cs',
    cs = ParseRf d0 r0 :: ParseRf d1 r1 :: cs' /\
    Acurite523.Model.get_rfs_type r0 d0 = o1 /\
    Acurite523.Model.get_rfs_type r1 d1 = o2 /\
    signals523 cs' = rest.
Proof.
  destruct cs as [|[d0 r0|] [|[d1 r1|] cs']]; cbn; intros H;
    try discriminate H.
  injection H as H0 H1 H2.
  exists d0, r0, d1, r1, cs'. repeat split; assumption.
Qed.

(** Framing the last [n + 1] bits of a block whose first [47 - n] bits are
    in the buffer. *)
Lemma block523 (n : nat) :
  forall (m : Acurite523.Model.t) (cs : list call) (b : Z),
    (n < 48)%nat ->
    Acurite523.Model.chunk_open m = true ->
    Acurite523.Model.bitstream_size m = 47 - Z.of_nat n ->
    0 <= Acurite523.Model.bitstream m < 2 ^ 48 ->
    Acurite523.Model.bitstream m mod 2 ^ (Z.of_nat n + 1) = 0 ->
    signals523 cs = flat_map halves523 (bits_msb (S n) b) ->
    results523 m cs
    = repeat 0 (2 * n + 1)
      ++ [Acurite523.Model.bitstream m + b mod 2 ^ (Z.of_nat n + 1)] /\
    Acurite523.Model.chunk_open (run523 m cs) = true /\
    Acurite523.Model.bitstream_size (run523 m cs) = 0 /\
    Acurite523.Model.bitstream (run523 m cs) = 0.
Proof.
  induction n as [|n IH]; intros m cs b Hn Hc Hs Hb Hm Hsig.
  - cbn [bits_msb flat_map] in Hsig.
    set (bit := Z.testbit b (Z.of_nat 0)) in *.
    assert (Hsig' : signals523 cs
                    = nth 0 (halves523 bit) None
                      :: nth 1 (halves523 bit) None :: [])
      by (rewrite Hsig; destruct bit; reflexivity).
    destruct cs as [|[d0 r0|] [|[d1 r1|] [|c cs']]];
      try (destruct bit; discriminate Hsig').
    cbn [signals523 map] in Hsig'. injection Hsig' as H0 H1.
    destruct (bit_pair523 m d0 r0 d1 r1 bit Hc H0 H1)
      as [E0 [E1 [Hc' [Hs' Hb']]]]; try lia.
    { rewrite Hs. exact Hm. }
    rewrite Hs in E1, Hs', Hb'. change (Z.of_nat 0) with 0 in *.
    change (47 - 0 =? 47) with true in *.
    change (2 ^ (48 - (47 - 0) - 1)) with 1 in E1.
    cbn [results523 run523 fold_left step523 repeat app Nat.mul Nat.add].
    rewrite E0, E1.
    rewrite (bit_weight b 0) by lia. change (2 ^ 0) with 1.
    rewrite Z.mod_1_r, Z.add_0_r. fold bit.
    repeat split; assumption.
  - cbn [bits_msb flat_map] in Hsig.
    set (bit := Z.testbit b (Z.of_nat (S n))) in *.
    assert (Hsig' : signals523 cs
                    = nth 0 (halves523 bit) None
                      :: nth 1 (halves523 bit) None
                      :: flat_map halves523 (bits_msb (S n) b))
      by (rewrite Hsig; destruct bit; reflexivity).
    destruct cs as [|[d0 r0|] [|[d1 r1|] cs']];
      try (destruct bit; discriminate Hsig').
    cbn [signals523 map] in Hsig'. injection Hsig' as H0 H1 Hrest.
    fold (signals523 cs') in Hrest.
    destruct (bit_pair523 m d0 r0 d1 r1 bit Hc H0 H1)
      as [E0 [E1 [Hc' [Hs' Hb']]]]; try lia.
    { rewrite Hs. replace (48 - (47 - Z.of_nat (S n)))
        with (Z.of_nat (S n) + 1) by lia. exact Hm. }
    rewrite Hs in E1, Hs', Hb'.
    destruct (Z.eqb_spec (47 - Z.of_nat (S n)) 47) as [E|_]; [lia|].
    replace (48 - (47 - Z.of_nat (S n)) - 1) with (Z.of_nat n + 1)
      in Hb' by lia.
    set (m2 := snd (Acurite523.Model.parse_rf
                      (snd (Acurite523.Model.parse_rf m d0 r0)) d1 r1)) in *.
    assert (Hp : 0 < 2 ^ (Z.of_nat n + 1))
      by (apply Z.pow_pos_nonneg; lia).
    assert (Hmm : Acurite523.Model.bitstream m mod 2 ^ (Z.of_nat n + 1) = 0).
    { apply mod_pow2_drop; [lia|].
      replace (Z.of_nat n + 1 + 1) with (Z.of_nat (S n) + 1) by lia.
      exact Hm. }
    assert (Hbit : (if bit then 2 ^ (Z.of_nat n + 1) else 0)
                     mod 2 ^ (Z.of_nat n + 1) = 0)
      by (destruct bit; [apply Z.mod_same; lia | apply Zmod_0_l]).
    assert (Hm2 : Acurite523.Model.bitstream m2 mod 2 ^ (Z.of_nat n + 1) = 0).
    { rewrite Hb', Z.add_mod, Hmm, Hbit by lia. reflexivity. }
    assert (Hb2 : 0 <= Acurite523.Model.bitstream m2 < 2 ^ 48).
    { rewrite Hb'. destruct bit; [|lia].
      destruct (accumulate_one 48 (Acurite523.Model.bitstream m)
                  (47 - Z.of_nat (S n))) as [Ha [Hr _]]; try lia.
      { replace (48 - (47 - Z.of_nat (S n)))
          with (Z.of_nat (S n) + 1) by lia. exact Hm. }
      rewrite Ha in Hr.
      replace (48 - (47 - Z.of_nat (S n)) - 1) with (Z.of_nat n + 1)
        in Hr by lia.
      exact Hr. }
    destruct (IH m2 cs' b ltac:(lia) Hc' ltac:(lia) Hb2 Hm2 Hrest)
      as [R [Hc3 [Hs3 Hb3]]].
    cbn [results523 run523 fold_left step523].
    fold (run523 m2 cs'). rewrite E0, E1.
    change (snd (Acurite523.Model.parse_rf
                   (snd (Acurite523.Model.parse_rf m d0 r0)) d1 r1)) with m2.
    rewrite R, Hb'.
    replace (2 * S n + 1)%nat with (S (S (2 * n + 1))) by lia.
    cbn [repeat app].
    replace (Z.of_nat (S n) + 1) with (Z.of_nat n + 1 + 1) by lia.
    rewrite (bit_weight b (Z.of_nat n + 1)) by lia.
    replace (Z.testbit b (Z.of_nat n + 1)) with bit
      by (unfold bit; f_equal; lia).
    repeat split; try assumption.
    do 4 f_equal. lia.
Qed.

Lemma block523_frames
    (m : Acurite523.Model.t) (cs : list call) (b : Z) :
  Acurite523.Model.chunk_open m = true ->
  Acurite523.Model.bitstream_size m = 0 ->
  Acurite523.Model.bitstream m = 0 ->
  0 <= b < 2 ^ 48 ->
  signals523 cs = flat_map halves523 (bits_msb 48 b) ->
  results523 m cs = repeat 0 95 ++ [b] /\
  Acurite523.Model.chunk_open (run523 m cs) = true /\
  Acurite523.Model.bitstream_size (run523 m cs) = 0 /\
  Acurite523.Model.bitstream (run523 m cs) = 0.
Proof.
  intros Hc Hs Hb Hr Hsig.
  assert (H1 : Acurite523.Model.bitstream_size m = 47 - Z.of_nat 47)
    by (rewrite Hs; reflexivity).
  assert (H2 : 0 <= Acurite523.Model.bitstream m < 2 ^ 48)
    by (rewrite Hb; lia).
  assert (H3 : Acurite523.Model.bitstream m mod 2 ^ (Z.of_nat 47 + 1) = 0)
    by (rewrite Hb; reflexivity).
  destruct (block523 47 m cs b ltac:(lia) Hc H1 H2 H3 Hsig) as [R H].
  split; [|exact H].
  rewrite R, Hb. change (Z.of_nat 47 + 1) with 48.
  rewrite Z.mod_small by lia. reflexivity.
Qed.

(** X9.  00523 block framing.  From any state with the chunk open and an
    empty buffer, a pulse train that classifies as the 48 bit pairs of [b]
    (most significant bit first) makes the last [parse_rf] call return [b]
    and every earlier call return 0, and leaves the chunk open with an
    empty buffer, ready for the next block of the burst. *)
Theorem block523_round_trip
    (m : Acurite523.Model.t) (cs : list call) (b : Z) :
  Acurite523.Model.chunk_open m = true ->
  Acurite523.Model.bitstream_size m = 0 ->
  Acurite523.Model.bitstream m = 0 ->
  0 <= b < 2 ^ 48 ->
  signals523 cs = flat_map halves523 (bits_msb 48 b) ->
  results523 m cs = repeat 0 95 ++ [b] /\
  Acurite523.Model.chunk_open (run523 m cs) = true /\
  Acurite523.Model.bitstream_size (run523 m cs) = 0 /\
  Acurite523.Model.bitstream (run523 m cs) = 0.
Proof.
  exact (block523_frames m cs b).
Qed.


Lemma block523_round_trip_witness :
  let m := run523 Acurite523.Model.init preamble523 in
  let cs := flat_map pulse523 (bits_msb 48 0xC049C98B3C99) in
  (Acurite523.Model.chunk_open m = true /\
   Acurite523.Model.bitstream_size m = 0 /\
   Acurite523.Model.bitstream m = 0 /\
   0 <= 0xC049C98B3C99 < 2 ^ 48 /\
   signals523 cs = flat_map halves523 (bits_msb 48 0xC049C98B3C99)) /\
  results523 m cs = repeat 0 95 ++ [0xC049C98B3C99].
Proof.
  cbv zeta.
  assert (Hc : Acurite523.Model.chunk_open
                 (run523 Acurite523.Model.init preamble523) = true)
    by reflexivity.
  assert (Hs : Acurite523.Model.bitstream_size
                 (run523 Acurite523.Model.init preamble523) = 0)
    by reflexivity.
  assert (Hb : Acurite523.Model.bitstream
                 (run523 Acurite523.Model.init preamble523) = 0)
    by reflexivity.
  assert (Hr : 0 <= 0xC049C98B3C99 < 2 ^ 48) by lia.
  assert (Hsig : signals523 (flat_map pulse523 (bits_msb 48 0xC049C98B3C99))
                 = flat_map halves523 (bits_msb 48 0xC049C98B3C99))
    by (vm_compute; reflexivity).
  exact (conj (conj Hc (conj Hs (conj Hb (conj Hr Hsig))))
              (proj1 (block523_round_trip _ _ _ Hc Hs Hb Hr Hsig))).
Defined.

(** X10.  A [clear] in the middle of a 00523 burst does not end it: when
    the chunk is open, [clear] followed by the 48 bit pairs of [b] returns
    [b] at the last pulse, with no new preamble. *)
Theorem clear_keeps_burst523
    (m : Acurite523.Model.t) (cs : list call) (b : Z) :
  Acurite523.Model.chunk_open m = true ->
  0 <= b < 2 ^ 48 ->
  signals523 cs = flat_map halves523 (bits_msb 48 b) ->
  results523 m (Clear :: cs) = 0 :: repeat 0 95 ++ [b].
Proof.
  intros Hc Hr Hsig. cbn [results523 step523 fst snd]. f_equal.
  apply (block523_frames (Acurite523.Model.clear m) cs b);
    try assumption; reflexivity.
Qed.

Lemma clear_keeps_burst523_witness :
  let m := run523 Acurite523.Model.init
             (preamble523 ++ flat_map pulse523 [true; false; true]) in
  let cs := flat_map pulse523 (bits_msb 48 0xC049C98B3C99) in
  (Acurite523.Model.chunk_open m = true /\
   Acurite523.Model.bitstream_size m = 3 /\
   0 <= 0xC049C98B3C99 < 2 ^ 48 /\
   signals523 cs = flat_map halves523 (bits_msb 48 0xC049C98B3C99)) /\
  results523 m (Clear :: cs) = 0 :: repeat 0 95 ++ [0xC049C98B3C99].
Proof.
  cbv zeta.
  assert (Hc : Acurite523.Model.chunk_open
                 (run523 Acurite523.Model.init
                    (preamble523 ++ flat_map pulse523 [true; false; true]))
               = true) by (vm_compute; reflexivity).
  assert (Hs : Acurite523.Model.bitstream_size
                 (run523 Acurite523.Model.init
                    (preamble523 ++ flat_map pulse523 [true; false; true]))
               = 3) by (vm_compute; reflexivity).
  assert (Hr : 0 <= 0xC049C98B3C99 < 2 ^ 48) by lia.
  assert (Hsig : signals523 (flat_map pulse523 (bits_msb 48 0xC049C98B3C99))
                 = flat_map halves523 (bits_msb 48 0xC049C98B3C99))
    by (vm_compute; reflexivity).
  exact (conj (conj Hc (conj Hs (conj Hr Hsig)))
              (clear_keeps_burst523 _ _ _ Hc Hr Hsig)).
Defined.

(** ** The 00523 preamble *)

(** One call while the chunk is closed: only a BITSTREAM_ON pulse counts,
    and the fourth one opens the chunk with an empty buffer. *)
Lemma closed_step523 (m : Acurite523.Model.t) (duration rfs : Z) :
  Acurite523.Model.chunk_open m = false ->
  0 <= Acurite523.Model.bitstream_opener_count m < 4 ->
  let k := if Acurite523.signal_eqb
                (Acurite523.Model.get_rfs_type rfs duration)
                Acurite523.SIGNAL_BITSTREAM_ON then 1 else 0 in
  let r := Acurite523.Model.parse_rf m duration rfs in
  fst r = 0 /\
  (Acurite523.Model.bitstream_opener_count m + k < 4 ->
   Acurite523.Model.chunk_open (snd r) = false /\
   Acurite523.Model.bitstream_opener_count (snd r)
   = Acurite523.Model.bitstream_opener_count m + k) /\
  (Acurite523.Model.bitstream_opener_count m + k = 4 ->
   Acurite523.Model.chunk_open (snd r) = true /\
   Acurite523.Model.bitstream_size (snd r) = 0 /\
   Acurite523.Model.bitstream (snd r) = 0).
Proof.
  intros Hc Hn. cbv zeta. unfold Acurite523.Model.parse_rf.
  generalize (Acurite523.Model.get_rfs_type rfs duration) as ty. intros ty.
  destruct m as [ia co bs sz bo cnt last]; eval523. subst co.
  rewrite orb_true_r.
  destruct ty; eval523; repeat (split_test; eval523);
    repeat split; intros; try reflexivity; lia.
Qed.

Lemma count523_cons (s : Acurite523.signal) (c : call) (cs : list call) :
  count523 s (c :: cs)
  = (match c with
     | ParseRf duration rfs =>
         if Acurite523.signal_eqb
              (Acurite523.Model.get_rfs_type rfs duration) s
         then 1 else 0
     | Clear => 0
     end) + count523 s cs.
Proof.
  unfold count523, signals523. cbn [map filter].
  destruct c as [duration rfs|]; [|reflexivity].
  destruct (Acurite523.signal_eqb _ s); cbn [length]; lia.
Qed.

Lemma count523_nonneg (s : Acurite523.signal) (cs : list call) :
  0 <= count523 s cs.
Proof. unfold count523. lia. Qed.

Lemma closed_run523 (cs : list call) :
  forall m : Acurite523.Model.t,
    Acurite523.Model.chunk_open m = false ->
    0 <= Acurite523.Model.bitstream_opener_count m ->
    Acurite523.Model.bitstream_opener_count m
    + count523 Acurite523.SIGNAL_BITSTREAM_ON cs < 4 ->
    results523 m cs = repeat 0 (length cs) /\
    Acurite523.Model.chunk_open (run523 m cs) = false /\
    0 <= Acurite523.Model.bitstream_opener_count (run523 m cs)
      <= Acurite523.Model.bitstream_opener_count m
         + count523 Acurite523.SIGNAL_BITSTREAM_ON cs /\
    (~ In Clear cs ->
     Acurite523.Model.bitstream_opener_count (run523 m cs)
     = Acurite523.Model.bitstream_opener_count m
       + count523 Acurite523.SIGNAL_BITSTREAM_ON cs).
Proof.
  induction cs as [|c cs IH]; intros m Hc Hn Hlt.
  - cbn. change (count523 Acurite523.SIGNAL_BITSTREAM_ON []) with 0.
    repeat split; try assumption; lia.
  - rewrite count523_cons in *.
    pose proof (count523_nonneg Acurite523.SIGNAL_BITSTREAM_ON cs) as Hcs.
    cbn [results523 run523 fold_left length repeat].
    fold (run523 (snd (step523 m c)) cs).
    destruct c as [duration rfs|]; cbn [step523 fst snd].
    + pose proof (closed_step523 m duration rfs Hc) as Hstep.
      cbv zeta in Hstep.
      destruct (Acurite523.signal_eqb
                  (Acurite523.Model.get_rfs_type rfs duration)
                  Acurite523.SIGNAL_BITSTREAM_ON);
        (destruct Hstep as [E [Hk _]]; [lia|]);
        (destruct Hk as [Hc' Hn']; [lia|]);
        (destruct (IH _ Hc') as [R [Hc2 [Hn2 Hex]]]; try lia).
      all: rewrite E, R; repeat split; try assumption; try lia.
      all: intros Hnc; rewrite Hex, Hn'; [lia|].
      all: intros Hin; apply Hnc; right; exact Hin.
    + destruct (IH (Acurite523.Model.clear m)) as [R [Hc2 [Hn2 _]]];
        try (destruct m; cbn in *; (assumption || lia)).
      rewrite R. repeat split; try assumption;
        try (destruct m; cbn in *; lia).
      intros Hnc. exfalso. apply Hnc. left. reflexivity.
Qed.

(** X11.  The 00523 machine stays closed and silent until the fourth
    BITSTREAM_ON pulse: from the initial state, a call sequence with fewer
    than four pulses of that class (whatever else it contains, [clear]
    included) leaves [chunk_open = false] and every [parse_rf] call returns
    0. *)
Theorem closed_until_preamble523 (cs : list call) :
  count523 Acurite523.SIGNAL_BITSTREAM_ON cs < 4 ->
  results523 Acurite523.Model.init cs = repeat 0 (length cs) /\
  Acurite523.Model.chunk_open (run523 Acurite523.Model.init cs) = false.
Proof.
  intros Hlt.
  destruct (closed_run523 cs Acurite523.Model.init) as [R [Hc _]];
    try reflexivity; cbn; try lia.
  split; assumption.
Qed.

Lemma closed_until_preamble523_witness :
  let cs := concat (repeat [ParseRf 600 0; ParseRf 600 1] 3)
            ++ flat_map pulse523 (bits_msb 48 0xC049C98B3C99) in
  count523 Acurite523.SIGNAL_BITSTREAM_ON cs < 4 /\
  results523 Acurite523.Model.init cs = repeat 0 (length cs) /\
  Acurite523.Model.chunk_open (run523 Acurite523.Model.init cs) = false.
Proof.
  cbv zeta.
  assert (H : count523 Acurite523.SIGNAL_BITSTREAM_ON
                (concat (repeat [ParseRf 600 0; ParseRf 600 1] 3)
                 ++ flat_map pulse523 (bits_msb 48 0xC049C98B3C99)) < 4)
    by (vm_compute; reflexivity).
  exact (conj H (closed_until_preamble523 _ H)).
Defined.

(** X12.  00523 round trip from power-up.  After any [clear]-free pulses
    that contain three BITSTREAM_ON pulses, a fourth BITSTREAM_ON pulse and
    then the 48 bit pairs of [b] make the final [parse_rf] call return [b];
    every earlier call returns 0. *)
Theorem frame523_round_trip
    (pre cs : list call) (duration rfs b : Z) :
  ~ In Clear pre ->
  count523 Acurite523.SIGNAL_BITSTREAM_ON pre = 3 ->
  Acurite523.Model.get_rfs_type rfs duration
  = Acurite523.SIGNAL_BITSTREAM_ON ->
  0 <= b < 2 ^ 48 ->
  signals523 cs = flat_map halves523 (bits_msb 48 b) ->
  results523 Acurite523.Model.init (pre ++ ParseRf duration rfs :: cs)
  = repeat 0 (length pre + 96) ++ [b].
Proof.
  intros Hnc Hcnt Hty Hr Hsig.
  destruct (closed_run523 pre Acurite523.Model.init) as [R [Hc [_ Hex]]];
    try reflexivity; cbn [Acurite523.Model.bitstream_opener_count
                           Acurite523.Model.init]; try lia.
  specialize (Hex Hnc).
  cbn [Acurite523.Model.bitstream_opener_count Acurite523.Model.init] in Hex.
  rewrite Hcnt in Hex.
  destruct (closed_step523 (run523 Acurite523.Model.init pre) duration rfs Hc)
    as [E [_ Hopen]]; [lia|].
  cbv zeta in Hopen. rewrite Hty, Hex in Hopen.
  destruct (Hopen eq_refl) as [Hc1 [Hs1 Hb1]].
  destruct (block523_frames _ cs b Hc1 Hs1 Hb1 Hr Hsig) as [Rb _].
  assert (Happ : forall m xs ys,
             results523 m (xs ++ ys)
             = results523 m xs ++ results523 (run523 m xs) ys).
  { intros m xs. revert m.
    induction xs as [|x xs IHx]; intros m ys; [reflexivity|].
    cbn [app results523 run523 fold_left].
    fold (run523 (snd (step523 m x)) xs). rewrite IHx. reflexivity. }
  rewrite Happ, R. cbn [results523 step523]. rewrite E, Rb.
  replace (length pre + 96)%nat with (length pre + S 95)%nat by lia.
  rewrite repeat_app, <- app_assoc. reflexivity.
Qed.

Lemma frame523_round_trip_witness :
  let pre := [ParseRf 600 0; ParseRf 600 1; ParseRf 600 0; ParseRf 600 1;
              ParseRf 600 0; ParseRf 600 1; ParseRf 600 0] in
  let cs := flat_map pulse523 (bits_msb 48 0xC049C98B3C99) in
  (~ In Clear pre /\
   count523 Acurite523.SIGNAL_BITSTREAM_ON pre = 3 /\
   Acurite523.Model.get_rfs_type 1 600 = Acurite523.SIGNAL_BITSTREAM_ON /\
   0 <= 0xC049C98B3C99 < 2 ^ 48 /\
   signals523 cs = flat_map halves523 (bits_msb 48 0xC049C98B3C99)) /\
  results523 Acurite523.Model.init (pre ++ ParseRf 600 1 :: cs)
  = repeat 0 (length pre + 96) ++ [0xC049C98B3C99].
Proof.
  cbv zeta.
  assert (Hnc : ~ In Clear
                  [ParseRf 600 0; ParseRf 600 1; ParseRf 600 0; ParseRf 600 1;
                   ParseRf 600 0; ParseRf 600 1; ParseRf 600 0]).
  { cbn [In]. intros H. repeat (destruct H as [H|H]; [discriminate H|]).
    exact H. }
  assert (Hcnt : count523 Acurite523.SIGNAL_BITSTREAM_ON
                   [ParseRf 600 0; ParseRf 600 1; ParseRf 600 0; ParseRf 600 1;
                    ParseRf 600 0; ParseRf 600 1; ParseRf 600 0] = 3)
    by reflexivity.
  assert (Hty : Acurite523.Model.get_rfs_type 1 600
                = Acurite523.SIGNAL_BITSTREAM_ON) by reflexivity.
  assert (Hr : 0 <= 0xC049C98B3C99 < 2 ^ 48) by lia.
  assert (Hsig : signals523 (flat_map pulse523 (bits_msb 48 0xC049C98B3C99))
                 = flat_map halves523 (bits_msb 48 0xC049C98B3C99))
    by (vm_compute; reflexivity).
  exact (conj (conj Hnc (conj Hcnt (conj Hty (conj Hr Hsig))))
              (frame523_round_trip _ _ 600 1 _ Hnc Hcnt Hty Hr Hsig)).
Defined.

(** ** Framing a block: 00609 *)

(** An idle pulse changes nothing but [last_rfs_type], in every state. *)
Lemma off609 (m : Acurite609.Model.t) (duration rfs : Z) :
  Acurite609.Model.get_rfs_type rfs duration = Acurite609.SIGNAL_OFF ->
  Acurite609.Model.parse_rf m duration rfs
  = (0, Acurite609.Model.set_last_rfs_type Acurite609.SIGNAL_OFF m).
Proof.
  intros Ht. unfold Acurite609.Model.parse_rf. rewrite Ht.
  destruct m as [bs sz last ia bo co]; eval609.
  destruct last, co, bo; reflexivity.
Qed.

(** The bitstream-start pulse after an idle, with no bitstream open. *)
Lemma start609_step (m : Acurite609.Model.t) (duration rfs : Z) :
  Acurite609.Model.last_rfs_type m = Acurite609.SIGNAL_OFF ->
  Acurite609.Model.get_rfs_type rfs duration
  = Acurite609.SIGNAL_BITSTREAM_START ->
  Acurite609.Model.bitstream_open m = false ->
  Acurite609.Model.bitstream_size m <> 40 ->
  let r := Acurite609.Model.parse_rf m duration rfs in
  fst r = 0 /\
  Acurite609.Model.chunk_open (snd r) = true /\
  Acurite609.Model.bitstream_open (snd r) = true /\
  Acurite609.Model.bitstream_size (snd r) = 0 /\
  Acurite609.Model.bitstream (snd r) = 0.
Proof.
  intros Hl Ht Ho Hs. cbv zeta.
  unfold Acurite609.Model.parse_rf, Acurite609.SIGNAL_BIT_LENGTH.
  rewrite Ht. destruct m as [bs sz last ia bo co]; eval609.
  subst last bo. destruct co; eval609; repeat (split_test; eval609);
    try contradiction; repeat split; reflexivity.
Qed.

(** A bit pulse after an idle, with chunk and bitstream open. *)
Lemma on609 (m : Acurite609.Model.t) (duration rfs : Z) (bit : bool) :
  Acurite609.Model.last_rfs_type m = Acurite609.SIGNAL_OFF ->
  Acurite609.Model.chunk_open m = true ->
  Acurite609.Model.bitstream_open m = true ->
  Acurite609.Model.get_rfs_type rfs duration
  = (if bit then Acurite609.SIGNAL_BIT_1 else Acurite609.SIGNAL_BIT_0) ->
  0 <= Acurite609.Model.bitstream_size m < 40 ->
  0 <= Acurite609.Model.bitstream m < 2 ^ 40 ->
  Acurite609.Model.bitstream m
    mod 2 ^ (40 - Acurite609.Model.bitstream_size m) = 0 ->
  let s := Acurite609.Model.bitstream_size m in
  let a := Acurite609.Model.bitstream m
           + (if bit then 2 ^ (40 - s - 1) else 0) in
  let r := Acurite609.Model.parse_rf m duration rfs in
  fst r = (if s =? 39 then a else 0) /\
  Acurite609.Model.chunk_open (snd r) = true /\
  Acurite609.Model.bitstream_open (snd r) = negb (s =? 39) /\
  Acurite609.Model.bitstream_size (snd r) = (if s =? 39 then 0 else s + 1) /\
  Acurite609.Model.bitstream (snd r) = (if s =? 39 then 0 else a).
Proof.
  intros Hl Hc Ho Ht Hs Hb Hm. cbv zeta.
  unfold Acurite609.Model.parse_rf, Acurite609.SIGNAL_BIT_LENGTH.
  rewrite Ht.
  destruct (accumulate_one 40 (Acurite609.Model.bitstream m)
              (Acurite609.Model.bitstream_size m)) as [Hacc _]; try lia.
  set (acc := wrap 64 _) in *. clearbody acc. subst acc.
  destruct m as [bs sz last ia bo co]; eval609. subst co bo last.
  destruct bit; eval609; repeat (split_test; eval609);
    try lia; rewrite ?Z.add_0_r;
    destruct (Z.eqb_spec sz 39); try lia; repeat split; reflexivity.
Qed.

Lemma bit_pair609
    (m : Acurite609.Model.t) (d0 r0 d1 r1 : Z) (bit : bool) :
  Acurite609.Model.chunk_open m = true ->
  Acurite609.Model.bitstream_open m = true ->
  Some (Acurite609.Model.get_rfs_type r0 d0) = nth 0 (halves609 bit) None ->
  Some (Acurite609.Model.get_rfs_type r1 d1) = nth 1 (halves609 bit) None ->
  0 <= Acurite609.Model.bitstream_size m < 40 ->
  0 <= Acurite609.Model.bitstream m < 2 ^ 40 ->
  Acurite609.Model.bitstream m
    mod 2 ^ (40 - Acurite609.Model.bitstream_size m) = 0 ->
  let s := Acurite609.Model.bitstream_size m in
  let a := Acurite609.Model.bitstream m
           + (if bit then 2 ^ (40 - s - 1) else 0) in
  let m1 := snd (Acurite609.Model.parse_rf m d0 r0) in
  let r := Acurite609.Model.parse_rf m1 d1 r1 in
  fst (Acurite609.Model.parse_rf m d0 r0) = 0 /\
  fst r = (if s =? 39 then a else 0) /\
  Acurite609.Model.chunk_open (snd r) = true /\
  Acurite609.Model.bitstream_open (snd r) = negb (s =? 39) /\
  Acurite609.Model.bitstream_size (snd r) = (if s =? 39 then 0 else s + 1) /\
  Acurite609.Model.bitstream (snd r) = (if s =? 39 then 0 else a).
Proof.
  intros Hc Ho H0 H1 Hs Hb Hm. cbv zeta.
  assert (T0 : Acurite609.Model.get_rfs_type r0 d0 = Acurite609.SIGNAL_OFF)
    by (destruct bit; cbn in H0; congruence).
  assert (T1 : Acurite609.Model.get_rfs_type r1 d1
               = if bit then Acurite609.SIGNAL_BIT_1
                 else Acurite609.SIGNAL_BIT_0)
    by (destruct bit; cbn in H1; congruence).
  rewrite (off609 m d0 r0 T0). cbn [fst snd]. split; [reflexivity|].
  apply (on609 (Acurite609.Model.set_last_rfs_type Acurite609.SIGNAL_OFF m)
           d1 r1 bit); try assumption; reflexivity.
Qed.

Lemma block609 (n : nat) :
  forall (m : Acurite609.Model.t) (cs : list call) (b : Z),
    (n < 40)%nat ->
    Acurite609.Model.chunk_open m = true ->
    Acurite609.Model.bitstream_open m = true ->
    Acurite609.Model.bitstream_size m = 39 - Z.of_nat n ->
    0 <= Acurite609.Model.bitstream m < 2 ^ 40 ->
    Acurite609.Model.bitstream m mod 2 ^ (Z.of_nat n + 1) = 0 ->
    signals609 cs = flat_map halves609 (bits_msb (S n) b) ->
    results609 m cs
    = repeat 0 (2 * n + 1)
      ++ [Acurite609.Model.bitstream m + b mod 2 ^ (Z.of_nat n + 1)] /\
    Acurite609.Model.chunk_open (run609 m cs) = true /\
    Acurite609.Model.bitstream_open (run609 m cs) = false /\
    Acurite609.Model.bitstream_size (run609 m cs) = 0 /\
    Acurite609.Model.bitstream (run609 m cs) = 0.
Proof.
  induction n as [|n IH]; intros m cs b Hn Hc Ho Hs Hb Hm Hsig.
  - cbn [bits_msb flat_map] in Hsig.
    set (bit := Z.testbit b (Z.of_nat 0)) in *.
    assert (Hsig' : signals609 cs
                    = nth 0 (halves609 bit) None
                      :: nth 1 (halves609 bit) None :: [])
      by (rewrite Hsig; destruct bit; reflexivity).
    destruct cs as [|[d0 r0|] [|[d1 r1|] [|c cs']]];
      try (destruct bit; discriminate Hsig').
    cbn [signals609 map] in Hsig'. injection Hsig' as H0 H1.
    destruct (bit_pair609 m d0 r0 d1 r1 bit Hc Ho H0 H1)
      as [E0 [E1 [Hc' [Ho' [Hs' Hb']]]]]; try lia.
    { rewrite Hs. exact Hm. }
    rewrite Hs in E1, Ho', Hs', Hb'. change (Z.of_nat 0) with 0 in *.
    change (39 - 0 =? 39) with true in *.
    change (2 ^ (40 - (39 - 0) - 1)) with 1 in E1.
    cbn [results609 run609 fold_left step609 repeat app Nat.mul Nat.add].
    rewrite E0, E1.
    rewrite (bit_weight b 0) by lia. change (2 ^ 0) with 1.
    rewrite Z.mod_1_r, Z.add_0_r. fold bit.
    repeat split; assumption.
  - cbn [bits_msb flat_map] in Hsig.
    set (bit := Z.testbit b (Z.of_nat (S n))) in *.
    assert (Hsig' : signals609 cs
                    = nth 0 (halves609 bit) None
                      :: nth 1 (halves609 bit) None
                      :: flat_map halves609 (bits_msb (S n) b))
      by (rewrite Hsig; destruct bit; reflexivity).
    destruct cs as [|[d0 r0|] [|[d1 r1|] cs']];
      try (destruct bit; discriminate Hsig').
    cbn [signals609 map] in Hsig'. injection Hsig' as H0 H1 Hrest.
    fold (signals609 cs') in Hrest.
    destruct (bit_pair609 m d0 r0 d1 r1 bit Hc Ho H0 H1)
      as [E0 [E1 [Hc' [Ho' [Hs' Hb']]]]]; try lia.
    { rewrite Hs. replace (40 - (39 - Z.of_nat (S n)))
        with (Z.of_nat (S n) + 1) by lia. exact Hm. }
    rewrite Hs in E1, Ho', Hs', Hb'.
    destruct (Z.eqb_spec (39 - Z.of_nat (S n)) 39) as [E|_]; [lia|].
    cbn [negb] in Ho'.
    replace (40 - (39 - Z.of_nat (S n)) - 1) with (Z.of_nat n + 1)
      in Hb' by lia.
    set (m2 := snd (Acurite609.Model.parse_rf
                      (snd (Acurite609.Model.parse_rf m d0 r0)) d1 r1)) in *.
    assert (Hp : 0 < 2 ^ (Z.of_nat n + 1))
      by (apply Z.pow_pos_nonneg; lia).
    assert (Hmm : Acurite609.Model.bitstream m mod 2 ^ (Z.of_nat n + 1) = 0).
    { apply mod_pow2_drop; [lia|].
      replace (Z.of_nat n + 1 + 1) with (Z.of_nat (S n) + 1) by lia.
      exact Hm. }
    assert (Hbit : (if bit then 2 ^ (Z.of_nat n + 1) else 0)
                     mod 2 ^ (Z.of_nat n + 1) = 0)
      by (destruct bit; [apply Z.mod_same; lia | apply Zmod_0_l]).
    assert (Hm2 : Acurite609.Model.bitstream m2 mod 2 ^ (Z.of_nat n + 1) = 0).
    { rewrite Hb', Z.add_mod, Hmm, Hbit by lia. reflexivity. }
    assert (Hb2 : 0 <= Acurite609.Model.bitstream m2 < 2 ^ 40).
    { rewrite Hb'. destruct bit; [|lia].
      destruct (accumulate_one 40 (Acurite609.Model.bitstream m)
                  (39 - Z.of_nat (S n))) as [Ha [Hr _]]; try lia.
      { replace (40 - (39 - Z.of_nat (S n)))
          with (Z.of_nat (S n) + 1) by lia. exact Hm. }
      rewrite Ha in Hr.
      replace (40 - (39 - Z.of_nat (S n)) - 1) with (Z.of_nat n + 1)
        in Hr by lia.
      exact Hr. }
    destruct (IH m2 cs' b ltac:(lia) Hc' Ho' ltac:(lia) Hb2 Hm2 Hrest)
      as [R [Hc3 [Ho3 [Hs3 Hb3]]]].
    cbn [results609 run609 fold_left step609].
    fold (run609 m2 cs'). rewrite E0, E1.
    change (snd (Acurite609.Model.parse_rf
                   (snd (Acurite609.Model.parse_rf m d0 r0)) d1 r1)) with m2.
    rewrite R, Hb'.
    replace (2 * S n + 1)%nat with (S (S (2 * n + 1))) by lia.
    cbn [repeat app].
    replace (Z.of_nat (S n) + 1) with (Z.of_nat n + 1 + 1) by lia.
    rewrite (bit_weight b (Z.of_nat n + 1)) by lia.
    replace (Z.testbit b (Z.of_nat n + 1)) with bit
      by (unfold bit; f_equal; lia).
    repeat split; try assumption.
    do 4 f_equal. lia.
Qed.

Lemma frame609_frames
    (m : Acurite609.Model.t) (cs : list call) (b : Z) :
  Acurite609.Model.bitstream_open m = false ->
  Acurite609.Model.bitstream_size m <> 40 ->
  0 <= b < 2 ^ 40 ->
  signals609 cs
  = Some Acurite609.SIGNAL_OFF :: Some Acurite609.SIGNAL_BITSTREAM_START
    :: flat_map halves609 (bits_msb 40 b) ->
  results609 m cs = repeat 0 81 ++ [b] /\
  Acurite609.Model.chunk_open (run609 m cs) = true /\
  Acurite609.Model.bitstream_open (run609 m cs) = false /\
  Acurite609.Model.bitstream_size (run609 m cs) = 0.
Proof.
  intros Ho Hs Hr Hsig.
  destruct cs as [|[d0 r0|] [|[d1 r1|] cs']]; try discriminate Hsig.
  cbn [signals609 map] in Hsig. injection Hsig as H0 H1 Hrest.
  fold (signals609 cs') in Hrest.
  cbn [results609 run609 fold_left step609].
  rewrite (off609 m d0 r0 H0). cbn [fst snd].
  set (m1 := Acurite609.Model.set_last_rfs_type Acurite609.SIGNAL_OFF m).
  destruct (start609_step m1 d1 r1) as [E [Hc [Ho2 [Hs2 Hb2]]]];
    try assumption; try reflexivity.
  set (m2 := snd (Acurite609.Model.parse_rf m1 d1 r1)) in *.
  fold (run609 m2 cs').
  assert (A1 : Acurite609.Model.bitstream_size m2 = 39 - Z.of_nat 39)
    by (rewrite Hs2; reflexivity).
  assert (A2 : 0 <= Acurite609.Model.bitstream m2 < 2 ^ 40)
    by (rewrite Hb2; lia).
  assert (A3 : Acurite609.Model.bitstream m2 mod 2 ^ (Z.of_nat 39 + 1) = 0)
    by (rewrite Hb2; reflexivity).
  destruct (block609 39 m2 cs' b ltac:(lia) Hc Ho2 A1 A2 A3 Hrest)
    as [R [Hc3 [Ho3 [Hs3 _]]]].
  rewrite E, R, Hb2. change (Z.of_nat 39 + 1) with 40.
  rewrite Z.mod_small by lia.
  repeat split; assumption.
Qed.

(** X13.  00609 round trip.  From any state with no bitstream open (the
    initial state, the state after a block, the state after [clear]), an
    idle, a bitstream-start pulse and the 40 idle/bit pairs of [b] make the
    last [parse_rf] call return [b] and every earlier call return 0; the
    machine is left with the chunk open and the bitstream closed, so the
    next block of the burst needs its own bitstream-start pulse. *)
Theorem frame609_round_trip
    (m : Acurite609.Model.t) (cs : list call) (b : Z) :
  Acurite609.Model.bitstream_open m = false ->
  Acurite609.Model.bitstream_size m <> 40 ->
  0 <= b < 2 ^ 40 ->
  signals609 cs
  = Some Acurite609.SIGNAL_OFF :: Some Acurite609.SIGNAL_BITSTREAM_START
    :: flat_map halves609 (bits_msb 40 b) ->
  results609 m cs = repeat 0 81 ++ [b] /\
  Acurite609.Model.chunk_open (run609 m cs) = true /\
  Acurite609.Model.bitstream_open (run609 m cs) = false /\
  Acurite609.Model.bitstream_size (run609 m cs) = 0.
Proof.
  exact (frame609_frames m cs b).
Qed.


Lemma frame609_round_trip_witness :
  let m := Acurite609.Model.clear
             (run609 Acurite609.Model.init
                (start609 ++ flat_map pulse609 [true; true; false])) in
  (Acurite609.Model.bitstream_open m = false /\
   Acurite609.Model.bitstream_size m <> 40 /\
   0 <= 0xC0A15B25E1 < 2 ^ 40 /\
   signals609 (frame609 0xC0A15B25E1)
   = Some Acurite609.SIGNAL_OFF :: Some Acurite609.SIGNAL_BITSTREAM_START
     :: flat_map halves609 (bits_msb 40 0xC0A15B25E1)) /\
  results609 m (frame609 0xC0A15B25E1) = repeat 0 81 ++ [0xC0A15B25E1].
Proof.
  cbv zeta.
  assert (Ho : Acurite609.Model.bitstream_open
                 (Acurite609.Model.clear
                    (run609 Acurite609.Model.init
                       (start609 ++ flat_map pulse609 [true; true; false])))
               = false) by reflexivity.
  assert (Hs : Acurite609.Model.bitstream_size
                 (Acurite609.Model.clear
                    (run609 Acurite609.Model.init
                       (start609 ++ flat_map pulse609 [true; true; false])))
               <> 40) by (cbn; discriminate).
  assert (Hr : 0 <= 0xC0A15B25E1 < 2 ^ 40) by lia.
  assert (Hsig : signals609 (frame609 0xC0A15B25E1)
                 = Some Acurite609.SIGNAL_OFF
                   :: Some Acurite609.SIGNAL_BITSTREAM_START
                   :: flat_map halves609 (bits_msb 40 0xC0A15B25E1))
    by (vm_compute; reflexivity).
  exact (conj (conj Ho (conj Hs (conj Hr Hsig)))
              (proj1 (frame609_round_trip _ _ _ Ho Hs Hr Hsig))).
Defined.

(** ** What cannot start a block *)

Lemma count609_cons (s : Acurite609.signal) (c : call) (cs : list call) :
  count609 s (c :: cs)
  = (match c with
     | ParseRf duration rfs =>
         if Acurite609.signal_eqb
              (Acurite609.Model.get_rfs_type rfs duration) s
         then 1 else 0
     | Clear => 0
     end) + count609 s cs.
Proof.
  unfold count609, signals609. cbn [map filter].
  destruct c as [duration rfs|]; [|reflexivity].
  destruct (Acurite609.signal_eqb _ s); cbn [length]; lia.
Qed.

Lemma count609_nonneg (s : Acurite609.signal) (cs : list call) :
  0 <= count609 s cs.
Proof. unfold count609. lia. Qed.

(** With no bitstream open, a pulse that is not a bitstream-start returns
    0, opens neither a bitstream nor a chunk, and leaves the buffer size
    away from 40. *)
Lemma closed_step609 (m : Acurite609.Model.t) (duration rfs : Z) :
  Acurite609.Model.bitstream_open m = false ->
  Acurite609.Model.bitstream_size m <> 40 ->
  Acurite609.signal_eqb (Acurite609.Model.get_rfs_type rfs duration)
    Acurite609.SIGNAL_BITSTREAM_START = false ->
  let r := Acurite609.Model.parse_rf m duration rfs in
  fst r = 0 /\
  Acurite609.Model.bitstream_open (snd r) = false /\
  Acurite609.Model.bitstream_size (snd r) <> 40 /\
  (Acurite609.Model.chunk_open (snd r) = true ->
   Acurite609.Model.chunk_open m = true).
Proof.
  intros Ho Hs Ht. cbv zeta.
  unfold Acurite609.Model.parse_rf, Acurite609.SIGNAL_BIT_LENGTH.
  revert Ht.
  generalize (Acurite609.Model.get_rfs_type rfs duration) as ty. intros ty.
  destruct m as [bs sz last ia bo co]; eval609. subst bo.
  destruct ty, last, co; eval609; intros Ht; try discriminate Ht;
    repeat (split_test; eval609);
    repeat split; intros; try assumption; try reflexivity;
    try contradiction; try discriminate.
Qed.

Lemma silent609
    (cs : list call) (m : Acurite609.Model.t) :
  Acurite609.Model.bitstream_open m = false ->
  Acurite609.Model.bitstream_size m <> 40 ->
  count609 Acurite609.SIGNAL_BITSTREAM_START cs = 0 ->
  results609 m cs = repeat 0 (length cs) /\
  Acurite609.Model.bitstream_open (run609 m cs) = false /\
  (Acurite609.Model.chunk_open (run609 m cs) = true ->
   Acurite609.Model.chunk_open m = true).
Proof.
  revert m. induction cs as [|c cs IH]; intros m Ho Hs Hcnt.
  - cbn. repeat split; auto.
  - rewrite count609_cons in Hcnt.
    pose proof (count609_nonneg Acurite609.SIGNAL_BITSTREAM_START cs) as Hcs.
    cbn [results609 run609 fold_left length repeat].
    fold (run609 (snd (step609 m c)) cs).
    destruct c as [duration rfs|]; cbn [step609 fst snd].
    + destruct (Acurite609.signal_eqb
                  (Acurite609.Model.get_rfs_type rfs duration)
                  Acurite609.SIGNAL_BITSTREAM_START) eqn:Ht; [lia|].
      destruct (closed_step609 m duration rfs Ho Hs Ht)
        as [E [Ho' [Hs' Hc']]].
      destruct (IH _ Ho' Hs' ltac:(lia)) as [R [Ho2 Hc2]].
      rewrite E, R. repeat split; auto.
    + destruct (IH (Acurite609.Model.clear m)) as [R [Ho2 Hc2]];
        try reflexivity; try lia.
      { cbn. discriminate. }
      rewrite R. repeat split; auto.
Qed.

(** X14.  The 00609 machine is deaf without a bitstream-start pulse: from
    any state with no bitstream open -- in particular after [clear] or
    after a block -- a call sequence without a BITSTREAM_START pulse makes
    every [parse_rf] call return 0, opens no bitstream and opens no
    chunk. *)
Theorem silent_without_start609
    (cs : list call) (m : Acurite609.Model.t) :
  Acurite609.Model.bitstream_open m = false ->
  Acurite609.Model.bitstream_size m <> 40 ->
  count609 Acurite609.SIGNAL_BITSTREAM_START cs = 0 ->
  results609 m cs = repeat 0 (length cs) /\
  Acurite609.Model.bitstream_open (run609 m cs) = false /\
  (Acurite609.Model.chunk_open (run609 m cs) = true ->
   Acurite609.Model.chunk_open m = true).
Proof.
  exact (silent609 cs m).
Qed.


Lemma silent_without_start609_witness :
  let m := Acurite609.Model.clear
             (run609 Acurite609.Model.init
                (start609 ++ flat_map pulse609 [true; true; false])) in
  let cs := flat_map pulse609 (bits_msb 40 0xC0A15B25E1) in
  (Acurite609.Model.bitstream_open m = false /\
   Acurite609.Model.bitstream_size m <> 40 /\
   count609 Acurite609.SIGNAL_BITSTREAM_START cs = 0) /\
  results609 m cs = repeat 0 (length cs).
Proof.
  cbv zeta.
  assert (Ho : Acurite609.Model.bitstream_open
                 (Acurite609.Model.clear
                    (run609 Acurite609.Model.init
                       (start609 ++ flat_map pulse609 [true; true; false])))
               = false) by reflexivity.
  assert (Hs : Acurite609.Model.bitstream_size
                 (Acurite609.Model.clear
                    (run609 Acurite609.Model.init
                       (start609 ++ flat_map pulse609 [true; true; false])))
               <> 40) by (cbn; discriminate).
  assert (Hc : count609 Acurite609.SIGNAL_BITSTREAM_START
                 (flat_map pulse609 (bits_msb 40 0xC0A15B25E1)) = 0)
    by (vm_compute; reflexivity).
  exact (conj (conj Ho (conj Hs Hc))
              (proj1 (silent_without_start609 _ _ Ho Hs Hc))).
Defined.

(** ** Noise *)

Lemma inv_step523 (m : Acurite523.Model.t) (duration rfs : Z) :
  Acurite523.Model.get_rfs_type rfs duration = Acurite523.SIGNAL_INV ->
  Acurite523.Model.bitstream_opener_count m <> 4 ->
  let r := Acurite523.Model.parse_rf m duration rfs in
  fst r = 0 /\
  Acurite523.Model.chunk_open (snd r) = Acurite523.Model.chunk_open m /\
  Acurite523.Model.bitstream (snd r) = Acurite523.Model.bitstream m /\
  Acurite523.Model.bitstream_size (snd r)
  = Acurite523.Model.bitstream_size m /\
  Acurite523.Model.bitstream_open (snd r)
  = Acurite523.Model.bitstream_open m /\
  Acurite523.Model.bitstream_opener_count (snd r) <> 4.
Proof.
  intros Ht Hn. cbv zeta. unfold Acurite523.Model.parse_rf. rewrite Ht.
  destruct m as [ia co bs sz bo cnt last]; eval523.
  destruct last, co; eval523; repeat (split_test; eval523);
    repeat split; try reflexivity; try assumption; try discriminate;
    contradiction.
Qed.

Lemma inv_step609 (m : Acurite609.Model.t) (duration rfs : Z) :
  Acurite609.Model.get_rfs_type rfs duration = Acurite609.SIGNAL_INV ->
  Acurite609.Model.parse_rf m duration rfs
  = (0, Acurite609.Model.set_last_rfs_type Acurite609.SIGNAL_INV m).
Proof.
  intros Ht. unfold Acurite609.Model.parse_rf. rewrite Ht.
  destruct m as [bs sz last ia bo co]; eval609.
  destruct last, co, bo; reflexivity.
Qed.

(** X15.  Pulses that classify as invalid never produce a candidate and
    never touch the chunk or the buffer: over any train of such pulses
    every [parse_rf] call returns 0 and [chunk_open], [bitstream],
    [bitstream_size] and [bitstream_open] keep their values (for 00523
    from a state whose opener count is not 4, as in every reachable
    state). *)
Theorem invalid_pulses_ignored
    (cs5 cs6 : list call)
    (m5 : Acurite523.Model.t) (m6 : Acurite609.Model.t) :
  (signals523 cs5 = repeat (Some Acurite523.SIGNAL_INV) (length cs5) ->
   Acurite523.Model.bitstream_opener_count m5 <> 4 ->
   results523 m5 cs5 = repeat 0 (length cs5) /\
   Acurite523.Model.chunk_open (run523 m5 cs5)
   = Acurite523.Model.chunk_open m5 /\
   Acurite523.Model.bitstream (run523 m5 cs5)
   = Acurite523.Model.bitstream m5 /\
   Acurite523.Model.bitstream_size (run523 m5 cs5)
   = Acurite523.Model.bitstream_size m5 /\
   Acurite523.Model.bitstream_open (run523 m5 cs5)
   = Acurite523.Model.bitstream_open m5) /\
  (signals609 cs6 = repeat (Some Acurite609.SIGNAL_INV) (length cs6) ->
   results609 m6 cs6 = repeat 0 (length cs6) /\
   Acurite609.Model.chunk_open (run609 m6 cs6)
   = Acurite609.Model.chunk_open m6 /\
   Acurite609.Model.bitstream (run609 m6 cs6)
   = Acurite609.Model.bitstream m6 /\
   Acurite609.Model.bitstream_size (run609 m6 cs6)
   = Acurite609.Model.bitstream_size m6 /\
   Acurite609.Model.bitstream_open (run609 m6 cs6)
   = Acurite609.Model.bitstream_open m6).
Proof.
  split.
  - revert m5. induction cs5 as [|c cs IH]; intros m Hsig Hn.
    + cbn. repeat split; reflexivity.
    + cbn [signals523 map length repeat] in Hsig.
      fold (signals523 cs) in Hsig.
      destruct c as [duration rfs|]; [|discriminate Hsig].
      injection Hsig as Ht Hrest.
      destruct (inv_step523 m duration rfs Ht Hn)
        as [E [Hc [Hb [Hs [Ho Hn']]]]].
      destruct (IH _ Hrest Hn') as [R [Hc2 [Hb2 [Hs2 Ho2]]]].
      cbn [results523 run523 fold_left step523 length repeat].
      fold (run523 (snd (Acurite523.Model.parse_rf m duration rfs)) cs).
      rewrite E, R, Hc2, Hb2, Hs2, Ho2.
      repeat split; assumption.
  - revert m6. induction cs6 as [|c cs IH]; intros m Hsig.
    + cbn. repeat split; reflexivity.
    + cbn [signals609 map length repeat] in Hsig.
      fold (signals609 cs) in Hsig.
      destruct c as [duration rfs|]; [|discriminate Hsig].
      injection Hsig as Ht Hrest.
      cbn [results609 run609 fold_left step609 length repeat].
      rewrite (inv_step609 m duration rfs Ht). cbn [fst snd].
      fold (run609 (Acurite609.Model.set_last_rfs_type
                      Acurite609.SIGNAL_INV m) cs).
      destruct (IH (Acurite609.Model.set_last_rfs_type
                      Acurite609.SIGNAL_INV m) Hrest)
        as [R [Hc2 [Hb2 [Hs2 Ho2]]]].
      rewrite R, Hc2, Hb2, Hs2, Ho2. repeat split; reflexivity.
Qed.

Lemma invalid_pulses_ignored_witness :
  let m5 := run523 Acurite523.Model.init
              (preamble523 ++ flat_map pulse523 [true; false; true]) in
  let m6 := run609 Acurite609.Model.init
              (start609 ++ flat_map pulse609 [true; true; false]) in
  let cs := [ParseRf 50 1; ParseRf 5000 0; ParseRf 70000 1; ParseRf 90 0] in
  (signals523 cs = repeat (Some Acurite523.SIGNAL_INV) (length cs) /\
   Acurite523.Model.bitstream_opener_count m5 <> 4 /\
   results523 m5 cs = repeat 0 (length cs) /\
   Acurite523.Model.bitstream_size (run523 m5 cs) = 3) /\
  (signals609 [ParseRf 5000 0; ParseRf 70000 1; ParseRf 3500 1]
   = repeat (Some Acurite609.SIGNAL_INV) 3 /\
   results609 m6 [ParseRf 5000 0; ParseRf 70000 1; ParseRf 3500 1]
   = repeat 0 3).
Proof.
  cbv zeta.
  pose proof (invalid_pulses_ignored
                [ParseRf 50 1; ParseRf 5000 0; ParseRf 70000 1; ParseRf 90 0]
                [ParseRf 5000 0; ParseRf 70000 1; ParseRf 3500 1]
                (run523 Acurite523.Model.init
                   (preamble523 ++ flat_map pulse523 [true; false; true]))
                (run609 Acurite609.Model.init
                   (start609 ++ flat_map pulse609 [true; true; false])))
    as [T5 T6].
  assert (S5 : signals523
                 [ParseRf 50 1; ParseRf 5000 0; ParseRf 70000 1; ParseRf 90 0]
               = repeat (Some Acurite523.SIGNAL_INV)
                   (length [ParseRf 50 1; ParseRf 5000 0;
                            ParseRf 70000 1; ParseRf 90 0]))
    by reflexivity.
  assert (N5 : Acurite523.Model.bitstream_opener_count
                 (run523 Acurite523.Model.init
                    (preamble523 ++ flat_map pulse523 [true; false; true]))
               <> 4) by (vm_compute; discriminate).
  assert (S6 : signals609 [ParseRf 5000 0; ParseRf 70000 1; ParseRf 3500 1]
               = repeat (Some Acurite609.SIGNAL_INV)
                   (length [ParseRf 5000 0; ParseRf 70000 1; ParseRf 3500 1]))
    by reflexivity.
  destruct (T5 S5 N5) as [R5 [_ [_ [Z5 _]]]].
  destruct (T6 S6) as [R6 _].
  refine (conj (conj S5 (conj N5 (conj R5 _))) (conj S6 R6)).
  rewrite Z5. vm_compute. reflexivity.
Defined.

(** ** The dispatcher *)

Lemma parseRf_cases (st : Monitor.t) (duration rfs : Z) :
  Monitor.parseRf st duration rfs
  = let r5 := Acurite523.Model.parse_rf
                (Monitor.acurite523 st) duration rfs in
    match (if fst r5 =? 0 then None
           else Monitor.scan523 (Monitor.devices523 st) (fst r5)) with
    | Some p =>
        (Some p,
         Monitor.mk (snd r5) (Monitor.devices523 st)
           (Monitor.acurite609 st) (Monitor.devices609 st))
    | None =>
        let r6 := Acurite609.Model.parse_rf
                    (Monitor.acurite609 st) duration rfs in
        ((if fst r6 =? 0 then None
          else Monitor.scan609 (Monitor.devices609 st) (fst r6)),
         Monitor.mk (snd r5) (Monitor.devices523 st)
           (snd r6) (Monitor.devices609 st))
    end.
Proof.
  unfold Monitor.parseRf. cbv zeta.
  destruct (Acurite523.Model.parse_rf (Monitor.acurite523 st) duration rfs)
    as [r5 m5].
  cbn [fst snd Monitor.acurite523 Monitor.devices523 Monitor.acurite609
       Monitor.devices609].
  destruct (if r5 =? 0 then None
            else Monitor.scan523 (Monitor.devices523 st) r5);
    [reflexivity|].
  destruct (Acurite609.Model.parse_rf (Monitor.acurite609 st) duration rfs)
    as [r6 m6].
  reflexivity.
Qed.

Lemma devices_fixed (cs : list call) (st : Monitor.t) :
  Monitor.devices523 (run_monitor st cs) = Monitor.devices523 st /\
  Monitor.devices609 (run_monitor st cs) = Monitor.devices609 st.
Proof.
  revert st. induction cs as [|c cs IH]; intros st; [split; reflexivity|].
  cbn [run_monitor fold_left]. fold (run_monitor (snd (on_call st c)) cs).
  destruct (IH (snd (on_call st c))) as [H5 H6]. rewrite H5, H6.
  destruct c as [duration rfs|]; cbn [on_call]; [|split; reflexivity].
  destruct (100 <=? duration); [|split; reflexivity].
  rewrite parseRf_cases. cbv zeta.
  destruct (if fst _ =? 0 then None else Monitor.scan523 _ _);
    [split; reflexivity|].
  destruct (if fst _ =? 0 then None else Monitor.scan609 _ _);
    split; reflexivity.
Qed.

(** X16.  The dispatcher validates against copies: whatever is received,
    the registered devices are never modified, so a signature latched or a
    reading stored by [validate_bitstream] does not outlive the call that
    produced the payload. *)
Theorem registered_devices_fixed (cs : list call) (st : Monitor.t) :
  Monitor.devices523 (run_monitor st cs) = Monitor.devices523 st /\
  Monitor.devices609 (run_monitor st cs) = Monitor.devices609 st.
Proof.
  exact (devices_fixed cs st).
Qed.


(** While neither framing machine returns a candidate, the dispatcher
    builds nothing and just steps both machines. *)
Lemma quiet_calls (cs : list call) :
  forall st : Monitor.t,
    forallb long_enough cs = true ->
    results523 (Monitor.acurite523 st) cs = repeat 0 (length cs) ->
    results609 (Monitor.acurite609 st) cs = repeat 0 (length cs) ->
    payloads st cs = [] /\
    run_monitor st cs
    = Monitor.mk (run523 (Monitor.acurite523 st) cs) (Monitor.devices523 st)
        (run609 (Monitor.acurite609 st) cs) (Monitor.devices609 st).
Proof.
  induction cs as [|c cs IH]; intros st Hlong R5 R6.
  - destruct st; split; reflexivity.
  - cbn [forallb] in Hlong. apply andb_prop in Hlong.
    destruct Hlong as [Hl Hlong].
    cbn [results523 results609 length repeat] in R5, R6.
    injection R5 as E5 R5. injection R6 as E6 R6.
    cbn [payloads run_monitor run523 run609 fold_left].
    fold (run_monitor (snd (on_call st c)) cs).
    fold (run523 (snd (step523 (Monitor.acurite523 st) c)) cs).
    fold (run609 (snd (step609 (Monitor.acurite609 st) c)) cs).
    assert (Hcall : on_call st c
                    = (None,
                       Monitor.mk (snd (step523 (Monitor.acurite523 st) c))
                         (Monitor.devices523 st)
                         (snd (step609 (Monitor.acurite609 st) c))
                         (Monitor.devices609 st))).
    { destruct c as [duration rfs|]; cbn [on_call step523 step609 snd fst] in *.
      - cbn [long_enough] in Hl. rewrite Hl, parseRf_cases. cbv zeta.
        rewrite E5, E6. reflexivity.
      - reflexivity. }
    rewrite Hcall. cbn [fst snd].
    destruct (IH (Monitor.mk (snd (step523 (Monitor.acurite523 st) c))
                    (Monitor.devices523 st)
                    (snd (step609 (Monitor.acurite609 st) c))
                    (Monitor.devices609 st)) Hlong R5 R6) as [P R].
    split; assumption.
Qed.

Lemma results523_snoc (xs : list call) :
  forall (m : Acurite523.Model.t) (c : call),
    results523 m (xs ++ [c])
    = results523 m xs ++ [fst (step523 (run523 m xs) c)].
Proof.
  induction xs as [|x xs IH]; intros m c; [reflexivity|].
  cbn [app results523 run523 fold_left].
  fold (run523 (snd (step523 m x)) xs). rewrite IH. reflexivity.
Qed.

Lemma results609_snoc (xs : list call) :
  forall (m : Acurite609.Model.t) (c : call),
    results609 m (xs ++ [c])
    = results609 m xs ++ [fst (step609 (run609 m xs) c)].
Proof.
  induction xs as [|x xs IH]; intros m c; [reflexivity|].
  cbn [app results609 run609 fold_left].
  fold (run609 (snd (step609 m x)) xs). rewrite IH. reflexivity.
Qed.

Lemma payloads_snoc (xs : list call) :
  forall (st : Monitor.t) (c : call),
    payloads st (xs ++ [c])
    = payloads st xs
      ++ match fst (on_call (run_monitor st xs) c) with
         | Some p => [p]
         | None => []
         end.
Proof.
  induction xs as [|x xs IH]; intros st c.
  - cbn [app payloads run_monitor fold_left].
    destruct (fst (on_call st c)); reflexivity.
  - cbn [app payloads run_monitor fold_left].
    fold (run_monitor (snd (on_call st x)) xs).
    destruct (fst (on_call st x)); rewrite IH; reflexivity.
Qed.

Lemma scan523_zero (ds : list Acurite523.Device.t) :
  Monitor.scan523 ds 0 = None.
Proof. induction ds as [|d ds IH]; [reflexivity | exact IH]. Qed.

Lemma scan609_zero (ds : list Acurite609.Device.t) :
  Monitor.scan609 ds 0 = None.
Proof. induction ds as [|d ds IH]; [reflexivity | exact IH]. Qed.

Lemma zeros_snoc (n : nat) : repeat 0 (S n) = repeat 0 n ++ [0].
Proof. induction n as [|n IH]; [reflexivity|]. cbn [repeat app] in *. rewrite <- IH. reflexivity. Qed.

(** The last call of a sequence whose results are zeros followed by [b]. *)
Lemma split_last_result523
    (m : Acurite523.Model.t) (cs : list call) (n : nat) (b : Z) :
  results523 m cs = repeat 0 n ++ [b] ->
  exists xs c, cs = xs ++ [c] /\
    results523 m xs = repeat 0 (length xs) /\
    fst (step523 (run523 m xs) c) = b.
Proof.
  intros R.
  destruct (exists_last (l := cs)) as [xs [c ->]].
  { intros ->. destruct n; discriminate R. }
  rewrite results523_snoc in R. apply app_inj_tail in R.
  destruct R as [R E]. exists xs, c. repeat split; try assumption.
  assert (Hlen : length (results523 m xs) = length xs).
  { clear. revert m. induction xs as [|x xs IH]; intros m; [reflexivity|].
    cbn [results523 length]. rewrite IH. reflexivity. }
  rewrite R, repeat_length in Hlen. subst n. exact R.
Qed.

Lemma split_last_result609
    (m : Acurite609.Model.t) (cs : list call) (n : nat) (b : Z) :
  results609 m cs = repeat 0 n ++ [b] ->
  exists xs c, cs = xs ++ [c] /\
    results609 m xs = repeat 0 (length xs) /\
    fst (step609 (run609 m xs) c) = b.
Proof.
  intros R.
  destruct (exists_last (l := cs)) as [xs [c ->]].
  { intros ->. destruct n; discriminate R. }
  rewrite results609_snoc in R. apply app_inj_tail in R.
  destruct R as [R E]. exists xs, c. repeat split; try assumption.
  assert (Hlen : length (results609 m xs) = length xs).
  { clear. revert m. induction xs as [|x xs IH]; intros m; [reflexivity|].
    cbn [results609 length]. rewrite IH. reflexivity. }
  rewrite R, repeat_length in Hlen. subst n. exact R.
Qed.

(** A prefix of an all-zero result list. *)
Lemma zeros_prefix523
    (m : Acurite523.Model.t) (xs : list call) (c : call) :
  results523 m (xs ++ [c]) = repeat 0 (length (xs ++ [c])) ->
  results523 m xs = repeat 0 (length xs) /\
  fst (step523 (run523 m xs) c) = 0.
Proof.
  rewrite results523_snoc, length_app, Nat.add_comm. cbn [length Nat.add].
  rewrite zeros_snoc. intros R. apply app_inj_tail in R. exact R.
Qed.

Lemma zeros_prefix609
    (m : Acurite609.Model.t) (xs : list call) (c : call) :
  results609 m (xs ++ [c]) = repeat 0 (length (xs ++ [c])) ->
  results609 m xs = repeat 0 (length xs) /\
  fst (step609 (run609 m xs) c) = 0.
Proof.
  rewrite results609_snoc, length_app, Nat.add_comm. cbn [length Nat.add].
  rewrite zeros_snoc. intros R. apply app_inj_tail in R. exact R.
Qed.

(** The halves of 00523 bits are pulses of 100 to 499 microseconds: [loop]
    passes them on, and the 00609 classifier never reads one as a
    bitstream start. *)
Lemma bit_half523 (rfs duration : Z) :
  Acurite523.Model.is_bit_signal
    (Acurite523.Model.get_rfs_type rfs duration) = true ->
  100 <= duration < 500.
Proof.
  unfold Acurite523.Model.get_rfs_type.
  destruct (rfs =? 0); [|destruct (rfs =? 1)];
    repeat match goal with
      | |- context [(?a <=? ?b) && _] => destruct (Z.leb_spec a b)
      | |- context [_ && (?a <? ?b)] => destruct (Z.ltb_spec a b)
      end; cbn; intros Hb; try discriminate Hb; lia.
Qed.

Lemma bit_train523 (bits : list bool) :
  forall cs : list call,
    signals523 cs = flat_map halves523 bits ->
    forallb long_enough cs = true /\
    count609 Acurite609.SIGNAL_BITSTREAM_START cs = 0.
Proof.
  induction bits as [|bit bits IH]; intros cs Hsig.
  - destruct cs; [split; reflexivity | discriminate Hsig].
  - cbn [flat_map] in Hsig.
    assert (Hsig' : signals523 cs
                    = nth 0 (halves523 bit) None
                      :: nth 1 (halves523 bit) None
                      :: flat_map halves523 bits)
      by (rewrite Hsig; destruct bit; reflexivity).
    destruct cs as [|[d0 r0|] [|[d1 r1|] cs']];
      try (destruct bit; discriminate Hsig').
    cbn [signals523 map] in Hsig'. injection Hsig' as H0 H1 Hrest.
    fold (signals523 cs') in Hrest.
    destruct (IH cs' Hrest) as [Hl Hc].
    assert (B0 : 100 <= d0 < 500)
      by (apply (bit_half523 r0); destruct bit; cbn in H0;
          injection H0 as ->; reflexivity).
    assert (B1 : 100 <= d1 < 500)
      by (apply (bit_half523 r1); destruct bit; cbn in H1;
          injection H1 as ->; reflexivity).
    split.
    + cbn [forallb long_enough]. rewrite Hl.
      destruct (Z.leb_spec 100 d0), (Z.leb_spec 100 d1); try lia;
        reflexivity.
    + rewrite !count609_cons, Hc.
      assert (N : forall r d, 100 <= d < 500 ->
                  Acurite609.signal_eqb (Acurite609.Model.get_rfs_type r d)
                    Acurite609.SIGNAL_BITSTREAM_START = false).
      { intros r d Hd. unfold Acurite609.Model.get_rfs_type.
        destruct (r =? 0); [|destruct (r =? 1)];
          repeat match goal with
            | |- context [if ?a <? ?b then _ else _] =>
                destruct (Z.ltb_spec a b)
            | |- context [(?a <=? ?b) && _] => destruct (Z.leb_spec a b)
            | |- context [_ && (?a <? ?b)] => destruct (Z.ltb_spec a b)
            end; cbn; try reflexivity; lia. }
      rewrite (N r0 d0 B0), (N r1 d1 B1). reflexivity.
Qed.

(** X17.  End to end, 00523.  With the chunk open and the buffer empty,
    and the 00609 machine between bitstreams, a pulse train that classifies
    as the 48 bit pairs of [b] makes the sketch hand exactly one payload to
    [updateStats] when a registered device accepts [b] -- the payload of
    the first such device -- and none otherwise. *)
Theorem dispatch523 (st : Monitor.t) (cs : list call) (b : Z) :
  Acurite523.Model.chunk_open (Monitor.acurite523 st) = true ->
  Acurite523.Model.bitstream_size (Monitor.acurite523 st) = 0 ->
  Acurite523.Model.bitstream (Monitor.acurite523 st) = 0 ->
  Acurite609.Model.bitstream_open (Monitor.acurite609 st) = false ->
  Acurite609.Model.bitstream_size (Monitor.acurite609 st) <> 40 ->
  0 <= b < 2 ^ 48 ->
  signals523 cs = flat_map halves523 (bits_msb 48 b) ->
  payloads st cs
  = match Monitor.scan523 (Monitor.devices523 st) b with
    | Some p => [p]
    | None => []
    end.
Proof.
  intros Hc Hs Hb Ho6 Hs6 Hr Hsig.
  destruct (block523_frames _ cs b Hc Hs Hb Hr Hsig) as [R5 _].
  destruct (bit_train523 _ cs Hsig) as [Hlong Hcnt].
  destruct (silent609 cs _ Ho6 Hs6 Hcnt) as [R6 _].
  destruct (split_last_result523 _ cs _ b R5) as [xs [c [-> [Z5 E5]]]].
  destruct (zeros_prefix609 _ xs c R6) as [Z6 E6].
  rewrite forallb_app in Hlong. apply andb_prop in Hlong.
  destruct Hlong as [Hlx Hlc]. cbn [forallb] in Hlc.
  rewrite andb_true_r in Hlc.
  destruct (quiet_calls xs st Hlx Z5 Z6) as [P Hrun].
  rewrite payloads_snoc, P, Hrun. cbn [app].
  destruct c as [duration rfs|];
    cbn [on_call step523 step609 long_enough] in *.
  - rewrite Hlc, parseRf_cases. cbv zeta.
    cbn [Monitor.acurite523 Monitor.devices523 Monitor.acurite609
         Monitor.devices609].
    rewrite E5, E6.
    destruct (Z.eqb_spec b 0) as [->|Hne].
    + now rewrite scan523_zero.
    + destruct (Monitor.scan523 (Monitor.devices523 st) b); reflexivity.
  - cbn [fst] in E5. subst b. now rewrite scan523_zero.
Qed.

Lemma dispatch523_witness :
  let st := run_monitor Monitor.init preamble523 in
  let cs := flat_map pulse523 (bits_msb 48 0xC07CC90F5064) in
  (Acurite523.Model.chunk_open (Monitor.acurite523 st) = true /\
   signals523 cs = flat_map halves523 (bits_msb 48 0xC07CC90F5064)) /\
  payloads st cs
  = [mkPayload TAG_TEMPMONITOR MODEL_ACURITE523 DEVICE_FRIDGE
       STATUS_OK 3 111 0].
Proof.
  cbv zeta.
  assert (Hc : Acurite523.Model.chunk_open
                 (Monitor.acurite523 (run_monitor Monitor.init preamble523))
               = true) by (vm_compute; reflexivity).
  assert (Hs : Acurite523.Model.bitstream_size
                 (Monitor.acurite523 (run_monitor Monitor.init preamble523))
               = 0) by (vm_compute; reflexivity).
  assert (Hb : Acurite523.Model.bitstream
                 (Monitor.acurite523 (run_monitor Monitor.init preamble523))
               = 0) by (vm_compute; reflexivity).
  assert (Ho : Acurite609.Model.bitstream_open
                 (Monitor.acurite609 (run_monitor Monitor.init preamble523))
               = false) by (vm_compute; reflexivity).
  assert (Hs6 : Acurite609.Model.bitstream_size
                  (Monitor.acurite609 (run_monitor Monitor.init preamble523))
                <> 40) by (vm_compute; discriminate).
  assert (Hr : 0 <= 0xC07CC90F5064 < 2 ^ 48) by lia.
  assert (Hsig : signals523 (flat_map pulse523 (bits_msb 48 0xC07CC90F5064))
                 = flat_map halves523 (bits_msb 48 0xC07CC90F5064))
    by (vm_compute; reflexivity).
  assert (Hscan : Monitor.scan523
                    (Monitor.devices523
                       (run_monitor Monitor.init preamble523))
                    0xC07CC90F5064
                  = Some (mkPayload TAG_TEMPMONITOR MODEL_ACURITE523
                            DEVICE_FRIDGE STATUS_OK 3 111 0))
    by (vm_compute; reflexivity).
  split; [exact (conj Hc Hsig)|].
  now rewrite (dispatch523 _ _ _ Hc Hs Hb Ho Hs6 Hr Hsig), Hscan.
Defined.

(** Both framing invariants hold in every state the sketch reaches. *)
Lemma monitor_strong (cs : list call) :
  forall st : Monitor.t,
    strong523 (Monitor.acurite523 st) ->
    strong609 (Monitor.acurite609 st) ->
    strong523 (Monitor.acurite523 (run_monitor st cs)) /\
    strong609 (Monitor.acurite609 (run_monitor st cs)).
Proof.
  induction cs as [|c cs IH]; intros st H5 H6; [split; assumption|].
  cbn [run_monitor fold_left]. fold (run_monitor (snd (on_call st c)) cs).
  apply IH.
  - destruct c as [duration rfs|]; cbn [on_call];
      [|apply strong523_clear, H5].
    destruct (100 <=? duration); [|exact H5].
    rewrite parseRf_cases. cbv zeta.
    pose proof (strong523_parse_rf _ duration rfs H5) as H5'.
    destruct (if fst _ =? 0 then None else Monitor.scan523 _ _);
      [apply strong523_clear, H5'|].
    destruct (if fst _ =? 0 then None else Monitor.scan609 _ _);
      [apply strong523_clear, H5' | exact H5'].
  - destruct c as [duration rfs|]; cbn [on_call];
      [|apply strong609_clear, H6].
    destruct (100 <=? duration); [|exact H6].
    rewrite parseRf_cases. cbv zeta.
    pose proof (strong609_parse_rf _ duration rfs H6) as H6'.
    destruct (if fst _ =? 0 then None else Monitor.scan523 _ _);
      [apply strong609_clear, H6|].
    destruct (if fst _ =? 0 then None else Monitor.scan609 _ _);
      [apply strong609_clear, H6' | exact H6'].
Qed.

(** Without the ON half of a bit the 00523 machine returns nothing. *)
Lemma silent523 (cs : list call) :
  forall m : Acurite523.Model.t,
    strong523 m ->
    count523 Acurite523.SIGNAL_BIT_0_ON cs = 0 ->
    count523 Acurite523.SIGNAL_BIT_1_ON cs = 0 ->
    results523 m cs = repeat 0 (length cs).
Proof.
  induction cs as [|c cs IH]; intros m Hm C0 C1; [reflexivity|].
  rewrite count523_cons in C0, C1.
  pose proof (count523_nonneg Acurite523.SIGNAL_BIT_0_ON cs).
  pose proof (count523_nonneg Acurite523.SIGNAL_BIT_1_ON cs).
  cbn [results523 length repeat].
  destruct c as [duration rfs|].
  - destruct (Acurite523.signal_eqb
                (Acurite523.Model.get_rfs_type rfs duration)
                Acurite523.SIGNAL_BIT_0_ON) eqn:T0; [lia|].
    destruct (Acurite523.signal_eqb
                (Acurite523.Model.get_rfs_type rfs duration)
                Acurite523.SIGNAL_BIT_1_ON) eqn:T1; [lia|].
    rewrite (IH _ (strong523_step m (ParseRf duration rfs) Hm)) by lia.
    f_equal. cbn [step523].
    destruct (Z.eq_dec (fst (Acurite523.Model.parse_rf m duration rfs)) 0)
      as [E|E]; [exact E|].
    destruct (emit523 m duration rfs Hm E) as [_ [_ [K _]]].
    destruct K as [[_ [T _]]|[_ [T _]]]; rewrite T in *; discriminate.
  - rewrite (IH _ (strong523_step m Clear Hm)) by lia. reflexivity.
Qed.

(** X18.  End to end, 00609.  In every state the sketch reaches with no
    00609 bitstream open, an idle, a bitstream-start pulse and the 40
    idle/bit pairs of [b] (pulses of at least 100 microseconds, none of
    them an ON bit half for the 00523 classifier) hand exactly one payload
    to [updateStats] when a freshly constructed outdoor device accepts [b]
    and none otherwise: the signature of earlier blocks is not enforced. *)
Theorem dispatch609 (pre cs : list call) (b : Z) :
  Acurite609.Model.bitstream_open
    (Monitor.acurite609 (run_monitor Monitor.init pre)) = false ->
  forallb long_enough cs = true ->
  count523 Acurite523.SIGNAL_BIT_0_ON cs = 0 ->
  count523 Acurite523.SIGNAL_BIT_1_ON cs = 0 ->
  0 <= b < 2 ^ 40 ->
  signals609 cs
  = Some Acurite609.SIGNAL_OFF :: Some Acurite609.SIGNAL_BITSTREAM_START
    :: flat_map halves609 (bits_msb 40 b) ->
  payloads (run_monitor Monitor.init pre) cs
  = if fst (Acurite609.Device.validate_bitstream
              (Acurite609.Device.new DEVICE_OUTDOOR) b)
    then [Acurite609.Device.create_payload
            (snd (Acurite609.Device.validate_bitstream
                    (Acurite609.Device.new DEVICE_OUTDOOR) b)) STATUS_OK]
    else [].
Proof.
  intros Ho Hlong C0 C1 Hr Hsig.
  set (st := run_monitor Monitor.init pre) in *.
  destruct (monitor_strong pre Monitor.init strong523_init strong609_init)
    as [H5 H6].
  fold st in H5, H6.
  assert (Hs6 : Acurite609.Model.bitstream_size (Monitor.acurite609 st) <> 40).
  { destruct H6 as [_ Hlt]. unfold Acurite609.SIGNAL_BIT_LENGTH in Hlt. lia. }
  destruct (frame609_frames _ cs b Ho Hs6 Hr Hsig) as [R6 _].
  pose proof (silent523 cs _ H5 C0 C1) as R5.
  destruct (split_last_result609 _ cs _ b R6) as [xs [c [-> [Z6 E6]]]].
  destruct (zeros_prefix523 _ xs c R5) as [Z5 E5].
  rewrite forallb_app in Hlong. apply andb_prop in Hlong.
  destruct Hlong as [Hlx Hlc]. cbn [forallb] in Hlc.
  rewrite andb_true_r in Hlc.
  destruct (quiet_calls xs st Hlx Z5 Z6) as [P Hrun].
  rewrite payloads_snoc, P, Hrun. cbn [app].
  assert (Hdev : Monitor.devices609 st
                 = [Acurite609.Device.new DEVICE_OUTDOOR])
    by (apply (devices_fixed pre Monitor.init)).
  set (outdoor := Acurite609.Device.new DEVICE_OUTDOOR) in *.
  assert (Hscan : Monitor.scan609 (Monitor.devices609 st) b
                  = if fst (Acurite609.Device.validate_bitstream outdoor b)
                    then Some (Acurite609.Device.create_payload
                                 (snd (Acurite609.Device.validate_bitstream
                                         outdoor b)) STATUS_OK)
                    else None).
  { rewrite Hdev. cbn [Monitor.scan609].
    destruct (Acurite609.Device.validate_bitstream outdoor b) as [ok d'].
    destruct ok; reflexivity. }
  destruct c as [duration rfs|];
    cbn [on_call step523 step609 long_enough] in *.
  - rewrite Hlc, parseRf_cases. cbv zeta.
    cbn [Monitor.acurite523 Monitor.devices523 Monitor.acurite609
         Monitor.devices609].
    rewrite E5, E6. cbn [Z.eqb fst snd].
    destruct (Z.eqb_spec b 0) as [->|Hne].
    + cbn [fst]. now rewrite validate609_cases.
    + cbn [fst]. rewrite Hscan.
      destruct (fst (Acurite609.Device.validate_bitstream outdoor b));
        reflexivity.
  - cbn [fst] in E6. subst b. now rewrite validate609_cases.
Qed.

Lemma dispatch609_witness :
  let pre := frame609 0x0F2123277A in
  let cs := frame609 0xC0A15B25E1 in
  (Acurite609.Model.bitstream_open
     (Monitor.acurite609 (run_monitor Monitor.init pre)) = false /\
   payloads Monitor.init pre
   = [mkPayload TAG_TEMPMONITOR MODEL_ACURITE609 DEVICE_OUTDOOR
        STATUS_OK 0 291 390] /\
   forallb long_enough cs = true /\
   signals609 cs
   = Some Acurite609.SIGNAL_OFF :: Some Acurite609.SIGNAL_BITSTREAM_START
     :: flat_map halves609 (bits_msb 40 0xC0A15B25E1)) /\
  payloads (run_monitor Monitor.init pre) cs
  = [mkPayload TAG_TEMPMONITOR MODEL_ACURITE609 DEVICE_OUTDOOR
       STATUS_OK 2 347 370].
Proof.
  cbv zeta.
  assert (Ho : Acurite609.Model.bitstream_open
                 (Monitor.acurite609
                    (run_monitor Monitor.init (frame609 0x0F2123277A)))
               = false) by (vm_compute; reflexivity).
  assert (Hp : payloads Monitor.init (frame609 0x0F2123277A)
               = [mkPayload TAG_TEMPMONITOR MODEL_ACURITE609 DEVICE_OUTDOOR
                    STATUS_OK 0 291 390]) by (vm_compute; reflexivity).
  assert (Hl : forallb long_enough (frame609 0xC0A15B25E1) = true)
    by (vm_compute; reflexivity).
  assert (C0 : count523 Acurite523.SIGNAL_BIT_0_ON (frame609 0xC0A15B25E1)
               = 0) by (vm_compute; reflexivity).
  assert (C1 : count523 Acurite523.SIGNAL_BIT_1_ON (frame609 0xC0A15B25E1)
               = 0) by (vm_compute; reflexivity).
  assert (Hr : 0 <= 0xC0A15B25E1 < 2 ^ 40) by lia.
  assert (Hsig : signals609 (frame609 0xC0A15B25E1)
                 = Some Acurite609.SIGNAL_OFF
                   :: Some Acurite609.SIGNAL_BITSTREAM_START
                   :: flat_map halves609 (bits_msb 40 0xC0A15B25E1))
    by (vm_compute; reflexivity).
  split; [exact (conj Ho (conj Hp (conj Hl Hsig)))|].
  rewrite (dispatch609 _ _ _ Ho Hl C0 C1 Hr Hsig).
  vm_compute. reflexivity.
Defined.

(** ** Closing a chunk *)

Lemma close_step523 (m : Acurite523.Model.t) (duration rfs : Z) :
  Acurite523.Model.chunk_open m = true ->
  Acurite523.Model.chunk_open
    (snd (Acurite523.Model.parse_rf m duration rfs)) = false ->
  Acurite523.Model.last_rfs_type m = Acurite523.SIGNAL_BIT_0_OFF /\
  Acurite523.Model.get_rfs_type rfs duration = Acurite523.SIGNAL_CHUNK_END.
Proof.
  unfold Acurite523.Model.parse_rf.
  generalize (Acurite523.Model.get_rfs_type rfs duration) as ty. intros ty.
  destruct m as [ia co bs sz bo cnt last]; eval523. intros ->.
  destruct last, ty; eval523; repeat (split_test; eval523);
    intros Hcl; try discriminate Hcl; split; reflexivity.
Qed.

Lemma close_step609 (m : Acurite609.Model.t) (duration rfs : Z) :
  Acurite609.Model.chunk_open m = true ->
  Acurite609.Model.chunk_open
    (snd (Acurite609.Model.parse_rf m duration rfs)) = false ->
  Acurite609.Model.last_rfs_type m = Acurite609.SIGNAL_OFF /\
  Acurite609.Model.get_rfs_type rfs duration = Acurite609.SIGNAL_CHUNK_END.
Proof.
  unfold Acurite609.Model.parse_rf.
  generalize (Acurite609.Model.get_rfs_type rfs duration) as ty. intros ty.
  destruct m as [bs sz last ia bo co]; eval609. intros ->.
  destruct last, ty, bo; eval609; repeat (split_test; eval609);
    intros Hcl; try discriminate Hcl; split; reflexivity.
Qed.

(** X19.  An open chunk is closed by nothing but a CHUNK_END pulse (one
    that directly follows a BIT_0_OFF pulse for 00523, an idle for 00609):
    over any call sequence without a CHUNK_END pulse, [clear] calls
    included, a chunk that is open stays open. *)
Theorem chunk_stays_open
    (cs : list call)
    (m5 : Acurite523.Model.t) (m6 : Acurite609.Model.t) :
  (Acurite523.Model.chunk_open m5 = true ->
   count523 Acurite523.SIGNAL_CHUNK_END cs = 0 ->
   Acurite523.Model.chunk_open (run523 m5 cs) = true) /\
  (Acurite609.Model.chunk_open m6 = true ->
   count609 Acurite609.SIGNAL_CHUNK_END cs = 0 ->
   Acurite609.Model.chunk_open (run609 m6 cs) = true).
Proof.
  split.
  - revert m5. induction cs as [|c cs IH]; intros m Hc Hn; [exact Hc|].
    rewrite count523_cons in Hn.
    pose proof (count523_nonneg Acurite523.SIGNAL_CHUNK_END cs).
    cbn [run523 fold_left]. fold (run523 (snd (step523 m c)) cs).
    destruct c as [duration rfs|]; cbn [step523 snd].
    + destruct (Acurite523.signal_eqb
                  (Acurite523.Model.get_rfs_type rfs duration)
                  Acurite523.SIGNAL_CHUNK_END) eqn:T; [lia|].
      apply IH; [|lia].
      destruct (Acurite523.Model.chunk_open
                  (snd (Acurite523.Model.parse_rf m duration rfs))) eqn:E;
        [reflexivity|].
      destruct (close_step523 m duration rfs Hc E) as [_ T'].
      rewrite T' in T. discriminate T.
    + apply IH; [|lia]. destruct m; exact Hc.
  - revert m6. induction cs as [|c cs IH]; intros m Hc Hn; [exact Hc|].
    rewrite count609_cons in Hn.
    pose proof (count609_nonneg Acurite609.SIGNAL_CHUNK_END cs).
    cbn [run609 fold_left]. fold (run609 (snd (step609 m c)) cs).
    destruct c as [duration rfs|]; cbn [step609 snd].
    + destruct (Acurite609.signal_eqb
                  (Acurite609.Model.get_rfs_type rfs duration)
                  Acurite609.SIGNAL_CHUNK_END) eqn:T; [lia|].
      apply IH; [|lia].
      destruct (Acurite609.Model.chunk_open
                  (snd (Acurite609.Model.parse_rf m duration rfs))) eqn:E;
        [reflexivity|].
      destruct (close_step609 m duration rfs Hc E) as [_ T'].
      rewrite T' in T. discriminate T.
    + apply IH; [|lia]. destruct m; exact Hc.
Qed.

Lemma chunk_stays_open_witness :
  let m5 := run523 Acurite523.Model.init preamble523 in
  let m6 := run609 Acurite609.Model.init start609 in
  let cs := [ParseRf 200 0; ParseRf 70000 1; Clear; ParseRf 9000 0;
             ParseRf 15000 1; ParseRf 600 0; ParseRf 600 1] in
  (Acurite523.Model.chunk_open m5 = true /\
   count523 Acurite523.SIGNAL_CHUNK_END cs = 0 /\
   Acurite523.Model.chunk_open (run523 m5 cs) = true) /\
  (Acurite609.Model.chunk_open m6 = true /\
   count609 Acurite609.SIGNAL_CHUNK_END cs = 0 /\
   Acurite609.Model.chunk_open (run609 m6 cs) = true).
Proof.
  cbv zeta.
  pose proof (chunk_stays_open
                [ParseRf 200 0; ParseRf 70000 1; Clear; ParseRf 9000 0;
                 ParseRf 15000 1; ParseRf 600 0; ParseRf 600 1]
                (run523 Acurite523.Model.init preamble523)
                (run609 Acurite609.Model.init start609)) as [T5 T6].
  assert (H5 : Acurite523.Model.chunk_open
                 (run523 Acurite523.Model.init preamble523) = true)
    by reflexivity.
  assert (H6 : Acurite609.Model.chunk_open
                 (run609 Acurite609.Model.init start609) = true)
    by reflexivity.
  assert (C5 : count523 Acurite523.SIGNAL_CHUNK_END
                 [ParseRf 200 0; ParseRf 70000 1; Clear; ParseRf 9000 0;
                  ParseRf 15000 1; ParseRf 600 0; ParseRf 600 1] = 0)
    by reflexivity.
  assert (C6 : count609 Acurite609.SIGNAL_CHUNK_END
                 [ParseRf 200 0; ParseRf 70000 1; Clear; ParseRf 9000 0;
                  ParseRf 15000 1; ParseRf 600 0; ParseRf 600 1] = 0)
    by reflexivity.
  exact (conj (conj H5 (conj C5 (T5 H5 C5)))
              (conj H6 (conj C6 (T6 H6 C6)))).
Defined.
